(** * Recurring transactions, queries and statistics of the spendings backend

    A shallow embedding of [internal/service] (the transactions service,
    the statistics service) and of the parts of Go's [time], [strings] and
    [strconv] packages that this code calls, followed by the properties of
    the design document, each settled against the embedding. *)

From Stdlib Require Import ZArith Lia List Bool Ascii String DecimalString Floats.
From stdpp Require Import gmap strings list fin_maps.

Local Open Scope Z_scope.

(** ** Go's [time] package

    A [time.Time] is an instant together with a location.  The instant is
    kept as the number of nanoseconds since the zero time (January 1, year 1,
    00:00:00 UTC); a location is a fixed offset from UTC, in nanoseconds.
    Daylight-saving transitions are outside the model, and so are the
    monotonic clock reading and the bounded range of Go's representation. *)
Module GoTime.

Record Time := mkTime { abs : Z; off : Z }.

Definition nsPerDay : Z := 86400 * 1000000000.

(** [time.Time{}] *)
Definition zeroTime : Time := mkTime 0 0.

Definition IsZero (t : Time) : bool := abs t =? 0.
Definition After (t u : Time) : bool := abs u <? abs t.
Definition Before (t u : Time) : bool := abs t <? abs u.
Definition Equal (t u : Time) : bool := abs t =? abs u.

(** Wall-clock reading of [t] in its own location. *)
Definition wall (t : Time) : Z := abs t + off t.
Definition dayNumber (t : Time) : Z := wall t / nsPerDay.
Definition timeOfDay (t : Time) : Z := wall t mod nsPerDay.

(** *** The proleptic Gregorian calendar *)

Definition isLeap (y : Z) : bool :=
  (y mod 4 =? 0) && (negb (y mod 100 =? 0) || (y mod 400 =? 0)).

Definition daysInYear (y : Z) : Z := if isLeap y then 366 else 365.

(** Days from January 1 of year 1 to January 1 of year [y]. *)
Definition daysBeforeYear (y : Z) : Z :=
  365 * (y - 1) + (y - 1) / 4 - (y - 1) / 100 + (y - 1) / 400.

Definition daysIn (y m : Z) : Z :=
  if m =? 2 then (if isLeap y then 29 else 28)
  else if (m =? 4) || (m =? 6) || (m =? 9) || (m =? 11) then 30
  else 31.

(** Days from January 1 of year [y] to the first of month [m] (1..12). *)
Definition daysBeforeMonth (y m : Z) : Z :=
  (if m =? 1 then 0 else if m =? 2 then 31 else if m =? 3 then 59
   else if m =? 4 then 90 else if m =? 5 then 120 else if m =? 6 then 151
   else if m =? 7 then 181 else if m =? 8 then 212 else if m =? 9 then 243
   else if m =? 10 then 273 else if m =? 11 then 304 else 334)
  + (if isLeap y && (3 <=? m) then 1 else 0).

(** Day number of a civil date.  As in [time.Date], the month is first
    normalised into 1..12 with the overflow carried into the year, and the
    day may lie outside the month: it is simply counted on. *)
Definition daysFromCivil (y m d : Z) : Z :=
  let y' := y + (m - 1) / 12 in
  let m' := (m - 1) mod 12 + 1 in
  daysBeforeYear y' + daysBeforeMonth y' m' + (d - 1).

(** Year and day within the year of a day number: 400-, 100-, 4- and
    1-year cycles, as in [time.absDate]. *)
Definition yearDay (n : Z) : Z * Z :=
  let n400 := n / 146097 in
  let r0 := n mod 146097 in
  let c := Z.min (r0 / 36524) 3 in
  let r1 := r0 - 36524 * c in
  let q := r1 / 1461 in
  let r2 := r1 mod 1461 in
  let e := Z.min (r2 / 365) 3 in
  (400 * n400 + 100 * c + 4 * q + e + 1, r2 - 365 * e).

(** Month and day of the month of the [yd]-th day (from 0) of year [y]. *)
Definition monthDay (y yd : Z) : Z * Z :=
  let l := if isLeap y then 1 else 0 in
  if yd <? 31 then (1, yd + 1)
  else if yd <? 59 + l then (2, yd - 30)
  else if yd <? 90 + l then (3, yd - 58 - l)
  else if yd <? 120 + l then (4, yd - 89 - l)
  else if yd <? 151 + l then (5, yd - 119 - l)
  else if yd <? 181 + l then (6, yd - 150 - l)
  else if yd <? 212 + l then (7, yd - 180 - l)
  else if yd <? 243 + l then (8, yd - 211 - l)
  else if yd <? 273 + l then (9, yd - 242 - l)
  else if yd <? 304 + l then (10, yd - 272 - l)
  else if yd <? 334 + l then (11, yd - 303 - l)
  else (12, yd - 333 - l).

Definition civilFromDays (n : Z) : Z * Z * Z :=
  let '(y, yd) := yearDay n in
  let '(m, d) := monthDay y yd in
  (y, m, d).

Definition Year (t : Time) : Z := fst (fst (civilFromDays (dayNumber t))).
Definition Month (t : Time) : Z := snd (fst (civilFromDays (dayNumber t))).
Definition Day (t : Time) : Z := snd (civilFromDays (dayNumber t)).

(** [time.Weekday]: Sunday = 0, ..., Saturday = 6.  January 1 of year 1 is
    a Monday. *)
Definition Weekday (t : Time) : Z := (dayNumber t + 1) mod 7.

(** [time.Date(y, m, d, 0, 0, 0, nsec, loc)] with the time of day given in
    nanoseconds since midnight. *)
Definition Date (y m d tod loc : Z) : Time :=
  mkTime (daysFromCivil y m d * nsPerDay + tod - loc) loc.

(** [t.AddDate(years, months, days)]: the civil date of [t] is shifted and
    normalised by [Date]; time of day and location are kept. *)
Definition AddDate (t : Time) (years months days : Z) : Time :=
  Date (Year t + years) (Month t + months) (Day t + days) (timeOfDay t) (off t).

(** [t.Add(d)], [d] in nanoseconds. *)
Definition Add (t : Time) (d : Z) : Time := mkTime (abs t + d) (off t).

(** [t.Truncate(24 * time.Hour)]: rounds the instant down to a multiple of
    24 hours since the zero time, whatever the location. *)
Definition Truncate24h (t : Time) : Time :=
  mkTime (abs t - abs t mod nsPerDay) (off t).

End GoTime.

(** ** Go's [strings] and [strconv] packages

    A Go string is a sequence of bytes.  [TrimSpace] and [ToLower] are
    modelled on their ASCII range: a byte from 128 up is neither white
    space nor a letter. *)
Module GoStrings.

Local Open Scope string_scope.
Local Open Scope Z_scope.

Definition byteOf (c : ascii) : Z := Z.of_N (N_of_ascii c).

(** [strings.Split(s, ",")]: never empty; [Split "" = [""]]. *)
Fixpoint Split (s : string) : list string :=
  match s with
  | EmptyString => [EmptyString]
  | String c r =>
      if Ascii.eqb c ","%char then EmptyString :: Split r
      else match Split r with
           | h :: t => String c h :: t
           | [] => [String c EmptyString]
           end
  end.

(** The ASCII white space of [unicode.IsSpace]: tab, line feed, vertical
    tab, form feed, carriage return and space. *)
Definition isSpace (c : ascii) : bool :=
  let n := byteOf c in ((9 <=? n) && (n <=? 13)) || (n =? 32).

Fixpoint trimLeft (s : string) : string :=
  match s with
  | EmptyString => EmptyString
  | String c r => if isSpace c then trimLeft r else s
  end.

Fixpoint trimRight (s : string) : string :=
  match s with
  | EmptyString => EmptyString
  | String c r =>
      match trimRight r with
      | EmptyString => if isSpace c then EmptyString else String c EmptyString
      | r' => String c r'
      end
  end.

Definition TrimSpace (s : string) : string := trimRight (trimLeft s).

Definition lowerByte (c : ascii) : ascii :=
  let n := byteOf c in
  if (65 <=? n) && (n <=? 90) then ascii_of_N (Z.to_N (n + 32)) else c.

Fixpoint ToLower (s : string) : string :=
  match s with
  | EmptyString => EmptyString
  | String c r => String (lowerByte c) (ToLower r)
  end.

(** Go's [int] on a 64-bit platform. *)
Definition minInt : Z := - 2 ^ 63.
Definition maxInt : Z := 2 ^ 63 - 1.
Definition wrapInt (z : Z) : Z := (z + 2 ^ 63) mod 2 ^ 64 - 2 ^ 63.

Definition digitOf (c : ascii) : option Z :=
  let n := byteOf c in
  if (48 <=? n) && (n <=? 57) then Some (n - 48) else None.

Fixpoint parseDigits (acc : Z) (s : string) : option Z :=
  match s with
  | EmptyString => Some acc
  | String c r =>
      match digitOf c with
      | Some d => parseDigits (acc * 10 + d) r
      | None => None
      end
  end.

(** [strconv.Atoi]: an optional sign and at least one decimal digit;
    [None] stands for a non-nil error (syntax or range). *)
Definition Atoi (s : string) : option Z :=
  match s with
  | EmptyString => None
  | String c r =>
      let neg := Ascii.eqb c "-"%char in
      let body := if neg || Ascii.eqb c "+"%char then r else s in
      match body with
      | EmptyString => None
      | _ =>
          match parseDigits 0 body with
          | Some n =>
              let v := if neg then - n else n in
              if (minInt <=? v) && (v <=? maxInt) then Some v else None
          | None => None
          end
      end
  end.

(** [strconv.Itoa] *)
Definition Itoa (z : Z) : string := NilZero.string_of_int (Z.to_int z).

End GoStrings.

Local Open Scope string_scope.
Local Open Scope Z_scope.

(** ** [internal/models] *)

(** The reserved category of incomes. *)
Definition IncomeCategory : string := "Доходы".

(** [models.Transaction], with [NextAppearDate] a [time.Time] value as the
    transactions service uses it: the zero time stands for "not set". *)
Record Transaction := mkTransaction {
  ID : string;
  Amount : float;
  Title : string;
  Category : string;
  Date : GoTime.Time;
  NextAppearDate : GoTime.Time;
  RepeatTime : string
}.

(** [models.CreateTransactionRequest]; its fields carry the prefix [req]
    here. *)
Record CreateTransactionRequest := mkCreateTransactionRequest {
  reqAmount : float;
  reqTitle : string;
  reqCategory : string;
  reqDate : string;
  reqRepeatTime : string
}.

Record TransactionsResponse := mkTransactionsResponse {
  CurrentPage : Z;
  TotalPages : Z;
  Data : list Transaction
}.

Record GeneralStatistics := mkGeneralStatistics {
  Income : float;
  Expenses : float;
  Balance : float
}.

(** [models.SpendingCurveInfo]; its [Date] field is [CurveDate] here. *)
Record SpendingCurveInfo := mkSpendingCurveInfo {
  AverageSpending : float;
  CurrentSpending : float;
  CurveDate : string
}.

(** [models.StatisticsResponse]; its fields [GeneralStatistics] and
    [SpendingCurveInfo] carry the suffix [Of] here. *)
Record StatisticsResponse := mkStatisticsResponse {
  GeneralStatisticsOf : GeneralStatistics;
  BalanceChangesByDate : gmap string float;
  SpendingCurveInfoOf : list SpendingCurveInfo;
  FromDate : string;
  ToDate : string
}.

(** Errors of the service.  [validateRepeatString] builds the first two
    with [fmt.Errorf]; [CreateTransaction] wraps what it meets into
    [models.ErrBadRequest]. *)
Inductive error :=
| InvalidDayNumber (num : Z)
| InvalidWeekday (part : string)
| BadRequestDate
| BadRequestRepeat (cause : error).

(** What a call does: it returns, or the goroutine panics. *)
Inductive outcome (A : Type) :=
| Returned (a : A)
| Panicked.
Arguments Returned {A} a.
Arguments Panicked {A}.

(** [ts.transactions]: user id -> transaction id -> transaction. *)
Abbreviation Store := (gmap string (gmap string Transaction)).

(** [for _, v := range m]: Go leaves the order open; the model takes the
    order of [map_to_list]. *)
Definition rangeValues {V} (m : gmap string V) : list V := (map_to_list m).*2.

(** ** The repeat specification: [convertToWeekDay], [validateRepeatString],
    [calculateNextAppearDate] *)

Definition convertToWeekDay (day : string) : option Z :=
  let d := GoStrings.ToLower day in
  if (d =? "mon")%string || (d =? "monday")%string then Some 1
  else if (d =? "tue")%string || (d =? "tuesday")%string then Some 2
  else if (d =? "wed")%string || (d =? "wednesday")%string then Some 3
  else if (d =? "thu")%string || (d =? "thursday")%string then Some 4
  else if (d =? "fri")%string || (d =? "friday")%string then Some 5
  else if (d =? "sat")%string || (d =? "saturday")%string then Some 6
  else if (d =? "sun")%string || (d =? "sunday")%string then Some 0
  else None.

(** The body of the validation loop for one part: [None] lets the loop go
    on, [Some e] is the error it returns. *)
Definition validatePart (part : string) : option error :=
  let part := GoStrings.TrimSpace part in
  if (part =? "")%string then None
  else match GoStrings.Atoi part with
       | Some num =>
           if (num <? 1) || (31 <? num) then Some (InvalidDayNumber num)
           else None
       | None =>
           match convertToWeekDay part with
           | Some _ => None
           | None => Some (InvalidWeekday part)
           end
       end.

Fixpoint validateParts (parts : list string) : option error :=
  match parts with
  | [] => None
  | part :: rest =>
      match validatePart part with
      | Some e => Some e
      | None => validateParts rest
      end
  end.

(** [None] is the nil error. *)
Definition validateRepeatString (repeatTime : string) : option error :=
  if (repeatTime =? "")%string then None
  else validateParts (GoStrings.Split repeatTime).

(** The date a trimmed, non-empty part of the specification proposes
    ([nextTime] in the source), if it proposes one. *)
Definition candidate (now : GoTime.Time) (nextEvent : string) : option GoTime.Time :=
  match GoStrings.Atoi nextEvent with
  | Some date =>
      let inMonth :=
        GoTime.Date (GoTime.Year now) (GoTime.Month now) date 0 (GoTime.off now) in
      Some (if GoTime.Day now <=? date then inMonth
            else GoTime.AddDate inMonth 0 1 0)
  | None =>
      match convertToWeekDay nextEvent with
      | Some weekday =>
          let daysUntilWeekday := weekday - GoTime.Weekday now in
          let daysUntilWeekday :=
            if daysUntilWeekday <=? 0 then daysUntilWeekday + 7
            else daysUntilWeekday in
          let nextTime := GoTime.AddDate now 0 0 daysUntilWeekday in
          Some (GoTime.Date (GoTime.Year nextTime) (GoTime.Month nextTime)
                  (GoTime.Day nextTime) 0 (GoTime.off now))
      | None => None
      end
  end.

(** One turn of the loop over [repeatTimes]. *)
Definition nextAppearStep (now nextAppearDate : GoTime.Time) (nextEvent : string)
  : GoTime.Time :=
  let nextEvent := GoStrings.TrimSpace nextEvent in
  if (nextEvent =? "")%string then nextAppearDate
  else match candidate now nextEvent with
       | Some nextTime =>
           if GoTime.After nextAppearDate nextTime then nextTime
           else nextAppearDate
       | None => nextAppearDate
       end.

(** The result and the error, which is always nil. *)
Definition calculateNextAppearDate (now : GoTime.Time) (repeatTime : string)
  : GoTime.Time * option error :=
  (fold_left (nextAppearStep now) (GoStrings.Split repeatTime)
     (GoTime.AddDate now 1 0 0), None).

(** ** The transactions service *)

Definition NewTransactionsService (initialData : option Store) : Store :=
  match initialData with
  | Some d => d
  | None => ∅
  end.

Definition hour : Z := 3600 * 1000000000.

(** The demo data of a new user.  [now] is the reading of [time.Now()]. *)
Definition getInitialTransactions (now : GoTime.Time) : gmap string Transaction :=
  <["c38bcbd2-e3c5-4a03-9001-bfcf763fbbdf" :=
      mkTransaction "c38bcbd2-e3c5-4a03-9001-bfcf763fbbdf" 100 "Вода в зале" "Еда"
        (GoTime.Add now (- 48 * hour)) GoTime.zeroTime ""]>
  (<["21867866-21d3-4846-bb5e-c56fbabec4f9" :=
      mkTransaction "21867866-21d3-4846-bb5e-c56fbabec4f9" 100 "Кино" "Развлечения"
        (GoTime.Add now (- 24 * 3 * hour)) GoTime.zeroTime ""]>
  (<["a4075928-12c4-44e9-ac2a-0cf4230d4575" :=
      mkTransaction "a4075928-12c4-44e9-ac2a-0cf4230d4575" 1000 "Зарплата" "Доходы"
        (GoTime.Add now (- 24 * 7 * hour)) (GoTime.AddDate now 0 1 0)
        (GoStrings.Itoa (GoTime.Day now))]>
   ∅)).

(** The two date tests of the filtering loops. *)
Definition inPeriod (fromDate toDate : GoTime.Time) (t : Transaction) : bool :=
  negb (negb (GoTime.IsZero fromDate) && GoTime.Before (Date t) fromDate)
  && negb (negb (GoTime.IsZero toDate) && GoTime.After (Date t) toDate).

Definition inCategories (categories : list string) (t : Transaction) : bool :=
  match categories with
  | [] => true
  | _ => existsb (String.eqb (Category t)) categories
  end.

(** [sort.Slice] with [less i j = Date i after Date j]: newest first.  Go
    leaves the order of equal dates open; the model keeps their order. *)
Fixpoint insertByDate (t : Transaction) (l : list Transaction) : list Transaction :=
  match l with
  | [] => [t]
  | x :: r =>
      if GoTime.After (Date x) (Date t) then x :: insertByDate t r
      else t :: l
  end.

Definition sortByDateDesc (l : list Transaction) : list Transaction :=
  foldr insertByDate [] l.

(** [int(math.Ceil(float64(n) / float64(pageSize)))], exact below 2^53.
    For [pageSize = 0] the quotient is infinite or not a number and the
    conversion gives the least [int] (amd64). *)
Definition totalPagesOf (n pageSize : Z) : Z :=
  if pageSize =? 0 then GoStrings.minInt else - ((- n) / pageSize).

(** [s[lo:hi]] for [hi] within the length. *)
Definition slice {A} (s : list A) (lo hi : Z) : outcome (list A) :=
  if (0 <=? lo) && (lo <=? hi) && (hi <=? Z.of_nat (length s))
  then Returned (take (Z.to_nat (hi - lo)) (drop (Z.to_nat lo) s))
  else Panicked.

(** The collection the service reads for [userID], and the store it leaves:
    an unknown user is given the demo data, but the local variable read
    before that is not read again and stays nil. *)
Definition lookupOrSeed (userID : string) (now : GoTime.Time) (ts : Store)
  : gmap string Transaction * Store :=
  match ts !! userID with
  | Some userTransactions => (userTransactions, ts)
  | None => (∅, <[userID := getInitialTransactions now]> ts)
  end.

(** The first loop of [GetTransactions] and the sort after it. *)
Definition filterTransactions (categories : list string)
    (fromDate toDate : GoTime.Time) (userTransactions : gmap string Transaction)
  : list Transaction :=
  sortByDateDesc
    (filter (fun t => inPeriod fromDate toDate t && inCategories categories t)
       (rangeValues userTransactions)).

Definition GetTransactions (userID : string) (categories : list string)
    (fromDate toDate : GoTime.Time) (page pageSize : Z)
    (now : GoTime.Time) (ts : Store) : outcome TransactionsResponse * Store :=
  let '(userTransactions, ts') := lookupOrSeed userID now ts in
  let filteredTransactions :=
    filterTransactions categories fromDate toDate userTransactions in
  let transactionsAmount := Z.of_nat (length filteredTransactions) in
  let totalPages := totalPagesOf transactionsAmount pageSize in
  let paginationStart :=
    GoStrings.wrapInt (GoStrings.wrapInt (page - 1) * pageSize) in
  if transactionsAmount <=? paginationStart then
    (Returned (mkTransactionsResponse page totalPages []), ts')
  else
    let paginationEnd := GoStrings.wrapInt (paginationStart + pageSize) in
    let paginationEnd :=
      if transactionsAmount <? paginationEnd then transactionsAmount
      else paginationEnd in
    (match slice filteredTransactions paginationStart paginationEnd with
     | Returned paginatedTransactions =>
         Returned (mkTransactionsResponse page totalPages paginatedTransactions)
     | Panicked => Panicked
     end, ts').

Definition GetAllTransactions (userID : string) (fromDate toDate : GoTime.Time)
    (now : GoTime.Time) (ts : Store) : list Transaction * Store :=
  let '(userTransactions, ts') := lookupOrSeed userID now ts in
  (sortByDateDesc
     (filter (fun t => inPeriod fromDate toDate t) (rangeValues userTransactions)),
   ts').

(** [time.Parse("2006-01-02", s)]: four digits, two digits, two digits, a
    month in 1..12 and a day of that month; the result is in UTC. *)
Definition twoDigits (a b : ascii) : option Z :=
  match GoStrings.digitOf a, GoStrings.digitOf b with
  | Some x, Some y => Some (10 * x + y)
  | _, _ => None
  end.

Definition parseDate (s : string) : option GoTime.Time :=
  match s with
  | String y1 (String y2 (String y3 (String y4 (String dash1
      (String m1 (String m2 (String dash2 (String d1 (String d2 EmptyString))))))))) =>
      if Ascii.eqb dash1 "-"%char && Ascii.eqb dash2 "-"%char then
        match twoDigits y1 y2, twoDigits y3 y4, twoDigits m1 m2, twoDigits d1 d2 with
        | Some yh, Some yl, Some m, Some d =>
            let y := 100 * yh + yl in
            if (1 <=? m) && (m <=? 12) && (1 <=? d) && (d <=? GoTime.daysIn y m)
            then Some (GoTime.Date y m d 0 0)
            else None
        | _, _, _, _ => None
        end
      else None
  | _ => None
  end.

(** [transactionID] is the string [uuid.New()] draws. *)
Definition CreateTransaction (userID : string) (req : CreateTransactionRequest)
    (transactionID : string) (now : GoTime.Time) (ts : Store)
  : (error + string) * Store :=
  match parseDate (reqDate req) with
  | None => (inl BadRequestDate, ts)
  | Some date =>
      match validateRepeatString (reqRepeatTime req) with
      | Some e => (inl (BadRequestRepeat e), ts)
      | None =>
          let transaction :=
            mkTransaction transactionID (reqAmount req) (reqTitle req)
              (reqCategory req) date GoTime.zeroTime (reqRepeatTime req) in
          let withNext :=
            if (reqRepeatTime req =? "")%string then inr transaction
            else match calculateNextAppearDate date (reqRepeatTime req) with
                 | (nextAppearDate, None) =>
                     inr (mkTransaction transactionID (reqAmount req) (reqTitle req)
                            (reqCategory req) date nextAppearDate (reqRepeatTime req))
                 | (_, Some e) => inl (BadRequestRepeat e)
                 end in
          match withNext with
          | inl e => (inl e, ts)
          | inr transaction =>
              let userTransactions :=
                match ts !! userID with
                | Some m => m
                | None => getInitialTransactions now
                end in
              (inr transactionID,
               <[userID := <[transactionID := transaction]> userTransactions]> ts)
          end
      end
  end.

(** The error is always nil; the store is what the call leaves. *)
Definition DeleteTransaction (userID : string) (id : string) (ts : Store) : Store :=
  match ts !! userID with
  | None => ts
  | Some userTransactions => <[userID := delete id userTransactions]> ts
  end.

(** The copy made for the backup: six fields are copied. *)
Definition backupTransaction (transaction : Transaction) : Transaction :=
  mkTransaction (ID transaction) (Amount transaction) (Title transaction)
    (Category transaction) (Date transaction) (NextAppearDate transaction) "".

Definition GetBackupData (ts : Store) : Store :=
  (fun transactions : gmap string Transaction =>
     backupTransaction <$> transactions) <$> ts.

Definition GetBackupFileName : string := "transactions".

(** *** [ProcessAllRecurringTransactions] *)

(** The test that puts a transaction on [transactionsToProcess]. *)
Definition dueToday (today : GoTime.Time) (transaction : Transaction) : bool :=
  negb (GoTime.IsZero (NextAppearDate transaction))
  && GoTime.Equal (GoTime.Truncate24h (NextAppearDate transaction)) today
  && negb (RepeatTime transaction =? "")%string.

Definition withRepeatTime (t : Transaction) (r : string) : Transaction :=
  mkTransaction (ID t) (Amount t) (Title t) (Category t) (Date t)
    (NextAppearDate t) r.

(** [newTransaction] of the source, with the identifier drawn for it. *)
Definition newTransactionOf (today : GoTime.Time) (newID : string)
    (originalTransaction : Transaction) : Transaction :=
  let base :=
    mkTransaction newID (Amount originalTransaction) (Title originalTransaction)
      (Category originalTransaction) today GoTime.zeroTime
      (RepeatTime originalTransaction) in
  match calculateNextAppearDate today (RepeatTime originalTransaction) with
  | (nextAppearDate, None) =>
      mkTransaction newID (Amount originalTransaction) (Title originalTransaction)
        (Category originalTransaction) today nextAppearDate
        (RepeatTime originalTransaction)
  | (_, Some _) => base
  end.

(** One turn of the second loop: the new transaction is stored, then the
    original, its repeat specification cleared, under its own [ID]. *)
Definition processOne (today : GoTime.Time) (newID : string)
    (originalTransaction : Transaction) (userTransactions : gmap string Transaction)
  : gmap string Transaction :=
  <[ID originalTransaction := withRepeatTime originalTransaction ""]>
    (<[newID := newTransactionOf today newID originalTransaction]> userTransactions).

(** The second loop.  [uuid k] is the [k]-th identifier [uuid.New()] draws
    during the call; the counter is threaded through. *)
Fixpoint processList (today : GoTime.Time) (uuid : nat -> string) (k : nat)
    (transactionsToProcess : list Transaction)
    (userTransactions : gmap string Transaction)
  : gmap string Transaction * nat :=
  match transactionsToProcess with
  | [] => (userTransactions, k)
  | originalTransaction :: rest =>
      processList today uuid (S k) rest
        (processOne today (uuid k) originalTransaction userTransactions)
  end.

Definition processUser (today : GoTime.Time) (uuid : nat -> string) (k : nat)
    (userTransactions : gmap string Transaction) : gmap string Transaction * nat :=
  processList today uuid k
    (filter (fun t => dueToday today t) (rangeValues userTransactions))
    userTransactions.

Fixpoint processUsers (today : GoTime.Time) (uuid : nat -> string) (k : nat)
    (users : list (string * gmap string Transaction)) (ts : Store) : Store :=
  match users with
  | [] => ts
  | (userID, userTransactions) :: rest =>
      let '(userTransactions', k') := processUser today uuid k userTransactions in
      processUsers today uuid k' rest (<[userID := userTransactions']> ts)
  end.

(** The error is always nil.  [now] is the reading of [time.Now()]. *)
Definition ProcessAllRecurringTransactions (now : GoTime.Time)
    (uuid : nat -> string) (ts : Store) : Store :=
  processUsers (GoTime.Truncate24h now) uuid 0 (map_to_list ts) ts.

(** ** The statistics service *)

(** [appendInt] of Go's [time] package: the digits of [x], padded with
    zeros to [width] digits, after the sign. *)
Definition appendInt (x : Z) (width : nat) : string :=
  let digits := GoStrings.Itoa (Z.abs x) in
  ((if (x <? 0)%Z then "-" else "")
   ++ String.concat "" (repeat "0" (width - String.length digits)%nat)
   ++ digits)%string.

(** [t.Format("2006-01-02")] *)
Definition FormatDate (t : GoTime.Time) : string :=
  (appendInt (GoTime.Year t) 4 ++ "-" ++ appendInt (GoTime.Month t) 2 ++ "-"
   ++ appendInt (GoTime.Day t) 2)%string.

Definition isIncome (t : Transaction) : bool :=
  (Category t =? IncomeCategory)%string.

Definition calculateGeneralStatistics (transactions : list Transaction)
  : GeneralStatistics :=
  let '(income, expenses) :=
    fold_left
      (fun (acc : float * float) transaction =>
         if isIncome transaction
         then ((fst acc + Amount transaction)%float, snd acc)
         else (fst acc, (snd acc + Amount transaction)%float))
      transactions (0%float, 0%float) in
  mkGeneralStatistics income expenses (income - expenses)%float.

(** The loop [for !currentDate.After(toDate)], one day at a time. *)
Fixpoint datesLoop (fuel : nat) (currentDate toDate : GoTime.Time)
  : list GoTime.Time :=
  match fuel with
  | O => []
  | S fuel' =>
      if GoTime.After currentDate toDate then []
      else currentDate :: datesLoop fuel' (GoTime.AddDate currentDate 0 0 1) toDate
  end.

(** The days of the period; the fuel is the number of turns the loop can
    take ([periodDates_fuel] below). *)
Definition periodDates (fromDate toDate : GoTime.Time) : list GoTime.Time :=
  datesLoop
    (Z.to_nat ((GoTime.abs toDate - GoTime.abs fromDate) / GoTime.nsPerDay + 1))
    fromDate toDate.

(** [m[k]] of a [map[string]float64]: 0 for a missing key. *)
Definition floatAt (m : gmap string float) (k : string) : float :=
  default 0%float (m !! k).

Definition calculateBalanceChangesByDate (transactions : list Transaction)
    (fromDate toDate : GoTime.Time) : gmap string float :=
  let balanceChanges :=
    fold_left (fun (m : gmap string float) currentDate =>
                 <[FormatDate currentDate := 0%float]> m)
      (periodDates fromDate toDate) ∅ in
  fold_left
    (fun (m : gmap string float) transaction =>
       let dateStr := FormatDate (Date transaction) in
       if isIncome transaction
       then <[dateStr := (floatAt m dateStr + Amount transaction)%float]> m
       else <[dateStr := (floatAt m dateStr - Amount transaction)%float]> m)
    transactions balanceChanges.

(** [expensesByDate] *)
Definition groupExpenses (allExpenseTransactions : list Transaction)
  : gmap string float :=
  fold_left
    (fun (m : gmap string float) transaction =>
       let dateStr := FormatDate (Date transaction) in
       <[dateStr := (floatAt m dateStr + Amount transaction)%float]> m)
    allExpenseTransactions ∅.

(** [transactionsByDate] *)
Definition groupByDate (transactions : list Transaction)
  : gmap string (list Transaction) :=
  fold_left
    (fun (m : gmap string (list Transaction)) transaction =>
       let dateStr := FormatDate (Date transaction) in
       <[dateStr := (default [] (m !! dateStr) ++ [transaction])%list]> m)
    transactions ∅.

(** The inner loop over [dayTransactions]. *)
Definition spendingOf (dayTransactions : list Transaction) : float :=
  fold_left
    (fun (currentSpending : float) transaction =>
       if negb (isIncome transaction)
       then (currentSpending + Amount transaction)%float
       else currentSpending)
    dayTransactions 0%float.

Definition curveEntry (expensesByDate : gmap string float)
    (transactionsByDate : gmap string (list Transaction)) (dateStr : string)
  : SpendingCurveInfo :=
  let currentSpending :=
    match transactionsByDate !! dateStr with
    | Some dayTransactions => spendingOf dayTransactions
    | None => 0%float
    end in
  let averageSpending :=
    if (0 <? floatAt expensesByDate dateStr)%float
    then floatAt expensesByDate dateStr
    else 0%float in
  mkSpendingCurveInfo averageSpending currentSpending dateStr.

Definition calculateSpendingCurve (userID : string)
    (transactions : list Transaction) (fromDate toDate : GoTime.Time)
    (now : GoTime.Time) (ts : Store) : list SpendingCurveInfo * Store :=
  let '(allExpenses, ts') :=
    GetAllTransactions userID GoTime.zeroTime GoTime.zeroTime now ts in
  let allExpenseTransactions :=
    filter (fun t => negb (isIncome t)) allExpenses in
  let expensesByDate := groupExpenses allExpenseTransactions in
  let transactionsByDate := groupByDate transactions in
  let dates := map FormatDate (periodDates fromDate toDate) in
  (map (curveEntry expensesByDate transactionsByDate) dates, ts').

(** The period [GetStatistics] works on: the current month when both
    dates are unset. *)
Definition statisticsPeriod (fromDate toDate now : GoTime.Time)
  : GoTime.Time * GoTime.Time :=
  if GoTime.IsZero fromDate && GoTime.IsZero toDate then
    let fromDate :=
      GoTime.Date (GoTime.Year now) (GoTime.Month now) 1 0 (GoTime.off now) in
    (fromDate, GoTime.AddDate fromDate 0 1 (-1))
  else (fromDate, toDate).

Definition GetStatistics (userID : string) (fromDate toDate : GoTime.Time)
    (now : GoTime.Time) (ts : Store) : StatisticsResponse * Store :=
  let '(fromDate, toDate) := statisticsPeriod fromDate toDate now in
  let '(transactions, ts1) := GetAllTransactions userID fromDate toDate now ts in
  let generalStats := calculateGeneralStatistics transactions in
  let balanceChanges :=
    calculateBalanceChangesByDate transactions fromDate toDate in
  let '(spendingCurve, ts2) :=
    calculateSpendingCurve userID transactions fromDate toDate now ts1 in
  (mkStatisticsResponse generalStats balanceChanges spendingCurve
     (FormatDate fromDate) (FormatDate toDate), ts2).

(** ** Notions the properties are stated with *)

(** The tokens of the design document: a day of the month, 1 to 31, as
    [strconv.Atoi] reads it, and a weekday name or abbreviation in any
    case. *)
Definition weekdayNames : list string :=
  ["mon"; "monday"; "tue"; "tuesday"; "wed"; "wednesday"; "thu"; "thursday";
   "fri"; "friday"; "sat"; "saturday"; "sun"; "sunday"].

Definition isDayToken (p : string) : Prop :=
  exists n, GoStrings.Atoi p = Some n /\ 1 <= n <= 31.

Definition isWeekdayToken (p : string) : Prop :=
  In (GoStrings.ToLower p) weekdayNames.

(** What [validateRepeatString] lets pass: an empty part, a day of the
    month, a weekday. *)
Definition acceptedPart (part : string) : Prop :=
  let p := GoStrings.TrimSpace part in
  p = "" \/ isDayToken p \/ isWeekdayToken p.

(** The candidate of a part of the specification, if it has one: an empty
    part has none. *)
Definition partCandidate (now : GoTime.Time) (nextEvent : string)
  : option GoTime.Time :=
  let p := GoStrings.TrimSpace nextEvent in
  if (p =? "")%string then None else candidate now p.

(** The candidates of a specification, in the order of its parts. *)
Definition candidatesOf (now : GoTime.Time) (repeatTime : string)
  : list GoTime.Time :=
  omap (partCandidate now) (GoStrings.Split repeatTime).

(** The days a weekday part adds to the reference date. *)
Definition daysUntil (now : GoTime.Time) (weekday : Z) : Z :=
  if weekday - GoTime.Weekday now <=? 0 then weekday - GoTime.Weekday now + 7
  else weekday - GoTime.Weekday now.

(** The month after month [m] of year [y]. *)
Definition followingMonth (y m : Z) : Z * Z :=
  if m =? 12 then (y + 1, 1) else (y, m + 1).

(** The sum the statistics loops compute over a list, in its order. *)
Definition sumAmounts (l : list Transaction) : float :=
  fold_left (fun (acc : float) t => (acc + Amount t)%float) l 0%float.

(** The date of [t] renders as [dateStr]. *)
Definition onDate (dateStr : string) (t : Transaction) : bool :=
  (FormatDate (Date t) =? dateStr)%string.


(** Every transaction is stored under its own identifier. *)
Definition keysAreIDs (ts : Store) : Prop :=
  forall u (m : gmap string Transaction) id t,
    ts !! u = Some m -> m !! id = Some t -> ID t = id.



(** A clock reading, or a request date, later than the first days of
    year 1. *)
Definition pastOrigin (t : GoTime.Time) : Prop := 4 * GoTime.nsPerDay <= GoTime.abs t.

(** The stores the operations reach from the empty store, each with the
    transactions (user, identifier) a recurrence has fired from.  The
    clock and the dates of the requests are past the first days of
    year 1. *)
Inductive Reachable : Store -> (string -> string -> Prop) -> Prop :=
| reach_init : Reachable ∅ (fun _ _ => False)
| reach_query userID categories fromDate toDate page pageSize now ts F :
    Reachable ts F -> pastOrigin now ->
    Reachable
      (snd (GetTransactions userID categories fromDate toDate page pageSize now ts)) F
| reach_query_all userID fromDate toDate now ts F :
    Reachable ts F -> pastOrigin now ->
    Reachable (snd (GetAllTransactions userID fromDate toDate now ts)) F
| reach_create userID req transactionID now ts F :
    Reachable ts F -> pastOrigin now ->
    (forall date, parseDate (reqDate req) = Some date -> pastOrigin date) ->
    Reachable (snd (CreateTransaction userID req transactionID now ts)) F
| reach_delete userID id ts F :
    Reachable ts F -> Reachable (DeleteTransaction userID id ts) F
| reach_materialize now uuid ts F :
    Reachable ts F -> pastOrigin now ->
    Reachable (ProcessAllRecurringTransactions now uuid ts)
      (fun u id =>
         F u id \/
         exists (m : gmap string Transaction) t,
           ts !! u = Some m /\ In t (rangeValues m) /\
           dueToday (GoTime.Truncate24h now) t = true /\ ID t = id).

(** What the reachable stores keep true of every transaction: a repeat
    specification is valid and comes with a next date past the zero time;
    a next date without a specification marks a transaction in [F]. *)
Definition goodTransaction (F : string -> string -> Prop) (u id : string)
    (t : Transaction) : Prop :=
  (RepeatTime t <> "" ->
   validateRepeatString (RepeatTime t) = None /\ 0 < GoTime.abs (NextAppearDate t)) /\
  (GoTime.IsZero (NextAppearDate t) = false -> RepeatTime t <> "" \/ F u id).

Definition goodCollection (F : string -> string -> Prop) (u : string)
    (m : gmap string Transaction) : Prop :=
  forall id t, m !! id = Some t -> goodTransaction F u id t.

Definition goodStore (ts : Store) (F : string -> string -> Prop) : Prop :=
  forall u (m : gmap string Transaction), ts !! u = Some m -> goodCollection F u m.

(** ** Stores and clock readings to try the properties on *)

(** April 15, 2023 (a Saturday), noon, UTC. *)
Definition noon20230415 : GoTime.Time :=
  GoTime.Date 2023 4 15 (12 * hour) 0.

Definition gym : Transaction :=
  mkTransaction "t1" 50 "Gym" "Sport" (GoTime.Date 2023 4 10 0 0)
    (GoTime.Date 2023 4 15 0 0) "15".

Definition gymStore : Store := {[ "u" := {[ "t1" := gym ]} ]}.

Definition gymRequest : CreateTransactionRequest :=
  mkCreateTransactionRequest 50 "Gym" "Sport" "2023-04-10" "15".

(** Identifiers to draw: ["#"], ["x#"], ["xx#"], ... *)
Fixpoint ticks (n : nat) : string :=
  match n with
  | O => "#"
  | S n' => String "x" (ticks n')
  end.

(** April 10 and April 16, 2023, noon, UTC. *)
Definition noon20230410 : GoTime.Time :=
  GoTime.Date 2023 4 10 (12 * hour) 0.

Definition noon20230416 : GoTime.Time :=
  GoTime.Date 2023 4 16 (12 * hour) 0.

(** A refund booked as a negative expense. *)
Definition refund : Transaction :=
  mkTransaction "r1" (-5) "Refund" "Food" (GoTime.Date 2023 4 15 0 0)
    GoTime.zeroTime "".

Definition refundStore : Store := {[ "u" := {[ "r1" := refund ]} ]}.

(** The store after [gymRequest] on April 10. *)
Definition createdStore : Store :=
  snd (CreateTransaction "u" gymRequest "t1" noon20230410 ∅).

(** Then the recurrence fires on April 15, the daily job runs again on
    April 16 and an unknown identifier is deleted. *)
Definition firedStore : Store :=
  DeleteTransaction "u" "none"
    (ProcessAllRecurringTransactions noon20230416 ticks
       (ProcessAllRecurringTransactions noon20230415 ticks createdStore)).

(** ** Tactics *)

(** [Z.add] on two literals, which [cbn] leaves alone here. *)
Ltac lit_add :=
  repeat match goal with
         | |- context [Z.pos ?a + Z.pos ?b] =>
             let v := eval vm_compute in (Z.pos a + Z.pos b) in
             change (Z.pos a + Z.pos b) with v
         end.

(** Equations between closed terms are settled by evaluation. *)
Ltac by_vm :=
  lazymatch goal with
  | |- ?l = ?r => vm_cast_no_check (@eq_refl _ r)
  end.


(** ** Notions for the properties of the stores, the pages and the
    statistics *)

(** The transaction a store holds for a user under an identifier. *)
Definition transactionAt (ts : Store) (userID id : string) : option Transaction :=
  match ts !! userID with
  | Some userTransactions => userTransactions !! id
  | None => None
  end.

(** A test that holds of every transaction of every user. *)
Definition allTransactions (P : Transaction -> bool) (ts : Store) : bool :=
  forallb (fun m : gmap string Transaction => forallb P (rangeValues m))
    (rangeValues ts).

(** Newest first: no transaction is dated before a later one of the
    list. *)
Definition newestFirst (l : list Transaction) : Prop :=
  forall i j a b, (i < j)%nat -> l !! i = Some a -> l !! j = Some b ->
    GoTime.abs (Date b) <= GoTime.abs (Date a).

(** The pages of a query, first to last. *)
Definition pageNumbers (totalPages : Z) : list Z := seqZ 1 totalPages.

(** The change of balance of the transactions of [l] dated [dateStr], in
    their order: an income is added, anything else subtracted. *)
Definition balanceOn (dateStr : string) (l : list Transaction) : float :=
  fold_left
    (fun (acc : float) t =>
       if isIncome t then (acc + Amount t)%float else (acc - Amount t)%float)
    (filter (fun t => onDate dateStr t) l) 0%float.

(** The character of a decimal digit. *)
Definition digitChar (d : Z) : ascii := ascii_of_N (Z.to_N (48 + d)).

Definition decimalDigits : list Z := [0; 1; 2; 3; 4; 5; 6; 7; 8; 9].

(** ** The query parameters of the API: [getPaginationParameter] *)

(** [errInvalidPaginationParameter], around the error of [strconv.Atoi] or
    with the value that was refused. *)
Inductive paginationError :=
| InvalidPaginationSyntax
| InvalidPaginationValue (value : Z).

(** [parameter] is [request.URL.Query().Get(parameterName)]. *)
Definition getPaginationParameter (parameter : string) (defaultValue : Z)
  : paginationError + Z :=
  if (parameter =? "")%string then inr defaultValue
  else match GoStrings.Atoi parameter with
       | None => inl InvalidPaginationSyntax
       | Some value =>
           if value <=? 0 then inl (InvalidPaginationValue value)
           else inr value
       end.

Definition DefaultPageSize : Z := 20.

(** ** The categories service *)

Module CategoriesService.

Record Category := mkCategory { Name : string }.

(** [cs.userCategories]: user id -> categories, in the order they were
    created.  A nil slice and an empty one are both the empty list. *)
Abbreviation CategoryStore := (gmap string (list Category)).

(** Each error wraps [models.ErrBadRequest]. *)
Inductive categoryError :=
| EmptyName
| AlreadyExists (name : string)
| AlreadyInBase (name : string).

Definition NewCategoriesService (initialData : option CategoryStore) : CategoryStore :=
  match initialData with
  | Some d => d
  | None => ∅
  end.

Definition baseCategories : list Category :=
  [mkCategory "Еда"; mkCategory "Транспорт"; mkCategory "Развлечения";
   mkCategory "Здоровье"; mkCategory "Одежда"; mkCategory IncomeCategory;
   mkCategory "Образование"; mkCategory "Подарки"; mkCategory "Прочее"].

(** [strings.HasPrefix] *)
Definition HasPrefix (s prefix : string) : bool := String.prefix prefix s.

Section Strings.

(** [strings.TrimSpace], [strings.ToLower] and [strings.EqualFold] of Go,
    which work on Unicode text; the names of the categories are Cyrillic. *)
Variable TrimSpace : string -> string.
Variable ToLower : string -> string.
Variable EqualFold : string -> string -> bool.

Definition GetCategories (userID nameFilter : string) (cs : CategoryStore)
  : list Category :=
  let userCategories := default [] (cs !! userID) in
  let allCategories := (baseCategories ++ userCategories)%list in
  if (nameFilter =? "")%string then allCategories
  else
    let nameFilterLower := ToLower nameFilter in
    filter (fun category => HasPrefix (ToLower (Name category)) nameFilterLower)
      allCategories.

(** The error returned, [None] for nil, and the store the call leaves: the
    empty list it gives an unknown user stays when the name is refused
    after that. *)
Definition CreateCategory (userID : string) (category : Category) (cs : CategoryStore)
  : option categoryError * CategoryStore :=
  if (TrimSpace (Name category) =? "")%string then (Some EmptyName, cs)
  else
    let cs1 :=
      match cs !! userID with
      | Some _ => cs
      | None => <[userID := []]> cs
      end in
    let userCategories := default [] (cs1 !! userID) in
    if existsb (fun existingCategory =>
                  EqualFold (Name existingCategory) (Name category)) userCategories
    then (Some (AlreadyExists (Name category)), cs1)
    else if existsb (fun baseCategory =>
                       EqualFold (Name baseCategory) (Name category)) baseCategories
    then (Some (AlreadyInBase (Name category)), cs1)
    else (None, <[userID := (userCategories ++ [category])%list]> cs1).

End Strings.

Definition GetBackupData (cs : CategoryStore) : CategoryStore :=
  (fun categories : list Category =>
     map (fun category => mkCategory (Name category)) categories) <$> cs.

Definition GetBackupFileName : string := "categories".

(** The stores [CreateCategory] reaches from the empty one. *)
Inductive Reachable (TrimSpace : string -> string)
    (EqualFold : string -> string -> bool) : CategoryStore -> Prop :=
| reach_init : Reachable TrimSpace EqualFold ∅
| reach_create userID category cs :
    Reachable TrimSpace EqualFold cs ->
    Reachable TrimSpace EqualFold
      (snd (CreateCategory TrimSpace EqualFold userID category cs)).

(** No category of the list equals a base category or an earlier one of the
    list under case folding, the earlier one on the left as the loops of
    [CreateCategory] compare; and no name is blank. *)
Definition distinctNames (TrimSpace : string -> string)
    (EqualFold : string -> string -> bool) (l : list Category) : Prop :=
  (forall i j a b, (i < j)%nat -> l !! i = Some a -> l !! j = Some b ->
     EqualFold (Name a) (Name b) = false) /\
  (forall b c, In b baseCategories -> In c l ->
     EqualFold (Name b) (Name c) = false) /\
  (forall c, In c l -> TrimSpace (Name c) <> "").

End CategoriesService.

(** ** Strings of ASCII bytes *)

(** Go's [strings.TrimSpace] and [strings.ToLower] work on runes; on a
    string of ASCII bytes they take their ASCII paths, which is what
    [GoStrings.TrimSpace] and [GoStrings.ToLower] do. *)
Fixpoint isASCII (s : string) : bool :=
  match s with
  | EmptyString => true
  | String c r => (GoStrings.byteOf c <? 128) && isASCII r
  end.

(** ** The candidates of the design document (section 4.1), from its
    words *)

(** The weekday tokens: the abbreviations and the full English names, in
    any case; the numbers are those of the weekdays, Sunday being 0. *)
Definition specWeekdays : list (string * Z) :=
  [("mon", 1); ("monday", 1); ("tue", 2); ("tuesday", 2); ("wed", 3);
   ("wednesday", 3); ("thu", 4); ("thursday", 4); ("fri", 5); ("friday", 5);
   ("sat", 6); ("saturday", 6); ("sun", 0); ("sunday", 0)].

Definition specWeekday (token : string) : option Z :=
  match List.find (fun entry => (GoStrings.ToLower token =? fst entry)%string)
          specWeekdays with
  | Some entry => Some (snd entry)
  | None => None
  end.

(** "let delta = (w - referenceDate.weekday) mod 7; if delta <= 0, add 7" *)
Definition specDelta (referenceDate : GoTime.Time) (w : Z) : Z :=
  let delta := (w - GoTime.Weekday referenceDate) mod 7 in
  if delta <=? 0 then delta + 7 else delta.

(** The start of the day with number [day], in the calendar with offset
    [loc]. *)
Definition startOfDay (day loc : Z) : GoTime.Time :=
  GoTime.mkTime (day * GoTime.nsPerDay - loc) loc.

(** The candidate of a token: for a day of the month [d], 1 to 31, the
    [d]-th day of the reference month if [d] is not before the day of the
    reference date, and of the following month otherwise; for a weekday,
    the day [delta] days after the reference day; both at the start of the
    day in the calendar of the reference date.  Anything else is no token
    and has no candidate.  (The [d]-th day of a month with fewer days is
    counted on into the month after, as [time.Date] does.) *)
Definition specCandidate (referenceDate : GoTime.Time) (token : string)
  : option GoTime.Time :=
  match GoStrings.Atoi token with
  | Some d =>
      if (1 <=? d) && (d <=? 31) then
        let month :=
          if GoTime.Day referenceDate <=? d
          then (GoTime.Year referenceDate, GoTime.Month referenceDate)
          else followingMonth (GoTime.Year referenceDate)
                 (GoTime.Month referenceDate) in
        Some (GoTime.Date (fst month) (snd month) d 0 (GoTime.off referenceDate))
      else None
  | None =>
      match specWeekday token with
      | Some w =>
          Some (startOfDay
                  (GoTime.dayNumber referenceDate + specDelta referenceDate w)
                  (GoTime.off referenceDate))
      | None => None
      end
  end.

(** The candidates of a specification: those of its parts between commas,
    white space trimmed. *)
Definition specCandidates (referenceDate : GoTime.Time) (repeatTime : string)
  : list GoTime.Time :=
  omap (fun part => specCandidate referenceDate (GoStrings.TrimSpace part))
    (GoStrings.Split repeatTime).

(** ** The orders Go leaves open *)

(** [for ... range] over a map visits the entries in an order Go does not
    fix, and [sort.Slice] is not stable: every call has its own order of
    the map and its own way to sort. *)
Record callOrder := mkCallOrder {
  rangeOrder : gmap string Transaction -> list Transaction;
  sortOrder : list Transaction -> list Transaction
}.

(** What Go promises of them: the range visits every entry once, and the
    sorted slice has the elements of the slice, none dated after one that
    comes before it ([less i j] is [Date i] after [Date j]). *)
Definition validOrder (o : callOrder) : Prop :=
  (forall m, rangeOrder o m ≡ₚ rangeValues m) /\
  (forall l, sortOrder o l ≡ₚ l /\ newestFirst (sortOrder o l)).

(** The order the definitions above take. *)
Definition modelOrder : callOrder := mkCallOrder rangeValues sortByDateDesc.

(** The map visited backwards. *)
Definition reversedOrder : callOrder :=
  mkCallOrder (fun m => reverse (rangeValues m)) sortByDateDesc.

(** [GetTransactions] and [GetAllTransactions] with the order of the call
    made explicit. *)
Definition filterTransactionsWith (o : callOrder) (categories : list string)
    (fromDate toDate : GoTime.Time) (userTransactions : gmap string Transaction)
  : list Transaction :=
  sortOrder o
    (filter (fun t => inPeriod fromDate toDate t && inCategories categories t)
       (rangeOrder o userTransactions)).

Definition GetTransactionsWith (o : callOrder) (userID : string)
    (categories : list string) (fromDate toDate : GoTime.Time) (page pageSize : Z)
    (now : GoTime.Time) (ts : Store) : outcome TransactionsResponse * Store :=
  let '(userTransactions, ts') := lookupOrSeed userID now ts in
  let filteredTransactions :=
    filterTransactionsWith o categories fromDate toDate userTransactions in
  let transactionsAmount := Z.of_nat (length filteredTransactions) in
  let totalPages := totalPagesOf transactionsAmount pageSize in
  let paginationStart :=
    GoStrings.wrapInt (GoStrings.wrapInt (page - 1) * pageSize) in
  if transactionsAmount <=? paginationStart then
    (Returned (mkTransactionsResponse page totalPages []), ts')
  else
    let paginationEnd := GoStrings.wrapInt (paginationStart + pageSize) in
    let paginationEnd :=
      if transactionsAmount <? paginationEnd then transactionsAmount
      else paginationEnd in
    (match slice filteredTransactions paginationStart paginationEnd with
     | Returned paginatedTransactions =>
         Returned (mkTransactionsResponse page totalPages paginatedTransactions)
     | Panicked => Panicked
     end, ts').

Definition GetAllTransactionsWith (o : callOrder) (userID : string)
    (fromDate toDate : GoTime.Time) (now : GoTime.Time) (ts : Store)
  : list Transaction * Store :=
  let '(userTransactions, ts') := lookupOrSeed userID now ts in
  (sortOrder o
     (filter (fun t => inPeriod fromDate toDate t) (rangeOrder o userTransactions)),
   ts').

(** The instants of the dates of a list. *)
Definition instants (l : list Transaction) : list Z :=
  map (fun t => GoTime.abs (Date t)) l.

(** ** A store with three transactions on three days *)

Definition tea : Transaction :=
  mkTransaction "a1" 3 "Tea" "Food" (GoTime.Date 2023 4 10 0 0) GoTime.zeroTime "".

Definition bus : Transaction :=
  mkTransaction "a2" 2 "Bus" "Transport" (GoTime.Date 2023 4 11 0 0)
    GoTime.zeroTime "".

Definition book : Transaction :=
  mkTransaction "a3" 12 "Book" "Education" (GoTime.Date 2023 4 12 0 0)
    GoTime.zeroTime "".

Definition threeStore : Store :=
  {[ "u" := <["a1" := tea]> (<["a2" := bus]> {[ "a3" := book ]}) ]}.
(** * Properties *)

(** ** The calendar *)
Module GoTimeFacts.
Import GoTime.

Lemma nsPerDay_pos : 0 < nsPerDay.
Proof. reflexivity. Qed.

Lemma isLeap_true y :
  isLeap y = true <-> (y mod 4 = 0 /\ (y mod 100 <> 0 \/ y mod 400 = 0)).
Proof.
  unfold isLeap.
  rewrite andb_true_iff, orb_true_iff, negb_true_iff, !Z.eqb_eq, Z.eqb_neq. tauto.
Qed.

Lemma daysInYear_cases y :
  (isLeap y = true /\ daysInYear y = 366) \/ (isLeap y = false /\ daysInYear y = 365).
Proof. unfold daysInYear. destruct (isLeap y); auto. Qed.

(** A year is as long as [daysInYear] says. *)
Lemma daysBeforeYear_succ y :
  daysBeforeYear (y + 1) = daysBeforeYear y + daysInYear y.
Proof.
  unfold daysBeforeYear, daysInYear.
  destruct (isLeap y) eqn:E.
  - apply isLeap_true in E. (Z.div_mod_to_equations; lia).
  - assert (~ (y mod 4 = 0 /\ (y mod 100 <> 0 \/ y mod 400 = 0))) as N
      by (rewrite <- isLeap_true; congruence).
    (Z.div_mod_to_equations; lia).
Qed.

(** [yearDay] finds the year a day number falls in. *)
Lemma yearDay_spec n :
  daysBeforeYear (fst (yearDay n)) + snd (yearDay n) = n /\
  0 <= snd (yearDay n) < daysInYear (fst (yearDay n)).
Proof.
  unfold yearDay; cbn [fst snd].
  pose proof (Z.div_mod n 146097 ltac:(lia)) as Hn.
  pose proof (Z.mod_pos_bound n 146097 ltac:(lia)) as Hr0.
  set (a := n / 146097) in *. set (r0 := n mod 146097) in *.
  clearbody a r0. subst n.
  assert (exists c r1,
             Z.min (r0 / 36524) 3 = c /\ r0 - 36524 * c = r1 /\ 0 <= c <= 3 /\
             0 <= r1 /\ (r1 <= 36523 \/ (c = 3 /\ r1 = 36524)))
    as (c & r1 & -> & Hr1 & Hc & Hr1b).
  { eexists _, _. split; [reflexivity|]. split; [reflexivity|].
    Z.div_mod_to_equations. lia. }
  rewrite Hr1.
  pose proof (Z.div_mod r1 1461 ltac:(lia)) as Hq.
  pose proof (Z.mod_pos_bound r1 1461 ltac:(lia)) as Hr2.
  assert (0 <= r1 / 1461 <= 24) as Hqb by (Z.div_mod_to_equations; lia).
  set (q := r1 / 1461) in *. set (r2 := r1 mod 1461) in *. clearbody q r2.
  assert (exists e yd,
             Z.min (r2 / 365) 3 = e /\ r2 - 365 * e = yd /\ 0 <= e <= 3 /\
             0 <= yd /\ (yd <= 364 \/ (e = 3 /\ yd = 365)))
    as (e & yd & -> & Hyd & He & Hydb).
  { eexists _, _. split; [reflexivity|]. split; [reflexivity|].
    Z.div_mod_to_equations. lia. }
  rewrite Hyd.
  split.
  - unfold daysBeforeYear. (Z.div_mod_to_equations; lia).
  - unfold daysInYear. destruct (isLeap _) eqn:E; [lia|].
    set (y := 400 * a + 100 * c + 4 * q + e + 1) in *.
    assert (~ (y mod 4 = 0 /\ (y mod 100 <> 0 \/ y mod 400 = 0))) as N
      by (rewrite <- isLeap_true; congruence).
    subst y.
    (Z.div_mod_to_equations; lia).
Qed.

Lemma monthDay_spec y yd :
  0 <= yd < daysInYear y ->
  1 <= fst (monthDay y yd) <= 12 /\
  1 <= snd (monthDay y yd) <= daysIn y (fst (monthDay y yd)) /\
  daysBeforeMonth y (fst (monthDay y yd)) + (snd (monthDay y yd) - 1) = yd.
Proof.
  unfold daysInYear, monthDay, daysIn, daysBeforeMonth.
  intros H. destruct (isLeap y);
  repeat (match goal with
          | |- context [if ?a <? ?b then _ else _] => destruct (Z.ltb_spec a b)
          end);
  cbn; lia.
Qed.

(** The civil date of a day number is a date of the calendar, and
    [daysFromCivil] numbers it back. *)
Lemma civilFromDays_spec n :
  let '(y, m, d) := civilFromDays n in
  1 <= m <= 12 /\ 1 <= d <= daysIn y m /\ daysFromCivil y m d = n.
Proof.
  unfold civilFromDays.
  pose proof (yearDay_spec n) as [H1 H2].
  destruct (yearDay n) as [y yd]. cbn [fst snd] in *.
  pose proof (monthDay_spec y yd H2) as (H3 & H4 & H5).
  destruct (monthDay y yd) as [m d]. cbn [fst snd] in *.
  split; [lia|]. split; [lia|].
  unfold daysFromCivil.
  replace ((m - 1) / 12) with 0 by (Z.div_mod_to_equations; lia).
  replace ((m - 1) mod 12 + 1) with m by (Z.div_mod_to_equations; lia).
  rewrite Z.add_0_r. lia.
Qed.

Lemma daysBeforeYear_mono y1 y2 :
  y1 <= y2 -> daysBeforeYear y1 + 365 * (y2 - y1) <= daysBeforeYear y2.
Proof.
  intros H. unfold daysBeforeYear.
  Z.div_mod_to_equations; lia.
Qed.

Lemma daysFromCivil_valid y m d :
  1 <= m <= 12 -> daysFromCivil y m d = daysBeforeYear y + daysBeforeMonth y m + (d - 1).
Proof.
  intros H. unfold daysFromCivil.
  replace ((m - 1) / 12) with 0 by (Z.div_mod_to_equations; lia).
  replace ((m - 1) mod 12 + 1) with m by (Z.div_mod_to_equations; lia).
  now rewrite Z.add_0_r.
Qed.

Lemma yearOffset_bounds y m d :
  1 <= m <= 12 -> 1 <= d <= daysIn y m ->
  0 <= daysBeforeMonth y m + (d - 1) < daysInYear y.
Proof.
  unfold daysIn, daysBeforeMonth, daysInYear. intros Hm Hd.
  assert (m = 1 \/ m = 2 \/ m = 3 \/ m = 4 \/ m = 5 \/ m = 6 \/ m = 7 \/ m = 8
          \/ m = 9 \/ m = 10 \/ m = 11 \/ m = 12) as C by lia.
  destruct (isLeap y);
    repeat (destruct C as [-> | C]; [cbn in *; lia|]); subst; cbn in *; lia.
Qed.

Lemma monthOffset_inj y m1 d1 m2 d2 :
  1 <= m1 <= 12 -> 1 <= d1 <= daysIn y m1 ->
  1 <= m2 <= 12 -> 1 <= d2 <= daysIn y m2 ->
  daysBeforeMonth y m1 + d1 = daysBeforeMonth y m2 + d2 ->
  m1 = m2 /\ d1 = d2.
Proof.
  unfold daysIn, daysBeforeMonth. intros Hm1 Hd1 Hm2 Hd2.
  assert (m1 = 1 \/ m1 = 2 \/ m1 = 3 \/ m1 = 4 \/ m1 = 5 \/ m1 = 6 \/ m1 = 7 \/ m1 = 8
          \/ m1 = 9 \/ m1 = 10 \/ m1 = 11 \/ m1 = 12) as C1 by lia.
  assert (m2 = 1 \/ m2 = 2 \/ m2 = 3 \/ m2 = 4 \/ m2 = 5 \/ m2 = 6 \/ m2 = 7 \/ m2 = 8
          \/ m2 = 9 \/ m2 = 10 \/ m2 = 11 \/ m2 = 12) as C2 by lia.
  destruct (isLeap y);
    repeat (destruct C1 as [-> | C1]); try subst m1;
    repeat (destruct C2 as [-> | C2]); try subst m2; cbn in *; lia.
Qed.

(** And the other way round, for a date of the calendar. *)
Lemma civilFromDays_daysFromCivil y m d :
  1 <= m <= 12 -> 1 <= d <= daysIn y m ->
  civilFromDays (daysFromCivil y m d) = (y, m, d).
Proof.
  intros Hm Hd.
  pose proof (civilFromDays_spec (daysFromCivil y m d)) as H.
  destruct (civilFromDays (daysFromCivil y m d)) as [[y' m'] d'].
  destruct H as (Hm' & Hd' & E).
  rewrite !daysFromCivil_valid in E by lia.
  pose proof (yearOffset_bounds y m d Hm Hd).
  pose proof (yearOffset_bounds y' m' d' Hm' Hd').
  assert (y' = y) as ->.
  { destruct (Z.lt_trichotomy y' y) as [L | [L | L]]; [|exact L|].
    - pose proof (daysBeforeYear_mono (y' + 1) y ltac:(lia)).
      rewrite daysBeforeYear_succ in *. lia.
    - pose proof (daysBeforeYear_mono (y + 1) y' ltac:(lia)).
      rewrite daysBeforeYear_succ in *. lia. }
  destruct (monthOffset_inj y m' d' m d) as [-> ->]; try lia. reflexivity.
Qed.

Lemma wall_split t :
  wall t = dayNumber t * nsPerDay + timeOfDay t /\ 0 <= timeOfDay t < nsPerDay.
Proof.
  unfold dayNumber, timeOfDay. pose proof nsPerDay_pos.
  pose proof (Z.div_mod (wall t) nsPerDay ltac:(lia)).
  pose proof (Z.mod_pos_bound (wall t) nsPerDay ltac:(lia)). lia.
Qed.

(** The civil date of a time is a date of the calendar, and it numbers
    the day. *)
Lemma civil_of_time t :
  1 <= Month t <= 12 /\ 1 <= Day t <= daysIn (Year t) (Month t) /\
  daysFromCivil (Year t) (Month t) (Day t) = dayNumber t.
Proof.
  unfold Year, Month, Day. pose proof (civilFromDays_spec (dayNumber t)) as H.
  destruct (civilFromDays (dayNumber t)) as [[y m] d]. exact H.
Qed.

Lemma dayNumber_Date y m d tod loc :
  0 <= tod < nsPerDay ->
  dayNumber (Date y m d tod loc) = daysFromCivil y m d /\
  timeOfDay (Date y m d tod loc) = tod.
Proof.
  intros H. unfold dayNumber, timeOfDay, wall, Date; cbn [abs off].
  replace (daysFromCivil y m d * nsPerDay + tod - loc + loc)
    with (tod + daysFromCivil y m d * nsPerDay) by lia.
  rewrite Z.div_add, Z.mod_add by lia.
  rewrite Z.div_small, Z.mod_small by lia. lia.
Qed.

Lemma civil_Date y m d tod loc :
  1 <= m <= 12 -> 1 <= d <= daysIn y m -> 0 <= tod < nsPerDay ->
  Year (Date y m d tod loc) = y /\ Month (Date y m d tod loc) = m /\
  Day (Date y m d tod loc) = d.
Proof.
  intros Hm Hd Ht. unfold Year, Month, Day.
  destruct (dayNumber_Date y m d tod loc Ht) as [-> _].
  now rewrite civilFromDays_daysFromCivil.
Qed.

Lemma daysFromCivil_add_day y m d k :
  daysFromCivil y m (d + k) = daysFromCivil y m d + k.
Proof. unfold daysFromCivil. lia. Qed.

Lemma daysFromCivil_next_month y m d :
  1 <= m <= 12 ->
  daysFromCivil y (m + 1) d = daysFromCivil y m d + daysIn y m.
Proof.
  intros Hm. destruct (Z.eq_dec m 12) as [-> | N].
  - unfold daysFromCivil. replace ((12 + 1 - 1) / 12) with 1 by reflexivity.
    replace ((12 + 1 - 1) mod 12 + 1) with 1 by reflexivity.
    replace ((12 - 1) / 12) with 0 by reflexivity.
    replace ((12 - 1) mod 12 + 1) with 12 by reflexivity.
    rewrite Z.add_0_r, daysBeforeYear_succ.
    unfold daysBeforeMonth, daysIn, daysInYear.
    destruct (isLeap y), (isLeap (y + 1)); cbn; lia.
  - rewrite !daysFromCivil_valid by lia.
    unfold daysBeforeMonth, daysIn.
    assert (m = 1 \/ m = 2 \/ m = 3 \/ m = 4 \/ m = 5 \/ m = 6 \/ m = 7 \/ m = 8
            \/ m = 9 \/ m = 10 \/ m = 11) as C by lia.
    destruct (isLeap y);
      repeat (destruct C as [-> | C]; [lit_add; cbn; lia|]); subst; lit_add; cbn; lia.
Qed.

Lemma daysIn_bounds y m : 28 <= daysIn y m <= 31.
Proof.
  unfold daysIn. destruct (m =? 2); [destruct (isLeap y); lia|].
  destruct (_ || _); lia.
Qed.

Lemma daysFromCivil_next_year y m d :
  1 <= m <= 12 ->
  daysFromCivil y m d + 365 <= daysFromCivil (y + 1) m d.
Proof.
  intros Hm. rewrite !daysFromCivil_valid by lia. rewrite daysBeforeYear_succ.
  unfold daysBeforeMonth, daysInYear.
  assert (isLeap y = true -> isLeap (y + 1) = false) as L.
  { intros E. apply isLeap_true in E. destruct (isLeap (y + 1)) eqn:E'; [|easy].
    apply isLeap_true in E'. Z.div_mod_to_equations. lia. }
  destruct (isLeap y); [rewrite L by easy|]; destruct (3 <=? m);
    try destruct (isLeap (y + 1)); cbn; lia.
Qed.

(** [AddDate] by days moves the instant by whole days. *)
Lemma AddDate_days t k :
  abs (AddDate t 0 0 k) = abs t + k * nsPerDay /\ off (AddDate t 0 0 k) = off t.
Proof.
  unfold AddDate, Date; cbn [abs off]. split; [|reflexivity].
  rewrite !Z.add_0_r, daysFromCivil_add_day.
  destruct (civil_of_time t) as (_ & _ & ->).
  pose proof (wall_split t) as [W _]. unfold wall in W. lia.
Qed.

Lemma AddDate_month t :
  abs (AddDate t 0 1 0) = abs t + daysIn (Year t) (Month t) * nsPerDay
  /\ off (AddDate t 0 1 0) = off t.
Proof.
  unfold AddDate, Date; cbn [abs off]. split; [|reflexivity].
  rewrite !Z.add_0_r.
  destruct (civil_of_time t) as (Hm & _ & E).
  rewrite daysFromCivil_next_month, E by lia.
  pose proof (wall_split t) as [W _]. unfold wall in W. lia.
Qed.

Lemma AddDate_year t :
  abs t + 365 * nsPerDay <= abs (AddDate t 1 0 0) /\ off (AddDate t 1 0 0) = off t.
Proof.
  unfold AddDate, Date; cbn [abs off]. split; [|reflexivity].
  rewrite !Z.add_0_r.
  destruct (civil_of_time t) as (Hm & _ & E).
  pose proof (daysFromCivil_next_year (Year t) (Month t) (Day t) Hm).
  pose proof (wall_split t) as [W _]. unfold wall in W. pose proof nsPerDay_pos. nia.
Qed.

End GoTimeFacts.
Import GoTimeFacts.
Import GoStrings.
(** ** The embedding on small inputs *)

Example Split_keeps_empty_parts : Split "a,,b," = ["a"; ""; "b"; ""].
Proof. by_vm. Qed.

Example Split_of_the_empty_string : Split "" = [""].
Proof. by_vm. Qed.

Example TrimSpace_both_ends :
  TrimSpace (String (ascii_of_nat 9) " mon  ") = "mon".
Proof. by_vm. Qed.

Example Atoi_reads_a_sign_and_zeros : Atoi "+07" = Some 7 /\ Atoi "-0" = Some 0.
Proof. split; by_vm. Qed.

Example Atoi_refuses :
  Atoi "" = None /\ Atoi "+" = None /\ Atoi "1 2" = None /\ Atoi "mon" = None /\
  Atoi "9223372036854775808" = None.
Proof. repeat split; by_vm. Qed.

Example Itoa_of_a_day : Itoa 15 = "15" /\ Itoa 0 = "0" /\ Itoa (- 3) = "-3".
Proof. repeat split; by_vm. Qed.

Example convertToWeekDay_any_case :
  convertToWeekDay "SUNDAY" = Some 0 /\ convertToWeekDay "Fri" = Some 5 /\
  convertToWeekDay "xyz" = None.
Proof. repeat split; by_vm. Qed.

Example the_first_day_of_1970 :
  GoTime.civilFromDays 719162 = (1970, 1, 1) /\
  GoTime.Weekday (GoTime.Date 1970 1 1 0 0) = 4.
Proof. split; by_vm. Qed.

Example Date_carries_the_days_on :
  GoTime.civilFromDays (GoTime.daysFromCivil 2023 4 31) = (2023, 5, 1) /\
  GoTime.civilFromDays (GoTime.daysFromCivil 2023 2 30) = (2023, 3, 2) /\
  GoTime.civilFromDays (GoTime.daysFromCivil 2024 2 29) = (2024, 2, 29) /\
  GoTime.civilFromDays (GoTime.daysFromCivil 2023 13 1) = (2024, 1, 1).
Proof. repeat split; by_vm. Qed.

Example parseDate_checks_the_day :
  parseDate "2023-04-15" = Some (GoTime.Date 2023 4 15 0 0) /\
  parseDate "2023-02-29" = None /\ parseDate "2023-4-15" = None.
Proof. repeat split; by_vm. Qed.

Example FormatDate_pads : FormatDate (GoTime.Date 2023 4 5 0 0) = "2023-04-05".
Proof. by_vm. Qed.

Example next_date_of_two_parts :
  fst (calculateNextAppearDate noon20230415 "sun, 20") = GoTime.Date 2023 4 16 0 0 /\
  fst (calculateNextAppearDate noon20230415 " , ")
  = GoTime.Date 2024 4 15 (12 * hour) 0.
Proof. split; by_vm. Qed.

(** ** The parts of a repeat specification *)

Lemma convertToWeekDay_Some p :
  (exists w, convertToWeekDay p = Some w) <-> isWeekdayToken p.
Proof.
  unfold convertToWeekDay, isWeekdayToken, weekdayNames.
  generalize (ToLower p) as d. intros d.
  repeat match goal with
         | |- context [String.eqb d ?b] =>
             destruct (String.eqb_spec d b) as [-> | ?];
             [ split; [intros _; cbn [In]; tauto | intros _; vm_compute; eauto] | ]
         end.
  cbn [orb In]. split; [intros [w H]; discriminate | intuition congruence].
Qed.

Lemma convertToWeekDay_range p w :
  convertToWeekDay p = Some w -> 0 <= w <= 6.
Proof.
  unfold convertToWeekDay.
  repeat match goal with
         | |- context [if ?b then _ else _] => destruct b
         end; intros [= <-]; lia.
Qed.

Lemma Atoi_head p n :
  Atoi p = Some n ->
  exists c r, p = String c r /\ (c = "-"%char \/ c = "+"%char \/ digitOf c <> None).
Proof.
  destruct p as [|c r]; [discriminate|]. intros H. exists c, r. split; [reflexivity|].
  unfold Atoi in H.
  destruct (Ascii.eqb_spec c "-"%char) as [-> | N1]; [now left|].
  destruct (Ascii.eqb_spec c "+"%char) as [-> | N2]; [now right; left|].
  cbn [orb] in H. cbn [parseDigits] in H.
  right; right. destruct (digitOf c); [discriminate | discriminate H].
Qed.

Lemma head_not_weekday c r :
  c = "-"%char \/ c = "+"%char \/ digitOf c <> None ->
  convertToWeekDay (String c r) = None.
Proof.
  destruct c as [[] [] [] [] [] [] [] []];
    (intros [H | [H | H]];
     [ try discriminate H | try discriminate H | try (exfalso; apply H; reflexivity) ];
     vm_compute; reflexivity).
Qed.

Lemma Atoi_not_weekday p n : Atoi p = Some n -> convertToWeekDay p = None.
Proof.
  intros H. destruct (Atoi_head p n H) as (c & r & -> & Hc). now apply head_not_weekday.
Qed.

Lemma validatePart_None part : validatePart part = None <-> acceptedPart part.
Proof.
  unfold validatePart, acceptedPart. cbv zeta.
  destruct (String.eqb_spec (TrimSpace part) "") as [E | N]; [tauto|].
  destruct (Atoi (TrimSpace part)) as [n|] eqn:A.
  - pose proof (Atoi_not_weekday _ _ A) as W.
    assert (~ isWeekdayToken (TrimSpace part)) as NW.
    { rewrite <- convertToWeekDay_Some. intros [w Hw]. congruence. }
    unfold isDayToken.
    assert (((n <? 1) || (31 <? n) = false) <-> 1 <= n <= 31) as R.
    { rewrite orb_false_iff, !Z.ltb_ge. lia. }
    destruct ((n <? 1) || (31 <? n)).
    + split; [discriminate|].
      intros [? | [(n' & E & Hn) | ?]]; [contradiction | | contradiction].
      assert (n' = n) as -> by congruence. apply R in Hn. discriminate.
    + split; [|reflexivity]. intros _. right; left. exists n.
      split; [exact A | now apply R].
  - destruct (convertToWeekDay (TrimSpace part)) as [w|] eqn:W.
    + split; [|reflexivity]. intros _. right; right.
      apply convertToWeekDay_Some. eauto.
    + split; [discriminate|]. intros [? | [(n' & A' & _) | HW]]; [contradiction | congruence |].
      apply convertToWeekDay_Some in HW. destruct HW as [w Hw]. congruence.
Qed.

Lemma validatePart_Some part e :
  validatePart part = Some e ->
  e = InvalidWeekday (TrimSpace part) \/
  exists n, Atoi (TrimSpace part) = Some n /\ e = InvalidDayNumber n.
Proof.
  unfold validatePart. cbv zeta.
  destruct (String.eqb (TrimSpace part) ""); [discriminate|].
  destruct (Atoi (TrimSpace part)) as [n|].
  - destruct (_ || _); [|discriminate]. intros [= <-]. right. eauto.
  - destruct (convertToWeekDay _); [discriminate|]. intros [= <-]. now left.
Qed.

Lemma validateParts_None parts :
  validateParts parts = None <-> Forall acceptedPart parts.
Proof.
  induction parts as [|part rest IH]; cbn [validateParts].
  - split; [constructor | reflexivity].
  - destruct (validatePart part) as [e|] eqn:V.
    + split; [discriminate|]. intros H. inversion H as [|? ? Hp _]; subst.
      apply validatePart_None in Hp. congruence.
    + rewrite IH. split; [constructor; [now apply validatePart_None | assumption]|].
      intros H. now inversion H.
Qed.

Lemma validateParts_Some parts e :
  validateParts parts = Some e ->
  exists before part after,
    parts = (before ++ part :: after)%list /\ Forall acceptedPart before /\
    ~ acceptedPart part /\ validatePart part = Some e.
Proof.
  induction parts as [|part rest IH]; cbn [validateParts]; [discriminate|].
  destruct (validatePart part) as [e'|] eqn:V.
  - intros [= <-]. exists [], part, rest. repeat split; [constructor | | assumption].
    rewrite <- validatePart_None. congruence.
  - intros H. destruct (IH H) as (before & p & after & -> & Hb & Hn & Hv).
    exists (part :: before), p, after. repeat split; try assumption.
    constructor; [now apply validatePart_None | assumption].
Qed.

Lemma validateRepeatString_parts repeatTime :
  validateRepeatString repeatTime = validateParts (Split repeatTime).
Proof.
  unfold validateRepeatString.
  destruct (String.eqb_spec repeatTime "") as [-> | N]; reflexivity.
Qed.

(** C8, amended: for a specification of ASCII characters,
    [validateRepeatString] accepts it exactly when each part between
    commas, trimmed, is empty, a day of the month from 1 to 31 or a weekday
    name in any case (the empty specification is one empty part); a
    rejection stops at the first part that is none of these and names it,
    by its text for a weekday and by its number for a day; "32" and
    "mon, 15, xyz" are rejected so. *)
Theorem validateRepeatString_accepts repeatTime :
  isASCII repeatTime = true ->
  (validateRepeatString repeatTime = None
   <-> Forall acceptedPart (Split repeatTime)) /\
  (forall e, validateRepeatString repeatTime = Some e ->
     exists before part after,
       Split repeatTime = (before ++ part :: after)%list /\
       Forall acceptedPart before /\ ~ acceptedPart part /\
       (e = InvalidWeekday (TrimSpace part) \/
        exists n, Atoi (TrimSpace part) = Some n /\ e = InvalidDayNumber n)) /\
  validateRepeatString "" = None /\
  validateRepeatString "32" = Some (InvalidDayNumber 32) /\
  validateRepeatString "mon, 15, xyz" = Some (InvalidWeekday "xyz").
Proof.
  intros _.
  split; [|split; [|split; [|split]]]; [ | | by_vm | by_vm | by_vm].
  - rewrite validateRepeatString_parts. apply validateParts_None.
  - intros e H. rewrite validateRepeatString_parts in H.
    apply validateParts_Some in H as (before & part & after & E & Hb & Hn & Hv).
    exists before, part, after. repeat split; try assumption.
    now apply validatePart_Some.
Qed.

(** C8 at work: "Mon, 15" is accepted, so its parts are a weekday and a
    day of the month. *)
Lemma validateRepeatString_accepts_Mon_15 :
  isASCII "Mon, 15" = true /\ Forall acceptedPart (Split "Mon, 15").
Proof.
  assert (isASCII "Mon, 15" = true) as A by by_vm.
  split; [exact A|].
  apply (proj1 (proj1 (validateRepeatString_accepts "Mon, 15" A))). by_vm.
Defined.

(** C8 as stated fails on empty parts: "," is accepted, and its two parts
    are empty, neither a day of the month nor a weekday. *)
Lemma validateRepeatString_accepts_empty_parts :
  validateRepeatString "," = None /\
  map TrimSpace (Split ",") = [""; ""] /\
  ~ isDayToken "" /\ ~ isWeekdayToken "".
Proof.
  split; [by_vm|]. split; [by_vm|]. split.
  - intros (n & A & _). discriminate A.
  - unfold isWeekdayToken. intros H. vm_compute in H. intuition discriminate.
Qed.
(** ** The next date is the least candidate *)

Lemma nextAppearStep_candidate now acc nextEvent :
  nextAppearStep now acc nextEvent =
  match partCandidate now nextEvent with
  | Some nextTime => if GoTime.After acc nextTime then nextTime else acc
  | None => acc
  end.
Proof.
  unfold nextAppearStep, partCandidate. cbv zeta.
  destruct (TrimSpace nextEvent =? "")%string; reflexivity.
Qed.

Lemma fold_nextAppearStep now parts acc :
  let r := fold_left (nextAppearStep now) parts acc in
  (r = acc \/ r ∈ omap (partCandidate now) parts) /\
  GoTime.abs r <= GoTime.abs acc /\
  Forall (fun c => GoTime.abs r <= GoTime.abs c) (omap (partCandidate now) parts).
Proof.
  cbv zeta. revert acc. induction parts as [|part rest IH]; intros acc; cbn [fold_left omap list_omap].
  - split; [now left|]. split; [lia | constructor].
  - rewrite nextAppearStep_candidate.
    destruct (partCandidate now part) as [c|] eqn:C.
    + unfold GoTime.After. destruct (Z.ltb_spec (GoTime.abs c) (GoTime.abs acc)) as [L | L].
      * destruct (IH c) as (H1 & H2 & H3). split; [|split].
        -- right. destruct H1 as [-> | H1]; [apply list_elem_of_here | now apply list_elem_of_further].
        -- lia.
        -- constructor; assumption.
      * destruct (IH acc) as (H1 & H2 & H3). split; [|split].
        -- destruct H1 as [-> | H1]; [now left | right; now apply list_elem_of_further].
        -- assumption.
        -- constructor; [lia | assumption].
    + apply IH.
Qed.

Lemma omap_partCandidate_nil now parts :
  Forall (fun part => TrimSpace part = "") parts -> omap (partCandidate now) parts = [].
Proof.
  induction 1 as [|part rest E _ IH]; [reflexivity|].
  cbn [omap list_omap]. unfold partCandidate at 1. cbv zeta. rewrite E. cbn. exact IH.
Qed.
(** ** Day-of-month and weekday parts *)

Lemma daysFromCivil_carry y d : GoTime.daysFromCivil y 13 d = GoTime.daysFromCivil (y + 1) 1 d.
Proof.
  unfold GoTime.daysFromCivil.
  replace ((13 - 1) / 12) with 1 by (vm_compute; reflexivity).
  replace ((13 - 1) mod 12 + 1) with 1 by (vm_compute; reflexivity).
  replace ((1 - 1) / 12) with 0 by (vm_compute; reflexivity).
  replace ((1 - 1) mod 12 + 1) with 1 by (vm_compute; reflexivity).
  now rewrite Z.add_0_r.
Qed.

(** A specification of one part goes through the loop once. *)
Lemma calculateNextAppearDate_single now repeatTime :
  Split repeatTime = [repeatTime] ->
  fst (calculateNextAppearDate now repeatTime) =
  nextAppearStep now (GoTime.AddDate now 1 0 0) repeatTime.
Proof. intros E. unfold calculateNextAppearDate. rewrite E. cbn [fst fold_left]. reflexivity. Qed.

(** The candidate of a day of the month. *)
Lemma candidate_number now p d :
  Atoi p = Some d ->
  candidate now p =
  Some (if GoTime.Day now <=? d
        then GoTime.Date (GoTime.Year now) (GoTime.Month now) d 0 (GoTime.off now)
        else GoTime.AddDate
               (GoTime.Date (GoTime.Year now) (GoTime.Month now) d 0 (GoTime.off now))
               0 1 0).
Proof. intros A. unfold candidate. rewrite A. reflexivity. Qed.

Lemma mul_day_bounds a k b :
  a <= k <= b -> a * GoTime.nsPerDay <= k * GoTime.nsPerDay <= b * GoTime.nsPerDay.
Proof. pose proof nsPerDay_pos as P. intros Hk. split; apply Z.mul_le_mono_nonneg_r; lia. Qed.

Lemma inMonth_abs now d :
  GoTime.abs (GoTime.Date (GoTime.Year now) (GoTime.Month now) d 0 (GoTime.off now))
  = GoTime.dayNumber now * GoTime.nsPerDay + (d - GoTime.Day now) * GoTime.nsPerDay
    - GoTime.off now.
Proof.
  unfold GoTime.Date; cbn [GoTime.abs].
  destruct (civil_of_time now) as (_ & _ & E).
  rewrite <- E, <- Z.mul_add_distr_r, <- daysFromCivil_add_day.
  replace (GoTime.Day now + (d - GoTime.Day now)) with d by lia. lia.
Qed.

Lemma candidate_number_bounds now p d c :
  Atoi p = Some d -> 1 <= d <= 31 -> candidate now p = Some c ->
  GoTime.off c = GoTime.off now /\
  GoTime.abs now - 3 * GoTime.nsPerDay < GoTime.abs c
  /\ GoTime.abs c < GoTime.abs now + 62 * GoTime.nsPerDay.
Proof.
  intros A Hd C. rewrite (candidate_number now p d A) in C.
  pose proof (inMonth_abs now d) as I.
  pose proof (wall_split now) as [W T]. unfold GoTime.wall in W.
  destruct (civil_of_time now) as (_ & Hday & _).
  pose proof (daysIn_bounds (GoTime.Year now) (GoTime.Month now)).
  pose proof nsPerDay_pos.
  destruct (Z.leb_spec (GoTime.Day now) d).
  - injection C as <-. split; [reflexivity|].
    pose proof (mul_day_bounds 0 (d - GoTime.Day now) 30 ltac:(lia)).
    set (D := GoTime.nsPerDay) in *. clearbody D. lia.
  - injection C as <-.
    destruct (AddDate_month
                (GoTime.Date (GoTime.Year now) (GoTime.Month now) d 0 (GoTime.off now)))
      as [-> ->].
    split; [reflexivity|].
    match goal with |- context [GoTime.daysIn ?a ?b] =>
      pose proof (daysIn_bounds a b);
      pose proof (mul_day_bounds 28 (GoTime.daysIn a b) 31 ltac:(lia))
    end.
    pose proof (mul_day_bounds (-30) (d - GoTime.Day now) (-1) ltac:(lia)).
    set (D := GoTime.nsPerDay) in *. clearbody D. lia.
Qed.

Lemma Atoi_nonempty p d : Atoi p = Some d -> p <> "".
Proof. intros H ->. discriminate H. Qed.

Lemma nextAppearStep_takes now acc part c :
  TrimSpace part <> "" -> candidate now (TrimSpace part) = Some c ->
  GoTime.abs c < GoTime.abs acc ->
  nextAppearStep now acc part = c.
Proof.
  intros N C L. unfold nextAppearStep. cbv zeta.
  destruct (String.eqb_spec (TrimSpace part) ""); [contradiction|].
  rewrite C. unfold GoTime.After.
  destruct (Z.ltb_spec (GoTime.abs c) (GoTime.abs acc)); [reflexivity | lia].
Qed.

Lemma dayNumber_AddDate_days t k :
  GoTime.dayNumber (GoTime.AddDate t 0 0 k) = GoTime.dayNumber t + k.
Proof.
  destruct (AddDate_days t k) as [A O].
  unfold GoTime.dayNumber, GoTime.wall. rewrite A, O.
  replace (GoTime.abs t + k * GoTime.nsPerDay + GoTime.off t)
    with (GoTime.abs t + GoTime.off t + k * GoTime.nsPerDay) by lia.
  apply Z.div_add. pose proof nsPerDay_pos. lia.
Qed.

Lemma candidate_weekday now p w :
  convertToWeekDay p = Some w ->
  exists c, candidate now p = Some c /\
    GoTime.off c = GoTime.off now /\ GoTime.timeOfDay c = 0 /\
    GoTime.dayNumber c = GoTime.dayNumber now + daysUntil now w /\
    GoTime.abs c = (GoTime.dayNumber now + daysUntil now w) * GoTime.nsPerDay
                   - GoTime.off now.
Proof.
  intros W. unfold candidate.
  destruct (Atoi p) as [n|] eqn:A.
  { apply Atoi_not_weekday in A. congruence. }
  rewrite W. cbv zeta. fold (daysUntil now w).
  set (nt := GoTime.AddDate now 0 0 (daysUntil now w)).
  eexists. split; [reflexivity|].
  pose proof nsPerDay_pos as P.
  destruct (dayNumber_Date (GoTime.Year nt) (GoTime.Month nt) (GoTime.Day nt) 0
              (GoTime.off now) ltac:(lia)) as [DN TD].
  destruct (civil_of_time nt) as (_ & _ & E).
  assert (GoTime.dayNumber nt = GoTime.dayNumber now + daysUntil now w) as DNT
    by apply dayNumber_AddDate_days.
  split; [reflexivity|]. split; [exact TD|]. split; [lia|].
  unfold GoTime.Date; cbn [GoTime.abs]. rewrite E, DNT. lia.
Qed.

Lemma daysUntil_range now w : 0 <= w <= 6 -> 1 <= daysUntil now w <= 7.
Proof.
  intros Hw. unfold daysUntil, GoTime.Weekday.
  pose proof (Z.mod_pos_bound (GoTime.dayNumber now + 1) 7 ltac:(lia)).
  destruct (Z.leb_spec (w - (GoTime.dayNumber now + 1) mod 7) 0); lia.
Qed.

Lemma daysUntil_weekday now w :
  0 <= w <= 6 -> (GoTime.dayNumber now + daysUntil now w + 1) mod 7 = w.
Proof.
  intros Hw. unfold daysUntil, GoTime.Weekday.
  destruct (Z.leb_spec (w - (GoTime.dayNumber now + 1) mod 7) 0);
    Z.div_mod_to_equations; lia.
Qed.

Lemma daysUntil_same now : daysUntil now (GoTime.Weekday now) = 7.
Proof. unfold daysUntil. rewrite Z.sub_diag. reflexivity. Qed.

(** C6: a specification of one weekday part gives the candidate of that
    part: the start of a day, in the location of the reference date, 1 to
    7 days after the day of the reference date and on the weekday asked
    for.  The weekday of the reference date itself gives the day 7 days
    later, and exactly 7 times 24 hours later when the reference date is
    a start of day. *)
Theorem calculateNextAppearDate_weekday now repeatTime w :
  Split repeatTime = [repeatTime] ->
  convertToWeekDay (TrimSpace repeatTime) = Some w ->
  let result := fst (calculateNextAppearDate now repeatTime) in
  candidate now (TrimSpace repeatTime) = Some result /\
  GoTime.timeOfDay result = 0 /\ GoTime.off result = GoTime.off now /\
  1 <= GoTime.dayNumber result - GoTime.dayNumber now <= 7 /\
  GoTime.Weekday result = w /\
  (w = GoTime.Weekday now ->
   GoTime.dayNumber result = GoTime.dayNumber now + 7 /\
   (GoTime.timeOfDay now = 0 ->
    GoTime.abs result = GoTime.abs now + 7 * GoTime.nsPerDay)).
Proof.
  intros S W. cbv zeta.
  rewrite (calculateNextAppearDate_single now repeatTime S).
  destruct (candidate_weekday now _ w W) as (c & C & O & TD & DN & A).
  pose proof (convertToWeekDay_range _ _ W) as R.
  pose proof (daysUntil_range now w R) as U.
  pose proof (wall_split now) as [Wn Tn]. unfold GoTime.wall in Wn.
  destruct (AddDate_year now) as [Y _].
  assert (TrimSpace repeatTime <> "") as N by (intros E; rewrite E in W; discriminate W).
  rewrite (nextAppearStep_takes now _ repeatTime c N C).
  2:{ pose proof (mul_day_bounds 1 (daysUntil now w) 7 U).
      set (D := GoTime.nsPerDay) in *. clearbody D. lia. }
  split; [exact C|]. split; [exact TD|]. split; [exact O|]. split; [lia|].
  split.
  - unfold GoTime.Weekday at 1. rewrite DN. now apply daysUntil_weekday.
  - intros ->. rewrite daysUntil_same in *. split; [lia|]. intros T0. lia.
Qed.

(** C5, amended: a specification of one part that reads as the day [d]
    of the month, 1 to 31, gives a start of day in the location of the
    reference date; it is day [d] of the month of the reference date when
    [d] is not before the day of the reference date and that month has a
    day [d], and day [d] of the following month when [d] is before the day
    of the reference date and the following month has a day [d]. *)
Theorem calculateNextAppearDate_day_of_month now repeatTime d :
  Split repeatTime = [repeatTime] ->
  Atoi (TrimSpace repeatTime) = Some d ->
  1 <= d <= 31 ->
  let result := fst (calculateNextAppearDate now repeatTime) in
  let y := GoTime.Year now in
  let m := GoTime.Month now in
  GoTime.timeOfDay result = 0 /\ GoTime.off result = GoTime.off now /\
  (GoTime.Day now <= d -> d <= GoTime.daysIn y m ->
   GoTime.Year result = y /\ GoTime.Month result = m /\ GoTime.Day result = d) /\
  (d < GoTime.Day now ->
   d <= GoTime.daysIn (fst (followingMonth y m)) (snd (followingMonth y m)) ->
   GoTime.Year result = fst (followingMonth y m) /\
   GoTime.Month result = snd (followingMonth y m) /\ GoTime.Day result = d).
Proof.
  intros S A Hd. cbv zeta.
  rewrite (calculateNextAppearDate_single now repeatTime S).
  pose proof (candidate_number now _ d A) as C.
  destruct (candidate_number_bounds now _ d _ A Hd C) as (O & _ & B).
  destruct (AddDate_year now) as [Y _].
  pose proof nsPerDay_pos as P.
  rewrite (nextAppearStep_takes now _ repeatTime _ (Atoi_nonempty _ _ A) C).
  2:{ set (D := GoTime.nsPerDay) in *. clearbody D. lia. }
  destruct (civil_of_time now) as (Hm & Hday & _).
  set (y := GoTime.Year now) in *. set (m := GoTime.Month now) in *.
  set (inMonth := GoTime.Date y m d 0 (GoTime.off now)) in *.
  assert (d <= GoTime.daysIn y m ->
          GoTime.Year inMonth = y /\ GoTime.Month inMonth = m /\ GoTime.Day inMonth = d)
    as CI by (intros; apply civil_Date; lia).
  destruct (dayNumber_Date y m d 0 (GoTime.off now) ltac:(lia)) as [_ TI].
  fold inMonth in TI.
  destruct (Z.leb_spec (GoTime.Day now) d) as [L | L].
  - split; [exact TI|]. split; [reflexivity|]. split; [intros _; exact CI | lia].
  - destruct (CI ltac:(lia)) as (Ey & Em & Ed).
    assert (GoTime.AddDate inMonth 0 1 0 = GoTime.Date y (m + 1) d 0 (GoTime.off now)) as ->.
    { unfold GoTime.AddDate. rewrite Ey, Em, Ed, TI, !Z.add_0_r. reflexivity. }
    destruct (dayNumber_Date y (m + 1) d 0 (GoTime.off now) ltac:(lia)) as [_ TN].
    split; [exact TN|]. split; [reflexivity|]. split; [lia|]. intros _.
    unfold followingMonth. destruct (Z.eqb_spec m 12) as [E12 | N12]; cbn [fst snd].
    + intros V. rewrite E12.
      assert (GoTime.Date y (12 + 1) d 0 (GoTime.off now)
              = GoTime.Date (y + 1) 1 d 0 (GoTime.off now)) as ->.
      { unfold GoTime.Date. change (12 + 1) with 13. now rewrite daysFromCivil_carry. }
      apply civil_Date; lia.
    + intros V. apply civil_Date; lia.
Qed.

(** ** The next date is the least candidate of the design document *)

Lemma specWeekday_convertToWeekDay token :
  specWeekday token = convertToWeekDay token.
Proof.
  unfold specWeekday, convertToWeekDay, specWeekdays. cbv zeta.
  generalize (ToLower token) as d. intros d. cbn [List.find fst snd].
  destruct (d =? "mon")%string; [reflexivity|].
  destruct (d =? "monday")%string; [reflexivity|].
  destruct (d =? "tue")%string; [reflexivity|].
  destruct (d =? "tuesday")%string; [reflexivity|].
  destruct (d =? "wed")%string; [reflexivity|].
  destruct (d =? "wednesday")%string; [reflexivity|].
  destruct (d =? "thu")%string; [reflexivity|].
  destruct (d =? "thursday")%string; [reflexivity|].
  destruct (d =? "fri")%string; [reflexivity|].
  destruct (d =? "friday")%string; [reflexivity|].
  destruct (d =? "sat")%string; [reflexivity|].
  destruct (d =? "saturday")%string; [reflexivity|].
  destruct (d =? "sun")%string; [reflexivity|].
  destruct (d =? "sunday")%string; reflexivity.
Qed.

Lemma specDelta_daysUntil now w : 0 <= w <= 6 -> specDelta now w = daysUntil now w.
Proof.
  intros Hw. unfold specDelta, daysUntil, GoTime.Weekday. cbv zeta.
  pose proof (Z.mod_pos_bound (GoTime.dayNumber now + 1) 7 ltac:(lia)) as Hd.
  set (wd := (GoTime.dayNumber now + 1) mod 7) in *.
  destruct (Z.leb_spec (w - wd) 0) as [L | L].
  - destruct (Z.eq_dec w wd) as [-> | N].
    + rewrite Z.sub_diag. change (0 mod 7) with 0. reflexivity.
    + replace ((w - wd) mod 7) with (w - wd + 7).
      * destruct (Z.leb_spec (w - wd + 7) 0); lia.
      * symmetry. rewrite <- (Z.mod_add (w - wd) 1 7) by lia.
        apply Z.mod_small. lia.
  - rewrite Z.mod_small by lia.
    destruct (Z.leb_spec (w - wd) 0); lia.
Qed.

Lemma AddDate_month_Date y m d loc :
  1 <= m <= 12 -> 1 <= d <= GoTime.daysIn y m ->
  GoTime.AddDate (GoTime.Date y m d 0 loc) 0 1 0
  = GoTime.Date (fst (followingMonth y m)) (snd (followingMonth y m)) d 0 loc.
Proof.
  intros Hm Hd. pose proof nsPerDay_pos as HD.
  destruct (civil_Date y m d 0 loc Hm Hd ltac:(lia)) as (Ey & Em & Ed).
  destruct (dayNumber_Date y m d 0 loc ltac:(lia)) as [_ Et].
  unfold GoTime.AddDate. rewrite Ey, Em, Ed, Et.
  change (GoTime.off (GoTime.Date y m d 0 loc)) with loc.
  rewrite !Z.add_0_r. unfold followingMonth.
  destruct (Z.eqb_spec m 12) as [-> | N]; cbn [fst snd]; [|reflexivity].
  unfold GoTime.Date. change (12 + 1) with 13. now rewrite daysFromCivil_carry.
Qed.

Lemma specCandidate_blank now : specCandidate now "" = None.
Proof. reflexivity. Qed.

(** On a part [validateRepeatString] accepts, the candidate of the code is
    the candidate of the design document. *)
Lemma partCandidate_specCandidate now part :
  acceptedPart part ->
  partCandidate now part = specCandidate now (TrimSpace part).
Proof.
  unfold acceptedPart, partCandidate. cbv zeta.
  set (p := TrimSpace part). intros A.
  destruct (String.eqb_spec p "") as [-> | NE]; [now rewrite specCandidate_blank|].
  destruct A as [A | [(d & Hd & Hr) | W]]; [contradiction | |].
  - rewrite (candidate_number now p d Hd). unfold specCandidate. rewrite Hd.
    destruct (Z.leb_spec 1 d); [|lia]. destruct (Z.leb_spec d 31); [|lia].
    cbn [andb]. cbv zeta.
    destruct (Z.leb_spec (GoTime.Day now) d) as [L | L]; cbn [fst snd];
      [reflexivity|].
    f_equal. destruct (civil_of_time now) as (Hm & Hday & _).
    apply AddDate_month_Date; lia.
  - apply convertToWeekDay_Some in W as [w Hw].
    assert (Atoi p = None) as Ha.
    { destruct (Atoi p) as [n|] eqn:E; [|reflexivity].
      rewrite (Atoi_not_weekday p n E) in Hw. discriminate. }
    destruct (candidate_weekday now p w Hw) as (c & Hc & Ho & _ & _ & Habs).
    rewrite Hc. unfold specCandidate. rewrite Ha, specWeekday_convertToWeekDay, Hw.
    rewrite (specDelta_daysUntil now w (convertToWeekDay_range p w Hw)).
    f_equal. unfold startOfDay. destruct c as [a o].
    cbn [GoTime.abs GoTime.off] in *. now subst.
Qed.

Lemma omap_partCandidate_specCandidate now parts :
  Forall acceptedPart parts ->
  omap (partCandidate now) parts
  = omap (fun part => specCandidate now (TrimSpace part)) parts.
Proof.
  induction 1 as [|part rest A _ IH]; [reflexivity|].
  cbn [omap list_omap]. rewrite (partCandidate_specCandidate now part A).
  now rewrite IH.
Qed.

(** C7, amended: [calculateNextAppearDate] never returns an error, and for
    every reference date and every specification [validateRepeatString]
    accepts, its result is the least, by instant, of the reference date
    plus one year and the candidates the design document gives the parts:
    it is one of them and none is before it.  A specification whose parts
    are all empty after trimming gives the reference date plus one
    year. *)
Theorem calculateNextAppearDate_minimum now repeatTime :
  let fallback := GoTime.AddDate now 1 0 0 in
  let result := fst (calculateNextAppearDate now repeatTime) in
  snd (calculateNextAppearDate now repeatTime) = None /\
  (validateRepeatString repeatTime = None ->
   result ∈ fallback :: specCandidates now repeatTime /\
   Forall (fun c => GoTime.abs result <= GoTime.abs c)
     (fallback :: specCandidates now repeatTime) /\
   (Forall (fun part => TrimSpace part = "") (Split repeatTime) ->
    result = fallback)).
Proof.
  cbv zeta. split; [reflexivity|]. intros Hv.
  rewrite validateRepeatString_parts in Hv. apply validateParts_None in Hv.
  unfold calculateNextAppearDate, specCandidates; cbn [fst snd].
  rewrite <- (omap_partCandidate_specCandidate now _ Hv).
  destruct (fold_nextAppearStep now (Split repeatTime) (GoTime.AddDate now 1 0 0))
    as (H1 & H2 & H3).
  split; [|split].
  - destruct H1 as [-> | H1]; [apply list_elem_of_here | now apply list_elem_of_further].
  - constructor; assumption.
  - intros E. rewrite (omap_partCandidate_nil now _ E) in H1.
    destruct H1 as [H1 | H1]; [exact H1 | inversion H1].
Qed.
(** ** Pagination *)

Lemma wrapInt_id z : minInt <= z <= maxInt -> wrapInt z = z.
Proof.
  unfold wrapInt, minInt, maxInt. intros H.
  rewrite Z.mod_small; lia.
Qed.

Lemma totalPagesOf_ceil n pageSize :
  0 < pageSize ->
  (totalPagesOf n pageSize - 1) * pageSize < n <= totalPagesOf n pageSize * pageSize.
Proof.
  intros H. unfold totalPagesOf.
  destruct (Z.eqb_spec pageSize 0); [lia|].
  pose proof (Z.div_mod (- n) pageSize ltac:(lia)).
  pose proof (Z.mod_pos_bound (- n) pageSize H). nia.
Qed.

Lemma slice_in_range {A} (s : list A) lo hi :
  0 <= lo <= hi -> hi <= Z.of_nat (length s) ->
  slice s lo hi = Returned (take (Z.to_nat (hi - lo)) (drop (Z.to_nat lo) s)).
Proof.
  intros H1 H2. unfold slice.
  destruct (Z.leb_spec 0 lo); [|lia]. destruct (Z.leb_spec lo hi); [|lia].
  destruct (Z.leb_spec hi (Z.of_nat (length s))); [reflexivity | lia].
Qed.

(** C10, amended: for [page >= 1] and [pageSize >= 1] with
    [page * pageSize] in the range of [int], [GetTransactions] returns,
    with [currentPage = page], [totalPages] the ceiling of the filtered
    count over [pageSize] and as items the [pageSize] filtered
    transactions from position [(page - 1) * pageSize] on, none for a page
    beyond the range; with 25 of them and pages of 10 there are 3 pages,
    page 3 has 5 items and page 4 none. *)
Theorem GetTransactions_pagination userID categories fromDate toDate page pageSize
    now ts :
  1 <= page -> 1 <= pageSize -> page * pageSize <= maxInt ->
  let filtered :=
    filterTransactions categories fromDate toDate (fst (lookupOrSeed userID now ts)) in
  let filteredCount := Z.of_nat (length filtered) in
  exists totalPages items,
    fst (GetTransactions userID categories fromDate toDate page pageSize now ts)
    = Returned (mkTransactionsResponse page totalPages items) /\
    (totalPages - 1) * pageSize < filteredCount <= totalPages * pageSize /\
    items = take (Z.to_nat pageSize) (drop (Z.to_nat ((page - 1) * pageSize)) filtered) /\
    (filteredCount <= (page - 1) * pageSize -> items = []) /\
    (filteredCount = 25 -> pageSize = 10 ->
     totalPages = 3 /\ (page = 3 -> length items = 5%nat) /\ (page = 4 -> items = [])).
Proof.
  intros Hp Hs Hmax. cbv zeta. unfold GetTransactions.
  destruct (lookupOrSeed userID now ts) as [userTransactions ts']. cbn [fst].
  set (filtered := filterTransactions categories fromDate toDate userTransactions).
  set (n := Z.of_nat (length filtered)).
  assert (0 <= n) as Hn by (subst n; lia).
  assert (minInt <= page - 1 <= maxInt /\ minInt <= (page - 1) * pageSize <= maxInt)
    as [R1 R2] by (unfold minInt, maxInt in *; nia).
  rewrite (wrapInt_id (page - 1) R1), (wrapInt_id _ R2).
  pose proof (totalPagesOf_ceil n pageSize ltac:(lia)) as Hc.
  set (start := (page - 1) * pageSize) in *.
  assert (0 <= start) as Hstart by (subst start; nia).
  exists (totalPagesOf n pageSize).
  destruct (Z.leb_spec n start) as [Hout | Hin].
  - exists []. cbn [fst]. split; [reflexivity|]. split; [exact Hc|].
    assert (drop (Z.to_nat start) filtered = []) as D.
    { apply drop_ge. subst n. lia. }
    split; [now rewrite D, take_nil|]. split; [reflexivity|].
    intros -> ->. split; [lia|]. split; [|reflexivity].
    intros ->. subst start. lia.
  - assert (start + pageSize = page * pageSize) as E by (subst start; lia).
    rewrite (wrapInt_id (start + pageSize)) by (unfold minInt, maxInt in *; lia).
    set (stop := if n <? start + pageSize then n else start + pageSize).
    assert (start <= stop <= n /\ stop - start = Z.min pageSize (n - start)) as [Hstop Hlen].
    { subst stop. destruct (Z.ltb_spec n (start + pageSize)); lia. }
    rewrite slice_in_range by (fold n; lia).
    eexists. cbn [fst]. split; [reflexivity|]. split; [exact Hc|].
    assert (take (Z.to_nat (stop - start)) (drop (Z.to_nat start) filtered)
            = take (Z.to_nat pageSize) (drop (Z.to_nat start) filtered)) as T.
    { rewrite Hlen. destruct (Z.le_ge_cases pageSize (n - start)).
      - now rewrite Z.min_l by lia.
      - rewrite Z.min_r by lia.
        rewrite !take_ge; [reflexivity | |]; rewrite length_drop; subst n; lia. }
    split; [exact T|]. split; [lia|].
    intros E25 ->. split; [lia|]. split.
    + intros ->. rewrite length_take, length_drop. subst start n. lia.
    + intros ->. subst start. lia.
Qed.
(** ** The spending curve *)

Lemma filter_cons_bool {A} (f : A -> bool) x (l : list A) :
  filter f (x :: l) = if f x then x :: filter f l else filter f l.
Proof. rewrite filter_cons. destruct (f x); reflexivity. Qed.

Lemma filter_ext_bool {A} (f g : A -> bool) (l : list A) :
  (forall x, f x = g x) -> filter f l = filter g l.
Proof.
  intros E. induction l as [|x l IH]; [reflexivity|].
  rewrite !filter_cons_bool, E, IH. reflexivity.
Qed.


Lemma floatAt_insert m k v k' :
  floatAt (<[k := v]> m) k' = if (k =? k')%string then v else floatAt m k'.
Proof.
  unfold floatAt. destruct (String.eqb_spec k k') as [-> | N].
  - now rewrite lookup_insert_eq.
  - now rewrite lookup_insert_ne.
Qed.








(** The loop over the days of the period ends within its fuel: more fuel
    changes nothing. *)
Lemma datesLoop_fuel fuel extra currentDate toDate :
  (GoTime.abs toDate - GoTime.abs currentDate) / GoTime.nsPerDay + 1 <= Z.of_nat fuel ->
  datesLoop (fuel + extra) currentDate toDate = datesLoop fuel currentDate toDate.
Proof.
  pose proof nsPerDay_pos as P.
  revert currentDate. induction fuel as [|fuel IH]; intros currentDate H.
  - assert (GoTime.After currentDate toDate = true) as A.
    { unfold GoTime.After. apply Z.ltb_lt.
      assert ((GoTime.abs toDate - GoTime.abs currentDate) / GoTime.nsPerDay < 0) as N by lia.
      destruct (Z.lt_ge_cases (GoTime.abs toDate - GoTime.abs currentDate) 0) as [L | G];
        [lia|].
      pose proof (Z.div_pos _ _ G P). lia. }
    cbn [Nat.add]. destruct extra; cbn [datesLoop]; [reflexivity | now rewrite A].
  - cbn [Nat.add datesLoop]. destruct (GoTime.After currentDate toDate); [reflexivity|].
    f_equal. apply IH.
    destruct (AddDate_days currentDate 1) as [-> _].
    replace (GoTime.abs toDate - (GoTime.abs currentDate + 1 * GoTime.nsPerDay))
      with (GoTime.abs toDate - GoTime.abs currentDate + (-1) * GoTime.nsPerDay) by lia.
    rewrite Z.div_add by lia. lia.
Qed.

Lemma periodDates_fuel extra fromDate toDate :
  datesLoop
    (Z.to_nat ((GoTime.abs toDate - GoTime.abs fromDate) / GoTime.nsPerDay + 1) + extra)
    fromDate toDate
  = periodDates fromDate toDate.
Proof. unfold periodDates. apply datesLoop_fuel. lia. Qed.


Lemma insertByDate_perm t l : insertByDate t l ≡ₚ t :: l.
Proof.
  induction l as [|x r IH]; cbn [insertByDate]; [reflexivity|].
  destruct (GoTime.After (Date x) (Date t)); [|reflexivity].
  rewrite IH. apply perm_swap.
Qed.

Lemma sortByDateDesc_perm l : sortByDateDesc l ≡ₚ l.
Proof.
  unfold sortByDateDesc. induction l as [|x r IH]; cbn [foldr]; [reflexivity|].
  rewrite insertByDate_perm. now rewrite IH.
Qed.



(** ** Materializing recurrences *)

Lemma newTransactionOf_fields today newID t :
  newTransactionOf today newID t =
  mkTransaction newID (Amount t) (Title t) (Category t) today
    (fst (calculateNextAppearDate today (RepeatTime t))) (RepeatTime t).
Proof. reflexivity. Qed.

Section ProcessList.
Variable today : GoTime.Time.
Variable uuid : nat -> string.

Lemma processList_counter dues k (m : gmap string Transaction) :
  snd (processList today uuid k dues m) = (k + length dues)%nat.
Proof.
  revert k m. induction dues as [|t dues IH]; intros k m; cbn [processList length].
  - cbn. lia.
  - rewrite IH. lia.
Qed.




End ProcessList.

Lemma elem_of_rangeValues {V} (m : gmap string V) v :
  v ∈ rangeValues m <-> exists k, m !! k = Some v.
Proof.
  unfold rangeValues. rewrite list_elem_of_fmap. split.
  - intros ([k v'] & -> & H). exists k. now apply elem_of_map_to_list in H.
  - intros [k H]. exists (k, v). split; [reflexivity | now apply elem_of_map_to_list].
Qed.



(** The outer loop: each user's collection is processed once, from the
    counter the users before it left. *)
Lemma processUsers_other today uuid users k (ts : Store) u :
  u ∉ users.*1 -> processUsers today uuid k users ts !! u = ts !! u.
Proof.
  revert k ts. induction users as [|[u0 m0] users IH]; intros k ts Hu; [reflexivity|].
  rewrite fmap_cons in Hu. apply not_elem_of_cons in Hu as [N Hu]. cbn [fst] in N.
  cbn [processUsers]. destruct (processUser today uuid k m0) as [m0' k'].
  rewrite IH by exact Hu. now rewrite lookup_insert_ne.
Qed.

Lemma processUsers_lookup today uuid users k (ts : Store) u m :
  NoDup users.*1 -> (u, m) ∈ users ->
  exists k', processUsers today uuid k users ts !! u
             = Some (fst (processUser today uuid k' m)).
Proof.
  revert k ts. induction users as [|[u0 m0] users IH]; intros k ts Hnd Hin.
  - inversion Hin.
  - rewrite fmap_cons in Hnd. apply NoDup_cons in Hnd as [Hnot Hnd]. cbn [fst] in Hnot.
    cbn [processUsers]. destruct (processUser today uuid k m0) as [m0' k'] eqn:E.
    apply elem_of_cons in Hin as [[= -> ->] | Hin].
    + exists k. rewrite processUsers_other by exact Hnot.
      rewrite lookup_insert_eq, E. reflexivity.
    + apply IH; assumption.
Qed.


(** ** The invariant of the reachable stores *)

(** *** The next date of a valid specification is never the zero time *)

Lemma partCandidate_positive now part c :
  pastOrigin now -> acceptedPart part -> partCandidate now part = Some c ->
  0 < GoTime.abs c.
Proof.
  unfold pastOrigin, acceptedPart, partCandidate. cbv zeta. intros Hnow Hacc C.
  pose proof nsPerDay_pos as P.
  destruct (String.eqb_spec (GoStrings.TrimSpace part) "") as [E | N]; [discriminate|].
  destruct Hacc as [E | [(n & A & Hn) | W]]; [contradiction | |].
  - destruct (candidate_number_bounds now _ n c A Hn C) as (_ & L & _).
    set (D := GoTime.nsPerDay) in *. clearbody D. lia.
  - apply convertToWeekDay_Some in W as [w W].
    destruct (candidate_weekday now _ w W) as (c' & C' & _ & _ & _ & A).
    assert (c' = c) as -> by congruence.
    pose proof (daysUntil_range now w (convertToWeekDay_range _ _ W)) as U.
    pose proof (mul_day_bounds 1 (daysUntil now w) 7 U).
    pose proof (wall_split now) as [Wn Tn]. unfold GoTime.wall in Wn.
    set (D := GoTime.nsPerDay) in *. clearbody D. lia.
Qed.

Lemma fold_nextAppearStep_positive now parts acc :
  pastOrigin now -> Forall acceptedPart parts -> 0 < GoTime.abs acc ->
  0 < GoTime.abs (fold_left (nextAppearStep now) parts acc).
Proof.
  intros Hnow Hall. revert acc. induction Hall as [|part rest Hp _ IH]; intros acc Hacc.
  - exact Hacc.
  - cbn [fold_left]. apply IH. rewrite nextAppearStep_candidate.
    destruct (partCandidate now part) as [c|] eqn:C; [|exact Hacc].
    destruct (GoTime.After acc c); [|exact Hacc].
    now apply (partCandidate_positive now part c).
Qed.

Lemma calculateNextAppearDate_positive now repeatTime :
  pastOrigin now -> validateRepeatString repeatTime = None ->
  0 < GoTime.abs (fst (calculateNextAppearDate now repeatTime)).
Proof.
  intros Hnow V. unfold calculateNextAppearDate; cbn [fst].
  apply fold_nextAppearStep_positive; [exact Hnow | |].
  - apply validateParts_None. now rewrite <- validateRepeatString_parts.
  - destruct (AddDate_year now) as [Y _]. unfold pastOrigin in Hnow.
    pose proof nsPerDay_pos. set (D := GoTime.nsPerDay) in *. clearbody D. lia.
Qed.

(** *** The invariant *)

Lemma goodCollection_insert F u (m : gmap string Transaction) id t :
  goodCollection F u m -> goodTransaction F u id t -> goodCollection F u (<[id := t]> m).
Proof.
  intros Hm Ht id' t'. destruct (decide (id = id')) as [-> | N].
  - rewrite lookup_insert_eq. now intros [= <-].
  - rewrite lookup_insert_ne by exact N. apply Hm.
Qed.

Lemma goodStore_insert ts F u (m : gmap string Transaction) :
  goodStore ts F -> goodCollection F u m -> goodStore (<[u := m]> ts) F.
Proof.
  intros Hs Hm u' m'. destruct (decide (u = u')) as [-> | N].
  - rewrite lookup_insert_eq. now intros [= <-].
  - rewrite lookup_insert_ne by exact N. apply Hs.
Qed.

Lemma Itoa_day_valid d :
  1 <= d <= 31 ->
  GoStrings.Itoa d <> "" /\ validateRepeatString (GoStrings.Itoa d) = None.
Proof.
  intros H.
  assert (exists n : nat, (n < 31)%nat /\ d = Z.of_nat n + 1) as (n & Hn & ->).
  { exists (Z.to_nat (d - 1)). lia. }
  do 31 (destruct n as [|n]; [split; [discriminate | vm_compute; reflexivity]|]). lia.
Qed.

Lemma getInitialTransactions_good F u now :
  pastOrigin now -> goodCollection F u (getInitialTransactions now).
Proof.
  intros Hnow. unfold getInitialTransactions.
  repeat apply goodCollection_insert.
  - intros id t H. rewrite lookup_empty in H. discriminate.
  - split; cbn [RepeatTime NextAppearDate].
    + intros _. destruct (civil_of_time now) as (_ & Hd & _).
      pose proof (daysIn_bounds (GoTime.Year now) (GoTime.Month now)).
      split; [apply Itoa_day_valid; lia|].
      destruct (AddDate_month now) as [-> _].
      pose proof (mul_day_bounds 28 _ 31 H). unfold pastOrigin in Hnow.
      pose proof nsPerDay_pos. set (D := GoTime.nsPerDay) in *. clearbody D. lia.
    + intros _. left. destruct (civil_of_time now) as (_ & Hd & _).
      pose proof (daysIn_bounds (GoTime.Year now) (GoTime.Month now)).
      apply Itoa_day_valid. lia.
  - split; cbn [RepeatTime NextAppearDate]; [congruence | discriminate].
  - split; cbn [RepeatTime NextAppearDate]; [congruence | discriminate].
Qed.

Lemma goodTransaction_mono (F F' : string -> string -> Prop) u id t :
  (forall u id, F u id -> F' u id) -> goodTransaction F u id t -> goodTransaction F' u id t.
Proof. intros HF [H1 H2]. split; [exact H1|]. intros Z. destruct (H2 Z); auto. Qed.

Lemma goodStore_mono ts (F F' : string -> string -> Prop) :
  (forall u id, F u id -> F' u id) -> goodStore ts F -> goodStore ts F'.
Proof.
  intros HF H u m Hu id t Ht. eapply goodTransaction_mono; [exact HF | now apply (H u m)].
Qed.

Lemma lookupOrSeed_good userID now ts F :
  pastOrigin now -> goodStore ts F -> goodStore (snd (lookupOrSeed userID now ts)) F.
Proof.
  intros Hnow H. unfold lookupOrSeed. destruct (ts !! userID); cbn [snd]; [exact H|].
  apply goodStore_insert; [exact H | now apply getInitialTransactions_good].
Qed.

Lemma GetTransactions_store userID categories fromDate toDate page pageSize now ts :
  snd (GetTransactions userID categories fromDate toDate page pageSize now ts)
  = snd (lookupOrSeed userID now ts).
Proof.
  unfold GetTransactions. destruct (lookupOrSeed userID now ts) as [m ts']. cbn [snd].
  destruct (_ <=? _); reflexivity.
Qed.

Lemma GetAllTransactions_store userID fromDate toDate now ts :
  snd (GetAllTransactions userID fromDate toDate now ts) = snd (lookupOrSeed userID now ts).
Proof.
  unfold GetAllTransactions. now destruct (lookupOrSeed userID now ts).
Qed.

Lemma CreateTransaction_good userID req transactionID now ts F :
  pastOrigin now ->
  (forall date, parseDate (reqDate req) = Some date -> pastOrigin date) ->
  goodStore ts F ->
  goodStore (snd (CreateTransaction userID req transactionID now ts)) F.
Proof.
  intros Hnow Hdate H. unfold CreateTransaction.
  destruct (parseDate (reqDate req)) as [date|] eqn:Pd; [|exact H].
  destruct (validateRepeatString (reqRepeatTime req)) as [e|] eqn:V; [exact H|].
  assert (goodCollection F userID
            (match ts !! userID with
             | Some m => m
             | None => getInitialTransactions now
             end)) as Hm.
  { destruct (ts !! userID) as [m|] eqn:Hu;
      [now apply (H userID) | now apply getInitialTransactions_good]. }
  destruct (String.eqb_spec (reqRepeatTime req) "") as [E | N]; cbn [snd].
  - apply goodStore_insert; [exact H|]. apply goodCollection_insert; [exact Hm|].
    split; cbn [RepeatTime NextAppearDate]; [congruence | discriminate].
  - unfold calculateNextAppearDate. cbn [snd].
    apply goodStore_insert; [exact H|]. apply goodCollection_insert; [exact Hm|].
    split; cbn [RepeatTime NextAppearDate]; [|now left].
    intros _. split; [exact V|].
    apply (calculateNextAppearDate_positive date _ (Hdate date eq_refl) V).
Qed.

Lemma DeleteTransaction_good userID id ts F :
  goodStore ts F -> goodStore (DeleteTransaction userID id ts) F.
Proof.
  intros H. unfold DeleteTransaction. destruct (ts !! userID) as [m|] eqn:Hu; [|exact H].
  apply goodStore_insert; [exact H|]. intros id' t Ht.
  apply lookup_delete_Some in Ht as [_ Ht]. now apply (H userID m).
Qed.

Lemma processList_good today uuid F u dues k (m : gmap string Transaction) :
  pastOrigin today ->
  (forall t, t ∈ dues ->
     RepeatTime t <> "" /\ validateRepeatString (RepeatTime t) = None /\ F u (ID t)) ->
  goodCollection F u m ->
  goodCollection F u (fst (processList today uuid k dues m)).
Proof.
  intros Hnow. revert k m. induction dues as [|t dues IH]; intros k m Hd Hm; [exact Hm|].
  cbn [processList]. apply IH.
  - intros t' Ht'. apply Hd. now apply list_elem_of_further.
  - destruct (Hd t (list_elem_of_here _ _)) as (N & V & Hf).
    unfold processOne. apply goodCollection_insert; [apply goodCollection_insert|].
    + exact Hm.
    + rewrite newTransactionOf_fields. split; cbn [RepeatTime NextAppearDate]; [|now left].
      intros _. split; [exact V | now apply calculateNextAppearDate_positive].
    + unfold withRepeatTime. split; cbn [RepeatTime NextAppearDate ID];
        [intros N'; now contradiction N' | now right].
Qed.

Lemma processUsers_good today uuid F users k (ts : Store) :
  pastOrigin today ->
  (forall u (m : gmap string Transaction), (u, m) ∈ users ->
     goodCollection F u m /\
     forall t, t ∈ rangeValues m -> dueToday today t = true -> F u (ID t)) ->
  goodStore ts F ->
  goodStore (processUsers today uuid k users ts) F.
Proof.
  intros Hnow. revert k ts. induction users as [|[u m] users IH]; intros k ts Hu Hs; [exact Hs|].
  cbn [processUsers]. destruct (processUser today uuid k m) as [m' k'] eqn:E.
  apply IH.
  - intros u' m0 H'. apply Hu. now apply list_elem_of_further.
  - apply goodStore_insert; [exact Hs|].
    destruct (Hu u m (list_elem_of_here _ _)) as [Hm Hf].
    replace m' with (fst (processUser today uuid k m)) by now rewrite E.
    unfold processUser. apply processList_good; [exact Hnow | | exact Hm].
    intros t [Hd Ht]%list_elem_of_filter.
    assert (dueToday today t = true) as Hd' by now destruct (dueToday today t).
    assert (RepeatTime t <> "") as N.
    { unfold dueToday in Hd'. apply andb_prop in Hd' as [_ Hn].
      apply negb_true_iff in Hn. now apply String.eqb_neq in Hn. }
    apply elem_of_rangeValues in Ht as [id Hid].
    split; [exact N|]. split; [now apply (Hm id t Hid) |].
    apply Hf; [apply elem_of_rangeValues; eauto | exact Hd'].
Qed.

Lemma pastOrigin_Truncate24h now : pastOrigin now -> pastOrigin (GoTime.Truncate24h now).
Proof.
  unfold pastOrigin, GoTime.Truncate24h; cbn [GoTime.abs]. intros H.
  pose proof nsPerDay_pos as P.
  pose proof (Z.div_mod (GoTime.abs now) GoTime.nsPerDay ltac:(lia)) as E.
  pose proof (Z.mod_pos_bound (GoTime.abs now) GoTime.nsPerDay P) as B.
  assert (4 <= GoTime.abs now / GoTime.nsPerDay) as Q.
  { apply Z.div_le_lower_bound; lia. }
  set (D := GoTime.nsPerDay) in *. clearbody D. nia.
Qed.

Lemma Reachable_good ts F : Reachable ts F -> goodStore ts F.
Proof.
  induction 1 as [| ? ? ? ? ? ? ? ? ? _ IH Hnow | ? ? ? ? ? ? _ IH Hnow
                  | ? ? ? ? ? ? _ IH Hnow Hdate | ? ? ? ? _ IH | now uuid ts F _ IH Hnow].
  - intros u m H. rewrite lookup_empty in H. discriminate.
  - rewrite GetTransactions_store. now apply lookupOrSeed_good.
  - rewrite GetAllTransactions_store. now apply lookupOrSeed_good.
  - now apply CreateTransaction_good.
  - now apply DeleteTransaction_good.
  - unfold ProcessAllRecurringTransactions.
    apply processUsers_good.
    + now apply pastOrigin_Truncate24h.
    + intros u m Hu. apply elem_of_map_to_list in Hu. split.
      * intros id t Ht. eapply goodTransaction_mono; [|now apply (IH u m Hu)].
        intros; now left.
      * intros t Ht Hd. right. exists m, t. split; [exact Hu|].
        split; [now apply list_elem_of_In | split; [exact Hd | reflexivity]].
    + eapply goodStore_mono; [|exact IH]. intros; now left.
Qed.

(** C3, amended: in every store reached from the empty store by queries,
    creations, deletions and runs of the daily job, with the clock and
    the request dates past the first days of year 1, a transaction with a
    repeat specification has its next date set, and a transaction with
    its next date set has a repeat specification unless a recurrence has
    fired from it: then it keeps the next date without the specification
    for good. *)
Theorem Reachable_repeat_spec_invariant ts F userID
    (userTransactions : gmap string Transaction) id t :
  Reachable ts F ->
  ts !! userID = Some userTransactions -> userTransactions !! id = Some t ->
  (RepeatTime t <> "" -> GoTime.IsZero (NextAppearDate t) = false) /\
  (GoTime.IsZero (NextAppearDate t) = false -> RepeatTime t <> "" \/ F userID id).
Proof.
  intros R Hu Ht. destruct (Reachable_good ts F R userID userTransactions Hu id t Ht) as [H1 H2].
  split; [|exact H2]. intros N. destruct (H1 N) as [_ P].
  unfold GoTime.IsZero. apply Z.eqb_neq. lia.
Qed.
(** ** The properties on concrete stores *)




Lemma leZ_by_vm (a b : Z) : (a ?= b) <> Gt -> a <= b.
Proof. intros H. exact H. Qed.

(** *** The backup *)

Lemma GetBackupData_entry (ts : Store) u (m : gmap string Transaction) id t :
  ts !! u = Some m -> m !! id = Some t ->
  exists m' : gmap string Transaction,
    GetBackupData ts !! u = Some m' /\ m' !! id = Some (withRepeatTime t "").
Proof.
  intros Hu Ht. exists (backupTransaction <$> m). unfold GetBackupData.
  rewrite lookup_fmap, Hu. split; [reflexivity|].
  rewrite lookup_fmap, Ht. reflexivity.
Qed.

(** C1 (the code drops a field): the backup copies six of the seven fields
    of a transaction, so a store rebuilt from it answers a query with the
    repeat specification gone. *)
Theorem GetBackupData_loses_repeat_spec :
  let restored := NewTransactionsService (Some (GetBackupData gymStore)) in
  fst (GetAllTransactions "u" GoTime.zeroTime GoTime.zeroTime noon20230415 gymStore)
  = [gym] /\
  fst (GetAllTransactions "u" GoTime.zeroTime GoTime.zeroTime noon20230415 restored)
  = [withRepeatTime gym ""] /\
  RepeatTime gym = "15".
Proof. cbv zeta. split; [by_vm | split; [by_vm | reflexivity]]. Qed.

(** *** The first query of an unknown user *)

Lemma GetTransactions_unknown_user userID categories fromDate toDate pageSize now
    (ts : Store) :
  ts !! userID = None -> pageSize <> 0 ->
  GetTransactions userID categories fromDate toDate 1 pageSize now ts
  = (Returned (mkTransactionsResponse 1 0 []),
     <[userID := getInitialTransactions now]> ts).
Proof.
  intros Hu Hp. unfold GetTransactions, lookupOrSeed. rewrite Hu.
  unfold filterTransactions, rangeValues. rewrite map_to_list_empty.
  cbn [fmap list_fmap filter list_filter sortByDateDesc foldr length Z.of_nat].
  unfold totalPagesOf. destruct (Z.eqb_spec pageSize 0) as [E | _]; [contradiction|].
  reflexivity.
Qed.

(** C4 (the code reads the collection before it seeds it): the first query
    of an unknown user stores the demo data and answers from an empty
    collection; the same query again answers with the three demo
    transactions. *)
Theorem GetTransactions_first_call_misses_demo_data :
  let first :=
    GetTransactions "u" [] GoTime.zeroTime GoTime.zeroTime 1 20 noon20230415 ∅ in
  fst first = Returned (mkTransactionsResponse 1 0 []) /\
  snd first = {[ "u" := getInitialTransactions noon20230415 ]} /\
  exists items,
    fst (GetTransactions "u" [] GoTime.zeroTime GoTime.zeroTime 1 20 noon20230415
           (snd first))
    = Returned (mkTransactionsResponse 1 1 items) /\ length items = 3%nat.
Proof.
  cbv zeta. rewrite GetTransactions_unknown_user by (try apply lookup_empty; lia).
  cbn [fst snd]. split; [reflexivity|]. split; [reflexivity|].
  lazymatch goal with
  | |- exists items, ?lhs = _ /\ _ =>
      let v := eval vm_compute in lhs in
      lazymatch v with
      | Returned (mkTransactionsResponse _ _ ?found) => exists found
      end
  end.
  split; by_vm.
Qed.

(** *** Parts of a repeat specification *)

(** C5 as stated fails where the month has no such day: from April 15,
    2023, the part "31" (valid, and not before the 15th) gives May 1. *)
Lemma day_31_from_April_is_May_1 :
  let reference := GoTime.Date 2023 4 15 0 0 in
  let result := fst (calculateNextAppearDate reference "31") in
  validateRepeatString "31" = None /\
  GoTime.Day reference = 15 /\ GoTime.Month reference = 4 /\
  GoTime.Day result = 1 /\ GoTime.Month result = 5.
Proof. cbv zeta. repeat split; by_vm. Qed.

(** C5 at work: the part "20" from April 15, 2023. *)
Lemma day_20_from_April_15 :
  GoTime.Day (fst (calculateNextAppearDate noon20230415 "20")) = 20 /\
  GoTime.Month (fst (calculateNextAppearDate noon20230415 "20")) = 4.
Proof.
  destruct (calculateNextAppearDate_day_of_month noon20230415 "20" 20)
    as (_ & _ & H & _); [by_vm | by_vm | lia |].
  destruct H as (_ & Hm & Hd).
  - apply leZ_by_vm. vm_compute. discriminate.
  - apply leZ_by_vm. vm_compute. discriminate.
  - split; [exact Hd|]. rewrite Hm. by_vm.
Defined.

(** C6 at work: " Sat " from Saturday, April 15, 2023. *)
Lemma saturday_from_a_saturday :
  GoTime.dayNumber (fst (calculateNextAppearDate noon20230415 " Sat "))
  = GoTime.dayNumber noon20230415 + 7.
Proof.
  destruct (calculateNextAppearDate_weekday noon20230415 " Sat " 6)
    as (_ & _ & _ & _ & _ & H); [by_vm | by_vm |].
  destruct H as [H _]; [by_vm | exact H].
Defined.

(** *** Pagination *)

(** C10 as stated fails where [(page - 1) * pageSize] leaves the range of
    [int]: with one transaction stored, page 2^32 + 1 of size 2^32 lies far
    beyond the only page, and the product 2^64 wraps to 0, so the call
    returns the transaction. *)
Lemma page_beyond_range_returns_first_page :
  fst (GetTransactions "u" [] GoTime.zeroTime GoTime.zeroTime
         4294967297 4294967296 noon20230415 gymStore)
  = Returned (mkTransactionsResponse 4294967297 1 [gym]).
Proof. by_vm. Qed.

(** C10 at work: page 2 of size 10 of a single transaction. *)
Lemma second_page_of_one_transaction :
  exists totalPages,
    fst (GetTransactions "u" [] GoTime.zeroTime GoTime.zeroTime 2 10
           noon20230415 gymStore)
    = Returned (mkTransactionsResponse 2 totalPages []).
Proof.
  destruct (GetTransactions_pagination "u" [] GoTime.zeroTime GoTime.zeroTime 2 10
              noon20230415 gymStore)
    as (totalPages & items & H & _ & _ & E & _);
    [lia | lia | apply leZ_by_vm; vm_compute; discriminate |].
  exists totalPages. rewrite H, E; [reflexivity|].
  apply leZ_by_vm. vm_compute. discriminate.
Defined.

(** *** The spending curve *)



(** *** The least candidate *)

(** C7 as stated fails on a number that is no day of the month: "45" is
    refused by [validateRepeatString] and has no candidate, yet from April
    15, 2023, the result is May 15, before the reference date plus one
    year. *)
Lemma day_45_from_April_is_May_15 :
  validateRepeatString "45" = Some (InvalidDayNumber 45) /\
  specCandidates noon20230415 "45" = [] /\
  fst (calculateNextAppearDate noon20230415 "45") = GoTime.Date 2023 5 15 0 0 /\
  GoTime.Before (GoTime.Date 2023 5 15 0 0) (GoTime.AddDate noon20230415 1 0 0)
  = true.
Proof. repeat split; by_vm. Qed.

(** C7 at work: "15, mon" from April 15, 2023, a Saturday. *)
Lemma least_of_15_and_mon :
  validateRepeatString "15, mon" = None /\
  specCandidates noon20230415 "15, mon"
  = [GoTime.Date 2023 4 15 0 0; GoTime.Date 2023 4 17 0 0] /\
  fst (calculateNextAppearDate noon20230415 "15, mon")
  ∈ GoTime.AddDate noon20230415 1 0 0 :: specCandidates noon20230415 "15, mon".
Proof.
  assert (validateRepeatString "15, mon" = None) as H by by_vm.
  split; [exact H|]. split; [by_vm|].
  exact (proj1 (proj2 (calculateNextAppearDate_minimum noon20230415 "15, mon") H)).
Defined.

(** *** Recurrences *)


(** *** The invariant *)

Lemma pastOrigin_by_vm t : (4 * GoTime.nsPerDay ?= GoTime.abs t) <> Gt -> pastOrigin t.
Proof. intros H. exact H. Qed.

Lemma gymRequest_date date :
  parseDate (reqDate gymRequest) = Some date -> pastOrigin date.
Proof.
  intros H. assert (date = GoTime.Date 2023 4 10 0 0) as ->.
  { assert (parseDate (reqDate gymRequest) = Some (GoTime.Date 2023 4 10 0 0)) as E by by_vm.
    congruence. }
  apply pastOrigin_by_vm. vm_compute. discriminate.
Qed.

Lemma createdStore_reachable : Reachable createdStore (fun _ _ => False).
Proof.
  apply reach_create; [apply reach_init | | exact gymRequest_date].
  apply pastOrigin_by_vm. vm_compute. discriminate.
Qed.

(** C3 as stated fails after a recurrence has fired: the original keeps
    its next date with its specification cleared, and stays so through the
    operations that follow (here a later run of the daily job and a
    deletion). *)
Lemma fired_original_stays_without_spec :
  (exists F, Reachable firedStore F) /\
  (firedStore !! "u") ≫= (fun m : gmap string Transaction => m !! "t1")
  = Some (withRepeatTime gym "") /\
  RepeatTime (withRepeatTime gym "") = "" /\
  GoTime.IsZero (NextAppearDate (withRepeatTime gym "")) = false.
Proof.
  split; [|split; [by_vm | split; by_vm]].
  eexists. unfold firedStore.
  apply reach_delete.
  apply reach_materialize; [|apply pastOrigin_by_vm; vm_compute; discriminate].
  apply reach_materialize; [|apply pastOrigin_by_vm; vm_compute; discriminate].
  exact createdStore_reachable.
Qed.

(** C3 fails also at the origin of time: a transaction created on January
    1 of year 1 to repeat on day 1 gets the zero time as its next date,
    which reads as "not set". *)
Example CreateTransaction_at_the_zero_time :
  let request := mkCreateTransactionRequest 1 "first" "Food" "0001-01-01" "1" in
  (snd (CreateTransaction "u" request "t0" noon20230415 ∅) !! "u")
    ≫= (fun m : gmap string Transaction => m !! "t0")
  = Some (mkTransaction "t0" 1 "first" "Food" GoTime.zeroTime GoTime.zeroTime "1").
Proof. cbv zeta. by_vm. Qed.

(** C3 at work: the transaction of [gymRequest] in [createdStore]. *)
Lemma created_gym_has_next_date :
  GoTime.IsZero (NextAppearDate gym) = false.
Proof.
  destruct (Reachable_repeat_spec_invariant createdStore (fun _ _ => False) "u"
              (<["t1" := gym]> (getInitialTransactions noon20230410)) "t1" gym)
    as [H _]; [exact createdStore_reachable | by_vm | by_vm |].
  apply H. discriminate.
Defined.

(** ** The store under the operations of the transactions service *)

Lemma transactionAt_insert (ts : Store) u (m : gmap string Transaction) u' i :
  transactionAt (<[u := m]> ts) u' i
  = if (u' =? u)%string then m !! i else transactionAt ts u' i.
Proof.
  unfold transactionAt. destruct (String.eqb_spec u' u) as [-> | n].
  - now rewrite lookup_insert_eq.
  - rewrite lookup_insert_ne by congruence. reflexivity.
Qed.

(** X1: [DeleteTransaction] takes away the transaction of that user with
    that identifier and nothing else: every other transaction of every
    user is as before, and no user appears or disappears. *)
Theorem DeleteTransaction_removes_only_that userID id ts u i :
  transactionAt (DeleteTransaction userID id ts) u i
  = (if (u =? userID)%string && (i =? id)%string then None
     else transactionAt ts u i)
  /\ (is_Some (DeleteTransaction userID id ts !! u) <-> is_Some (ts !! u)).
Proof.
  unfold DeleteTransaction.
  destruct (ts !! userID) as [m|] eqn:E.
  - split.
    + rewrite transactionAt_insert.
      destruct (String.eqb_spec u userID) as [-> | n]; cbn [andb].
      * destruct (String.eqb_spec i id) as [-> | n'].
        -- apply lookup_delete_eq.
        -- rewrite lookup_delete_ne by congruence.
           unfold transactionAt. now rewrite E.
      * reflexivity.
    + rewrite lookup_insert_is_Some.
      split.
      * intros [<- | [_ H]]; [rewrite E; eauto | exact H].
      * intros H. destruct (decide (userID = u)); [now left | now right].
  - split; [|reflexivity].
    destruct (String.eqb_spec u userID) as [-> | n]; cbn [andb]; [|reflexivity].
    destruct (String.eqb_spec i id); [|reflexivity].
    unfold transactionAt. now rewrite E.
Qed.

(** X2: deleting a transaction the user does not have, or of a user the
    store does not know, leaves the store as it is. *)
Theorem DeleteTransaction_absent userID id ts :
  transactionAt ts userID id = None -> DeleteTransaction userID id ts = ts.
Proof.
  unfold transactionAt, DeleteTransaction.
  destruct (ts !! userID) as [m|] eqn:E; [|reflexivity].
  intros H. rewrite delete_id by exact H. now apply insert_id.
Qed.

Lemma DeleteTransaction_absent_gym :
  transactionAt gymStore "u" "none" = None /\
  DeleteTransaction "u" "none" gymStore = gymStore.
Proof.
  assert (transactionAt gymStore "u" "none" = None) as H by by_vm.
  split; [exact H | exact (DeleteTransaction_absent "u" "none" gymStore H)].
Defined.

(** What [CreateTransaction] does, case by case. *)
Lemma CreateTransaction_cases userID req transactionID now ts :
  (parseDate (reqDate req) = None /\
   CreateTransaction userID req transactionID now ts = (inl BadRequestDate, ts)) \/
  (exists date cause,
     parseDate (reqDate req) = Some date /\
     validateRepeatString (reqRepeatTime req) = Some cause /\
     CreateTransaction userID req transactionID now ts
     = (inl (BadRequestRepeat cause), ts)) \/
  (exists date,
     parseDate (reqDate req) = Some date /\
     validateRepeatString (reqRepeatTime req) = None /\
     CreateTransaction userID req transactionID now ts
     = (inr transactionID,
        <[userID :=
            <[transactionID :=
                mkTransaction transactionID (reqAmount req) (reqTitle req)
                  (reqCategory req) date
                  (if (reqRepeatTime req =? "")%string then GoTime.zeroTime
                   else fst (calculateNextAppearDate date (reqRepeatTime req)))
                  (reqRepeatTime req)]>
              (match ts !! userID with
               | Some m => m
               | None => getInitialTransactions now
               end)]> ts)).
Proof.
  unfold CreateTransaction.
  destruct (parseDate (reqDate req)) as [date|]; [|left; split; reflexivity].
  right.
  destruct (validateRepeatString (reqRepeatTime req)) as [cause|].
  - left. exists date, cause. repeat split.
  - right. exists date. split; [reflexivity|]. split; [reflexivity|].
    unfold calculateNextAppearDate.
    destruct (reqRepeatTime req =? "")%string; reflexivity.
Qed.

(** X3: in a store the operations have reached from the empty one (no
    collection in it is nil), a request with a well-formed date and a valid
    repeat specification is stored under the identifier drawn for it, with
    the fields of the request, the parsed date and, for a recurring one,
    the next date computed from that date; every other transaction is as
    the store (with the demo data for an unknown user) had it. *)
Theorem CreateTransaction_stores userID req transactionID now ts F date :
  Reachable ts F ->
  parseDate (reqDate req) = Some date ->
  validateRepeatString (reqRepeatTime req) = None ->
  let after := snd (CreateTransaction userID req transactionID now ts) in
  fst (CreateTransaction userID req transactionID now ts) = inr transactionID /\
  transactionAt after userID transactionID
  = Some (mkTransaction transactionID (reqAmount req) (reqTitle req)
            (reqCategory req) date
            (if (reqRepeatTime req =? "")%string then GoTime.zeroTime
             else fst (calculateNextAppearDate date (reqRepeatTime req)))
            (reqRepeatTime req)) /\
  (forall u i, (u, i) <> (userID, transactionID) ->
     transactionAt after u i
     = transactionAt (snd (lookupOrSeed userID now ts)) u i).
Proof.
  intros _ Hd Hv after. subst after.
  destruct (CreateTransaction_cases userID req transactionID now ts)
    as [[H _] | [(d & c & _ & H & _) | (d & Hd' & _ & ->)]]; [congruence.. |].
  assert (d = date) as -> by congruence. cbn [fst snd].
  split; [reflexivity|]. split.
  - rewrite transactionAt_insert, String.eqb_refl. apply lookup_insert_eq.
  - intros u i Hne. rewrite transactionAt_insert. unfold lookupOrSeed.
    destruct (String.eqb_spec u userID) as [-> | n].
    + rewrite lookup_insert_ne by congruence.
      unfold transactionAt.
      destruct (ts !! userID) as [m|] eqn:E; cbn [snd].
      * now rewrite E.
      * now rewrite lookup_insert_eq.
    + destruct (ts !! userID) as [m|] eqn:E; cbn [snd]; [reflexivity|].
      rewrite transactionAt_insert.
      destruct (String.eqb_spec u userID); [contradiction | reflexivity].
Qed.

Lemma CreateTransaction_stores_gym :
  exists date,
    parseDate (reqDate gymRequest) = Some date /\
    validateRepeatString (reqRepeatTime gymRequest) = None /\
    transactionAt (snd (CreateTransaction "u" gymRequest "t1" noon20230410 ∅)) "u" "t1"
    = Some gym.
Proof.
  exists (GoTime.Date 2023 4 10 0 0).
  assert (parseDate (reqDate gymRequest) = Some (GoTime.Date 2023 4 10 0 0)) as Hd
    by by_vm.
  assert (validateRepeatString (reqRepeatTime gymRequest) = None) as Hv by by_vm.
  split; [exact Hd|]. split; [exact Hv|].
  refine (eq_trans
            (proj1 (proj2 (CreateTransaction_stores "u" gymRequest "t1" noon20230410 ∅
                             _ _ reach_init Hd Hv))) _).
  by_vm.
Defined.

(** X4: a refused request leaves the store as it is, and it is refused
    for its date, which [time.Parse] does not read, or else for its repeat
    specification, with the error of [validateRepeatString]. *)
Theorem CreateTransaction_refused userID req transactionID now ts e :
  fst (CreateTransaction userID req transactionID now ts) = inl e ->
  snd (CreateTransaction userID req transactionID now ts) = ts /\
  ((parseDate (reqDate req) = None /\ e = BadRequestDate) \/
   (exists cause,
      validateRepeatString (reqRepeatTime req) = Some cause /\
      e = BadRequestRepeat cause)).
Proof.
  destruct (CreateTransaction_cases userID req transactionID now ts)
    as [[H ->] | [(d & c & _ & H & ->) | (d & _ & _ & ->)]]; cbn [fst snd].
  - intros [= <-]. split; [reflexivity|]. left. now split.
  - intros [= <-]. split; [reflexivity|]. right. exists c. now split.
  - discriminate.
Qed.

Lemma CreateTransaction_refused_February_30 :
  let request := mkCreateTransactionRequest 10 "Tea" "Food" "2023-02-30" "" in
  fst (CreateTransaction "u" request "t2" noon20230415 gymStore) = inl BadRequestDate /\
  snd (CreateTransaction "u" request "t2" noon20230415 gymStore) = gymStore.
Proof.
  cbv zeta.
  assert (fst (CreateTransaction "u"
                 (mkCreateTransactionRequest 10 "Tea" "Food" "2023-02-30" "") "t2"
                 noon20230415 gymStore) = inl BadRequestDate) as H by by_vm.
  split; [exact H|].
  exact (proj1 (CreateTransaction_refused "u" _ "t2" noon20230415 gymStore _ H)).
Defined.

(** X5: in a store the operations have reached from the empty one (no
    collection in it is nil), creating a transaction for a user the store
    knows, under an identifier that user does not have yet, and deleting it
    again gives back the store, whether the request was accepted or
    refused. *)
Theorem CreateTransaction_then_DeleteTransaction userID req transactionID now ts F
    (m : gmap string Transaction) :
  Reachable ts F ->
  ts !! userID = Some m -> m !! transactionID = None ->
  DeleteTransaction userID transactionID
    (snd (CreateTransaction userID req transactionID now ts)) = ts.
Proof.
  intros _ Hu Hid.
  assert (DeleteTransaction userID transactionID ts = ts) as Hsame.
  { unfold DeleteTransaction. rewrite Hu, delete_id by exact Hid.
    now apply insert_id. }
  destruct (CreateTransaction_cases userID req transactionID now ts)
    as [[_ ->] | [(d & c & _ & _ & ->) | (d & _ & _ & ->)]]; cbn [snd];
    [exact Hsame.. |].
  unfold DeleteTransaction. rewrite lookup_insert_eq, Hu.
  rewrite delete_insert_id by exact Hid. rewrite insert_insert_eq.
  now apply insert_id.
Qed.

Lemma CreateTransaction_then_DeleteTransaction_created :
  DeleteTransaction "u" "t2"
    (snd (CreateTransaction "u" gymRequest "t2" noon20230415 createdStore))
  = createdStore.
Proof.
  refine (CreateTransaction_then_DeleteTransaction "u" gymRequest "t2" noon20230415
            createdStore _ (<["t1" := gym]> (getInitialTransactions noon20230410))
            createdStore_reachable _ _); by_vm.
Defined.

(** ** What the queries return and what they leave *)

Lemma newestFirst_cons x l :
  newestFirst (x :: l) <->
  Forall (fun b => GoTime.abs (Date b) <= GoTime.abs (Date x)) l /\ newestFirst l.
Proof.
  split.
  - intros H. split.
    + apply Forall_lookup. intros i b Hb.
      apply (H 0%nat (S i) x b); [lia | reflexivity | exact Hb].
    + intros i j a b Hij Ha Hb. apply (H (S i) (S j) a b); [lia | exact Ha | exact Hb].
  - intros [F N] i j a b Hij Ha Hb.
    destruct j as [|j]; [lia|]. cbn in Hb.
    destruct i as [|i]; cbn in Ha.
    + injection Ha as <-. rewrite Forall_lookup in F. exact (F j b Hb).
    + apply (N i j a b); [lia | exact Ha | exact Hb].
Qed.

Lemma newestFirst_nil : newestFirst [].
Proof. intros i j a b _ H. rewrite lookup_nil in H. discriminate. Qed.

Lemma insertByDate_newestFirst t l :
  newestFirst l -> newestFirst (insertByDate t l).
Proof.
  induction l as [|x r IH]; cbn [insertByDate]; intros H.
  - apply newestFirst_cons. split; [constructor | exact newestFirst_nil].
  - apply newestFirst_cons in H as [F N].
    unfold GoTime.After.
    destruct (Z.ltb_spec (GoTime.abs (Date t)) (GoTime.abs (Date x))) as [L | L].
    + apply newestFirst_cons. split; [|exact (IH N)].
      rewrite insertByDate_perm. constructor; [lia | exact F].
    + apply newestFirst_cons. split.
      * constructor; [exact L|].
        eapply Forall_impl; [exact F|]. cbn. intros b Hb. lia.
      * apply newestFirst_cons. now split.
Qed.

Lemma sortByDateDesc_newestFirst l : newestFirst (sortByDateDesc l).
Proof.
  unfold sortByDateDesc. induction l as [|x r IH]; cbn [foldr].
  - exact newestFirst_nil.
  - now apply insertByDate_newestFirst.
Qed.

(** X6: [GetAllTransactions] returns the transactions in the collection
    it read that fall in the period, each once, newest first. *)
Theorem GetAllTransactions_newest_first userID fromDate toDate now ts :
  let result := fst (GetAllTransactions userID fromDate toDate now ts) in
  newestFirst result /\
  result ≡ₚ filter (fun t => inPeriod fromDate toDate t)
              (rangeValues (fst (lookupOrSeed userID now ts))).
Proof.
  cbv zeta. unfold GetAllTransactions.
  destruct (lookupOrSeed userID now ts) as [userTransactions ts']. cbn [fst].
  split; [apply sortByDateDesc_newestFirst | apply sortByDateDesc_perm].
Qed.

(** *** Pages, whatever order the calls range and sort in *)

(** [GetTransactions] and [GetAllTransactions] above are the calls that
    range and sort as [modelOrder] does. *)
Lemma GetTransactionsWith_modelOrder userID categories fromDate toDate page pageSize
    now ts :
  GetTransactionsWith modelOrder userID categories fromDate toDate page pageSize now ts
  = GetTransactions userID categories fromDate toDate page pageSize now ts.
Proof. reflexivity. Qed.

Lemma GetAllTransactionsWith_modelOrder userID fromDate toDate now ts :
  GetAllTransactionsWith modelOrder userID fromDate toDate now ts
  = GetAllTransactions userID fromDate toDate now ts.
Proof. reflexivity. Qed.

Lemma modelOrder_valid : validOrder modelOrder.
Proof.
  split; [reflexivity|]. intros l. cbn [sortOrder modelOrder].
  split; [apply sortByDateDesc_perm | apply sortByDateDesc_newestFirst].
Qed.

Lemma reversedOrder_valid : validOrder reversedOrder.
Proof.
  split.
  - intros m. cbn [rangeOrder reversedOrder]. apply reverse_Permutation.
  - intros l. cbn [sortOrder reversedOrder].
    split; [apply sortByDateDesc_perm | apply sortByDateDesc_newestFirst].
Qed.

(** Two lists of the same transactions, both newest first, are the same
    list when no two of the dates are the same instant. *)
Lemma newestFirst_unique l1 l2 :
  l1 ≡ₚ l2 -> newestFirst l1 -> newestFirst l2 -> NoDup (instants l1) -> l1 = l2.
Proof.
  revert l2. induction l1 as [|a t1 IH]; intros l2 Hp N1 N2 Hd.
  - now apply Permutation_nil in Hp.
  - destruct l2 as [|b t2];
      [exfalso; symmetry in Hp; exact (Permutation_nil_cons Hp)|].
    apply newestFirst_cons in N1 as [F1 N1]. apply newestFirst_cons in N2 as [F2 N2].
    cbn [instants map] in Hd. apply NoDup_cons in Hd as [Ha Hd].
    rewrite Forall_forall in F1, F2.
    assert (b = a) as ->.
    { assert (b ∈ a :: t1) as Hb by (rewrite Hp; left).
      apply elem_of_cons in Hb as [Hb | Hb]; [exact Hb|].
      assert (a ∈ b :: t2) as Ha' by (rewrite <- Hp; left).
      apply elem_of_cons in Ha' as [Ha' | Ha']; [now symmetry|].
      exfalso. apply Ha.
      assert (GoTime.abs (Date a) = GoTime.abs (Date b)) as ->.
      { pose proof (F1 b Hb). pose proof (F2 a Ha'). lia. }
      apply (list_elem_of_fmap_2 (fun t => GoTime.abs (Date t))). exact Hb. }
    f_equal. apply IH; [|assumption..].
    now apply Permutation_cons_inv in Hp.
Qed.

Lemma filterTransactionsWith_sorted o categories fromDate toDate
    (userTransactions : gmap string Transaction) :
  validOrder o ->
  filterTransactionsWith o categories fromDate toDate userTransactions
  ≡ₚ filter (fun t => inPeriod fromDate toDate t && inCategories categories t)
       (rangeValues userTransactions) /\
  newestFirst (filterTransactionsWith o categories fromDate toDate userTransactions).
Proof.
  intros [Hr Hs]. unfold filterTransactionsWith. split.
  - rewrite (proj1 (Hs _)). now rewrite (Hr userTransactions).
  - apply Hs.
Qed.

(** With dates that are all different, every call filters and sorts to
    the same list. *)
Lemma filterTransactionsWith_unique o categories fromDate toDate
    (userTransactions : gmap string Transaction) :
  validOrder o ->
  NoDup (instants
           (filter (fun t => inPeriod fromDate toDate t && inCategories categories t)
              (rangeValues userTransactions))) ->
  filterTransactionsWith o categories fromDate toDate userTransactions
  = filterTransactions categories fromDate toDate userTransactions.
Proof.
  intros Ho Hd.
  destruct (filterTransactionsWith_sorted o categories fromDate toDate
              userTransactions Ho) as [Hp Hn].
  apply newestFirst_unique.
  - rewrite Hp. unfold filterTransactions. now rewrite sortByDateDesc_perm.
  - exact Hn.
  - apply sortByDateDesc_newestFirst.
  - unfold instants in *. now rewrite Hp.
Qed.

(** The page [GetTransactions] returns when the arithmetic stays in the
    range of [int]. *)
Lemma GetTransactionsWith_page o userID categories fromDate toDate page pageSize
    now ts :
  1 <= page -> 1 <= pageSize -> page * pageSize <= maxInt ->
  let filtered :=
    filterTransactionsWith o categories fromDate toDate
      (fst (lookupOrSeed userID now ts)) in
  fst (GetTransactionsWith o userID categories fromDate toDate page pageSize now ts)
  = Returned
      (mkTransactionsResponse page
         (totalPagesOf (Z.of_nat (length filtered)) pageSize)
         (take (Z.to_nat pageSize)
            (drop (Z.to_nat ((page - 1) * pageSize)) filtered))).
Proof.
  intros Hp Hs Hmax. cbv zeta. unfold GetTransactionsWith.
  destruct (lookupOrSeed userID now ts) as [userTransactions ts']. cbn [fst].
  set (filtered := filterTransactionsWith o categories fromDate toDate
                     userTransactions).
  set (n := Z.of_nat (length filtered)).
  assert (0 <= n) as Hn by (subst n; lia).
  assert (minInt <= page - 1 <= maxInt /\ minInt <= (page - 1) * pageSize <= maxInt)
    as [R1 R2] by (unfold minInt, maxInt in *; nia).
  rewrite (wrapInt_id (page - 1) R1), (wrapInt_id _ R2).
  set (start := (page - 1) * pageSize) in *.
  assert (0 <= start) as Hstart by (subst start; nia).
  destruct (Z.leb_spec n start) as [Hout | Hin]; cbn [fst].
  - rewrite drop_ge by (subst n; lia). now rewrite take_nil.
  - assert (start + pageSize = page * pageSize) as E by (subst start; lia).
    rewrite (wrapInt_id (start + pageSize)) by (unfold minInt, maxInt in *; lia).
    set (stop := if n <? start + pageSize then n else start + pageSize).
    assert (start <= stop <= n /\ stop - start = Z.min pageSize (n - start))
      as [Hstop Hlen].
    { subst stop. destruct (Z.ltb_spec n (start + pageSize)); lia. }
    rewrite slice_in_range by (fold n; lia).
    do 2 f_equal. rewrite Hlen.
    destruct (Z.le_ge_cases pageSize (n - start)).
    + now rewrite Z.min_l by lia.
    + rewrite Z.min_r by lia.
      rewrite !take_ge; [reflexivity | |]; rewrite length_drop; subst n; lia.
Qed.

Lemma concat_pages {A} (l : list A) (size count : nat) :
  concat (map (fun k => take size (drop (k * size) l)) (seq 0 count))
  = take (count * size) l.
Proof.
  induction count as [|count IH]; [reflexivity|].
  rewrite seq_S, map_app, concat_app, IH. cbn [map concat Nat.add].
  rewrite app_nil_r, take_take_drop. f_equal. lia.
Qed.

(** X7: Go fixes neither the order a call ranges over the map in nor the
    order [sort.Slice] leaves equal dates in.  Whatever these are from call
    to call, when the dates of the filtered transactions are all different
    and the page size is at least 1, the pages 1 to [totalPages] are
    returned without a panic, each with that [totalPages], and their
    items, put one after the other, are the filtered transactions, each
    once, newest first. *)
Theorem GetTransactions_pages_cover (orders : Z -> callOrder) userID categories
    fromDate toDate pageSize now ts :
  let stored :=
    filter (fun t => inPeriod fromDate toDate t && inCategories categories t)
      (rangeValues (fst (lookupOrSeed userID now ts))) in
  let totalPages := totalPagesOf (Z.of_nat (length stored)) pageSize in
  (forall page, validOrder (orders page)) ->
  NoDup (instants stored) ->
  1 <= pageSize ->
  Z.of_nat (length stored) + pageSize <= maxInt ->
  exists chunks,
    Forall2
      (fun page items =>
         fst (GetTransactionsWith (orders page) userID categories fromDate toDate
                page pageSize now ts)
         = Returned (mkTransactionsResponse page totalPages items))
      (pageNumbers totalPages) chunks /\
    concat chunks ≡ₚ stored /\ newestFirst (concat chunks).
Proof.
  intros stored totalPages Ho Hd Hs Hmax.
  set (filtered := filterTransactions categories fromDate toDate
                     (fst (lookupOrSeed userID now ts))).
  assert (filtered ≡ₚ stored) as Hp by apply sortByDateDesc_perm.
  assert (length filtered = length stored) as Hl by now rewrite Hp.
  pose proof (totalPagesOf_ceil (Z.of_nat (length stored)) pageSize ltac:(lia)) as Hc.
  fold totalPages in Hc.
  assert (0 <= totalPages) as Htp by nia.
  exists (map (fun page =>
                 take (Z.to_nat pageSize)
                   (drop (Z.to_nat ((page - 1) * pageSize)) filtered))
            (pageNumbers totalPages)).
  assert (concat
            (map (fun page =>
                    take (Z.to_nat pageSize)
                      (drop (Z.to_nat ((page - 1) * pageSize)) filtered))
               (pageNumbers totalPages)) = filtered) as Hcat.
  { unfold pageNumbers, seqZ.
    change (list_fmap nat Z ?f ?l) with (map f l). rewrite map_map.
    rewrite (map_ext _ (fun k => take (Z.to_nat pageSize)
                                   (drop (k * Z.to_nat pageSize) filtered))).
    - rewrite concat_pages. apply take_ge. nia.
    - intros k. cbn. do 2 f_equal. nia. }
  split; [|rewrite Hcat; split; [exact Hp | apply sortByDateDesc_newestFirst]].
  apply Forall2_fmap_r, Forall_Forall2_diag, Forall_forall.
  intros page Hin. apply elem_of_seqZ in Hin.
  rewrite (GetTransactionsWith_page (orders page) userID categories fromDate toDate
             page pageSize now ts) by (lia || nia).
  cbv zeta.
  rewrite (filterTransactionsWith_unique (orders page) categories fromDate toDate
             _ (Ho page) Hd).
  fold filtered. unfold totalPages. now rewrite Hl.
Qed.

Lemma NoDup_by_vm (l : list Z) : bool_decide (NoDup l) = true -> NoDup l.
Proof. apply bool_decide_eq_true_1. Qed.

(** Two pages of [threeStore], the first ranged as the model does and the
    second backwards. *)
Lemma GetTransactions_pages_cover_three :
  let stored :=
    filter (fun t => inPeriod GoTime.zeroTime GoTime.zeroTime t && inCategories [] t)
      (rangeValues (fst (lookupOrSeed "u" noon20230415 threeStore))) in
  totalPagesOf (Z.of_nat (length stored)) 2 = 2 /\
  exists chunks,
    Forall2
      (fun page items =>
         fst (GetTransactionsWith (if page =? 1 then modelOrder else reversedOrder)
                "u" [] GoTime.zeroTime GoTime.zeroTime page 2 noon20230415 threeStore)
         = Returned
             (mkTransactionsResponse page
                (totalPagesOf (Z.of_nat (length stored)) 2) items))
      (pageNumbers (totalPagesOf (Z.of_nat (length stored)) 2)) chunks /\
    concat chunks ≡ₚ stored /\ newestFirst (concat chunks).
Proof.
  cbv zeta. split; [by_vm|].
  apply (GetTransactions_pages_cover
           (fun page => if page =? 1 then modelOrder else reversedOrder)
           "u" [] GoTime.zeroTime GoTime.zeroTime 2 noon20230415 threeStore).
  - intros page. destruct (page =? 1); [exact modelOrder_valid | exact reversedOrder_valid].
  - apply NoDup_by_vm. by_vm.
  - lia.
  - apply leZ_by_vm. vm_compute. discriminate.
Defined.

(** X8: asked with no category and a page size that holds them all,
    [GetTransactions] returns on page 1 the transactions
    [GetAllTransactions] returns for the same period, whatever order each
    of the two calls ranges and sorts in: the same transactions newest
    first, and the same list when the dates are all different. *)
Theorem GetTransactions_single_page (o o' : callOrder) userID fromDate toDate
    pageSize now ts :
  let all := fst (GetAllTransactionsWith o' userID fromDate toDate now ts) in
  validOrder o -> validOrder o' ->
  1 <= pageSize <= maxInt ->
  Z.of_nat (length all) <= pageSize ->
  exists totalPages items,
    fst (GetTransactionsWith o userID [] fromDate toDate 1 pageSize now ts)
    = Returned (mkTransactionsResponse 1 totalPages items) /\
    0 <= totalPages <= 1 /\
    items ≡ₚ all /\ newestFirst items /\
    (NoDup (instants all) -> items = all).
Proof.
  intros all Ho Ho' Hs Hn.
  rewrite (GetTransactionsWith_page o userID [] fromDate toDate 1 pageSize now ts)
    by lia.
  cbv zeta. subst all. revert Hn. unfold GetAllTransactionsWith.
  destruct (lookupOrSeed userID now ts) as [userTransactions ts']. cbn [fst].
  destruct (filterTransactionsWith_sorted o [] fromDate toDate userTransactions Ho)
    as [Hp Hsorted].
  set (filtered := filterTransactionsWith o [] fromDate toDate userTransactions) in *.
  set (all := sortOrder o' _).
  assert (filtered ≡ₚ all) as Hpa.
  { rewrite Hp. subst all. rewrite (proj1 (proj2 Ho' _)), (proj1 Ho' userTransactions).
    rewrite (filter_ext_bool
               (fun t => inPeriod fromDate toDate t && inCategories [] t)
               (fun t => inPeriod fromDate toDate t)); [reflexivity|].
    intros t. cbn [inCategories]. apply andb_true_r. }
  intros Hn.
  assert (length filtered = length all) as Hl by now rewrite Hpa.
  assert (take (Z.to_nat pageSize) (drop (Z.to_nat ((1 - 1) * pageSize)) filtered)
          = filtered) as ->.
  { change ((1 - 1) * pageSize) with (0 * pageSize).
    rewrite Z.mul_0_l. cbn [Z.to_nat drop]. apply take_ge. lia. }
  exists (totalPagesOf (Z.of_nat (length filtered)) pageSize), filtered.
  split; [reflexivity|]. split.
  { pose proof (totalPagesOf_ceil (Z.of_nat (length filtered)) pageSize ltac:(lia)).
    nia. }
  split; [exact Hpa|]. split; [exact Hsorted|].
  intros Hd. apply newestFirst_unique; [exact Hpa | exact Hsorted | apply Ho' |].
  unfold instants in *. now rewrite Hpa.
Qed.

Lemma GetTransactions_single_page_three :
  exists totalPages items,
    fst (GetTransactionsWith reversedOrder "u" [] GoTime.zeroTime GoTime.zeroTime 1
           DefaultPageSize noon20230415 threeStore)
    = Returned (mkTransactionsResponse 1 totalPages items) /\
    items = fst (GetAllTransactionsWith modelOrder "u" GoTime.zeroTime GoTime.zeroTime
                   noon20230415 threeStore).
Proof.
  destruct (GetTransactions_single_page reversedOrder modelOrder "u" GoTime.zeroTime
              GoTime.zeroTime DefaultPageSize noon20230415 threeStore
              reversedOrder_valid modelOrder_valid)
    as (totalPages & items & H1 & _ & _ & _ & H2).
  - split; apply leZ_by_vm; vm_compute; discriminate.
  - apply leZ_by_vm; vm_compute; discriminate.
  - exists totalPages, items. split; [exact H1|]. apply H2.
    apply NoDup_by_vm. by_vm.
Defined.

Lemma lookupOrSeed_lookup userID now (ts : Store) u :
  snd (lookupOrSeed userID now ts) !! u
  = match ts !! u with
    | Some m => Some m
    | None => if (u =? userID)%string then Some (getInitialTransactions now) else None
    end.
Proof.
  unfold lookupOrSeed. destruct (ts !! userID) as [m|] eqn:E; cbn [snd].
  - destruct (ts !! u) as [m'|] eqn:E'; [reflexivity|].
    destruct (String.eqb_spec u userID) as [-> | n]; [congruence | reflexivity].
  - destruct (String.eqb_spec u userID) as [-> | n].
    + now rewrite lookup_insert_eq, E.
    + rewrite lookup_insert_ne by congruence. now destruct (ts !! u).
Qed.

Lemma lookupOrSeed_again userID now now' (ts : Store) :
  snd (lookupOrSeed userID now' (snd (lookupOrSeed userID now ts)))
  = snd (lookupOrSeed userID now ts).
Proof.
  unfold lookupOrSeed at 1.
  rewrite lookupOrSeed_lookup, String.eqb_refl.
  now destruct (ts !! userID).
Qed.

Lemma GetStatistics_store userID fromDate toDate now ts :
  snd (GetStatistics userID fromDate toDate now ts) = snd (lookupOrSeed userID now ts).
Proof.
  unfold GetStatistics. destruct (statisticsPeriod fromDate toDate now) as [f t].
  pose proof (GetAllTransactions_store userID f t now ts) as H1.
  destruct (GetAllTransactions userID f t now ts) as [transactions ts1].
  cbn [snd] in H1. unfold calculateSpendingCurve.
  pose proof (GetAllTransactions_store userID GoTime.zeroTime GoTime.zeroTime now ts1)
    as H2.
  destruct (GetAllTransactions userID GoTime.zeroTime GoTime.zeroTime now ts1)
    as [allExpenses ts2].
  cbn [snd] in *. rewrite H2, H1. apply lookupOrSeed_again.
Qed.

(** X9: the three queries leave the same store: the collection of every
    user the store knew is untouched, and the asking user, if unknown,
    has been given the demo data; asking again changes nothing more. *)
Theorem queries_only_seed userID categories fromDate toDate page pageSize now ts u :
  let seeded := snd (lookupOrSeed userID now ts) in
  snd (GetTransactions userID categories fromDate toDate page pageSize now ts) = seeded /\
  snd (GetAllTransactions userID fromDate toDate now ts) = seeded /\
  snd (GetStatistics userID fromDate toDate now ts) = seeded /\
  seeded !! u
  = match ts !! u with
    | Some userTransactions => Some userTransactions
    | None =>
        if (u =? userID)%string then Some (getInitialTransactions now) else None
    end /\
  snd (GetTransactions userID categories fromDate toDate page pageSize now seeded)
  = seeded.
Proof.
  cbv zeta. split; [apply GetTransactions_store|].
  split; [apply GetAllTransactions_store|].
  split; [apply GetStatistics_store|].
  split; [apply lookupOrSeed_lookup|].
  rewrite GetTransactions_store. apply lookupOrSeed_again.
Qed.

Lemma elem_of_filterTransactions categories fromDate toDate
    (userTransactions : gmap string Transaction) t :
  t ∈ filterTransactions categories fromDate toDate userTransactions <->
  inPeriod fromDate toDate t = true /\ inCategories categories t = true /\
  exists id, userTransactions !! id = Some t.
Proof.
  unfold filterTransactions. rewrite sortByDateDesc_perm, list_elem_of_filter.
  rewrite elem_of_rangeValues, andb_True, !Is_true_true. tauto.
Qed.

(** X25: whatever page is asked, a transaction [GetTransactions] returns
    is one of the collection it read for that user, dated in the period
    and of one of the categories asked; the page number is given back as
    it came. *)
Theorem GetTransactions_items_pass_filters userID categories fromDate toDate
    page pageSize now ts response t :
  fst (GetTransactions userID categories fromDate toDate page pageSize now ts)
  = Returned response ->
  t ∈ Data response ->
  CurrentPage response = page /\
  inPeriod fromDate toDate t = true /\ inCategories categories t = true /\
  exists id, fst (lookupOrSeed userID now ts) !! id = Some t.
Proof.
  unfold GetTransactions.
  destruct (lookupOrSeed userID now ts) as [userTransactions ts']. cbn [fst].
  set (filtered := filterTransactions categories fromDate toDate userTransactions).
  destruct (Z.of_nat (length filtered) <=? _); cbn [fst].
  - intros [= <-]. cbn [Data]. intros H. inversion H.
  - unfold slice. destruct (_ && _ && _); [|discriminate].
    intros [= <-]. cbn [Data CurrentPage]. intros H.
    split; [reflexivity|].
    apply (elem_of_filterTransactions categories fromDate toDate userTransactions t).
    fold filtered. now apply subseteq_take, subseteq_drop in H.
Qed.

Lemma GetTransactions_items_pass_filters_gym :
  inPeriod GoTime.zeroTime GoTime.zeroTime gym = true /\
  inCategories ["Sport"] gym = true.
Proof.
  assert (fst (GetTransactions "u" ["Sport"] GoTime.zeroTime GoTime.zeroTime 1 10
                 noon20230415 gymStore)
          = Returned (mkTransactionsResponse 1 1 [gym])) as H by by_vm.
  destruct (GetTransactions_items_pass_filters "u" ["Sport"] GoTime.zeroTime
              GoTime.zeroTime 1 10 noon20230415 gymStore _ gym H
              ltac:(apply list_elem_of_here)) as (_ & H1 & H2 & _).
  exact (conj H1 H2).
Defined.

Lemma inPeriod_true fromDate toDate t :
  (GoTime.IsZero fromDate = true \/ GoTime.abs fromDate <= GoTime.abs (Date t)) ->
  (GoTime.IsZero toDate = true \/ GoTime.abs (Date t) <= GoTime.abs toDate) ->
  inPeriod fromDate toDate t = true.
Proof.
  intros Hf Ht. unfold inPeriod, GoTime.Before, GoTime.After.
  apply andb_true_iff. split; apply negb_true_iff, andb_false_iff.
  - destruct Hf as [-> | Hf]; [now left | right]. now apply Z.ltb_ge.
  - destruct Ht as [-> | Ht]; [now left | right]. now apply Z.ltb_ge.
Qed.

(** X29: a transaction [CreateTransaction] has accepted is listed by
    [GetAllTransactions] for that user afterwards, with the fields of the
    request, for every period that has no start or starts no later than
    its date and has no end or ends no earlier. *)
Theorem created_transaction_is_listed userID req transactionID now now' ts date
    fromDate toDate :
  parseDate (reqDate req) = Some date ->
  validateRepeatString (reqRepeatTime req) = None ->
  (GoTime.IsZero fromDate = true \/ GoTime.abs fromDate <= GoTime.abs date) ->
  (GoTime.IsZero toDate = true \/ GoTime.abs date <= GoTime.abs toDate) ->
  mkTransaction transactionID (reqAmount req) (reqTitle req) (reqCategory req) date
    (if (reqRepeatTime req =? "")%string then GoTime.zeroTime
     else fst (calculateNextAppearDate date (reqRepeatTime req)))
    (reqRepeatTime req)
  ∈ fst (GetAllTransactions userID fromDate toDate now'
           (snd (CreateTransaction userID req transactionID now ts))).
Proof.
  intros Hd Hv Hf Ht.
  destruct (CreateTransaction_cases userID req transactionID now ts)
    as [[H _] | [(d & c & _ & H & _) | (d & Hd' & _ & ->)]]; [congruence.. |].
  assert (d = date) as -> by congruence. cbn [snd].
  unfold GetAllTransactions, lookupOrSeed. rewrite lookup_insert_eq. cbn [fst].
  rewrite sortByDateDesc_perm. apply list_elem_of_filter. split.
  - apply Is_true_true, inPeriod_true; assumption.
  - apply elem_of_rangeValues. exists transactionID. apply lookup_insert_eq.
Qed.

Lemma created_gym_is_listed :
  gym ∈ fst (GetAllTransactions "u" GoTime.zeroTime GoTime.zeroTime noon20230415
               (snd (CreateTransaction "u" gymRequest "t1" noon20230410 ∅))).
Proof.
  assert (parseDate (reqDate gymRequest) = Some (GoTime.Date 2023 4 10 0 0)) as Hd
    by by_vm.
  assert (validateRepeatString (reqRepeatTime gymRequest) = None) as Hv by by_vm.
  pose proof (created_transaction_is_listed "u" gymRequest "t1" noon20230410
                noon20230415 ∅ _ GoTime.zeroTime GoTime.zeroTime Hd Hv
                (or_introl eq_refl) (or_introl eq_refl)) as H.
  assert (mkTransaction "t1" (reqAmount gymRequest) (reqTitle gymRequest)
            (reqCategory gymRequest) (GoTime.Date 2023 4 10 0 0)
            (if (reqRepeatTime gymRequest =? "")%string then GoTime.zeroTime
             else fst (calculateNextAppearDate (GoTime.Date 2023 4 10 0 0)
                         (reqRepeatTime gymRequest)))
            (reqRepeatTime gymRequest) = gym) as E by by_vm.
  rewrite E in H. exact H.
Defined.

(** X30: in a store that keeps every transaction under its own
    identifier, no transaction with the deleted identifier is listed by
    [GetAllTransactions] for that user after [DeleteTransaction]. *)
Theorem deleted_transaction_is_not_listed userID id fromDate toDate now ts t :
  keysAreIDs ts ->
  t ∈ fst (GetAllTransactions userID fromDate toDate now
             (DeleteTransaction userID id ts)) ->
  ID t <> id.
Proof.
  intros K. unfold GetAllTransactions, lookupOrSeed, DeleteTransaction.
  destruct (ts !! userID) as [m|] eqn:E.
  - rewrite lookup_insert_eq. cbn [fst]. rewrite sortByDateDesc_perm.
    intros H. apply list_elem_of_filter in H as [_ H].
    apply elem_of_rangeValues in H as [k Hk].
    apply lookup_delete_Some in Hk as [Hne Hk].
    rewrite (K userID m k t E Hk). congruence.
  - rewrite E. cbn [fst]. unfold rangeValues. rewrite map_to_list_empty.
    intros H. inversion H.
Qed.

Lemma threeStore_keysAreIDs : keysAreIDs threeStore.
Proof.
  intros u m id t Hu Ht. unfold threeStore in Hu.
  apply lookup_singleton_Some in Hu as [_ <-].
  apply lookup_insert_Some in Ht as [[<- <-] | [_ Ht]]; [reflexivity|].
  apply lookup_insert_Some in Ht as [[<- <-] | [_ Ht]]; [reflexivity|].
  apply lookup_singleton_Some in Ht as [<- <-]. reflexivity.
Qed.

(** Tea deleted from [threeStore]: the two that stay are listed, neither
    with the identifier of the tea. *)
Lemma deleted_tea_is_not_listed :
  transactionAt threeStore "u" "a1" = Some tea /\
  fst (GetAllTransactions "u" GoTime.zeroTime GoTime.zeroTime noon20230415
         (DeleteTransaction "u" "a1" threeStore)) = [book; bus] /\
  ID book <> "a1" /\ ID bus <> "a1".
Proof.
  assert (fst (GetAllTransactions "u" GoTime.zeroTime GoTime.zeroTime noon20230415
                 (DeleteTransaction "u" "a1" threeStore)) = [book; bus]) as E by by_vm.
  split; [by_vm|]. split; [exact E|].
  split;
    apply (deleted_transaction_is_not_listed "u" "a1" GoTime.zeroTime GoTime.zeroTime
             noon20230415 threeStore _ threeStore_keysAreIDs);
    rewrite E; [apply list_elem_of_here | apply list_elem_of_further, list_elem_of_here].
Defined.

(** ** Identifiers, the daily job and the backup *)

Lemma allTransactions_spec P (ts : Store) :
  allTransactions P ts = true <->
  forall u i t, transactionAt ts u i = Some t -> P t = true.
Proof.
  unfold allTransactions. rewrite forallb_forall. split.
  - intros H u i t Ht. unfold transactionAt in Ht.
    destruct (ts !! u) as [m|] eqn:E; [|discriminate].
    assert (In m (rangeValues ts)) as Hm.
    { apply list_elem_of_In, elem_of_rangeValues. eauto. }
    specialize (H m Hm). rewrite forallb_forall in H. apply H.
    apply list_elem_of_In, elem_of_rangeValues. eauto.
  - intros H m Hm. apply list_elem_of_In, elem_of_rangeValues in Hm as [u Hu].
    apply forallb_forall. intros t Ht.
    apply list_elem_of_In, elem_of_rangeValues in Ht as [i Hi].
    apply (H u i t). unfold transactionAt. now rewrite Hu.
Qed.

Lemma keysAreIDs_insert (ts : Store) u (m : gmap string Transaction) :
  keysAreIDs ts -> (forall id t, m !! id = Some t -> ID t = id) ->
  keysAreIDs (<[u := m]> ts).
Proof.
  intros K Hm u' m' id t Hu Hid.
  apply lookup_insert_Some in Hu as [[_ <-] | [_ Hu]].
  - now apply Hm.
  - exact (K u' m' id t Hu Hid).
Qed.

Lemma getInitialTransactions_keys now id t :
  getInitialTransactions now !! id = Some t -> ID t = id.
Proof.
  unfold getInitialTransactions. intros H.
  apply lookup_insert_Some in H as [[<- <-] | [_ H]]; [reflexivity|].
  apply lookup_insert_Some in H as [[<- <-] | [_ H]]; [reflexivity|].
  apply lookup_insert_Some in H as [[<- <-] | [_ H]]; [reflexivity|].
  rewrite lookup_empty in H. discriminate.
Qed.

Lemma lookupOrSeed_keys userID now ts :
  keysAreIDs ts -> keysAreIDs (snd (lookupOrSeed userID now ts)).
Proof.
  intros K. unfold lookupOrSeed. destruct (ts !! userID); cbn [snd]; [exact K|].
  apply keysAreIDs_insert; [exact K | apply getInitialTransactions_keys].
Qed.

Lemma CreateTransaction_keys userID req transactionID now ts :
  keysAreIDs ts ->
  keysAreIDs (snd (CreateTransaction userID req transactionID now ts)).
Proof.
  intros K.
  destruct (CreateTransaction_cases userID req transactionID now ts)
    as [[_ ->] | [(d & c & _ & _ & ->) | (d & _ & _ & ->)]]; cbn [snd];
    [exact K.. |].
  apply keysAreIDs_insert; [exact K|].
  intros id t H. apply lookup_insert_Some in H as [[<- <-] | [_ H]]; [reflexivity|].
  destruct (ts !! userID) as [m|] eqn:E.
  - exact (K userID m id t E H).
  - exact (getInitialTransactions_keys now id t H).
Qed.

Lemma DeleteTransaction_keys userID id ts :
  keysAreIDs ts -> keysAreIDs (DeleteTransaction userID id ts).
Proof.
  intros K. unfold DeleteTransaction.
  destruct (ts !! userID) as [m|] eqn:E; [|exact K].
  apply keysAreIDs_insert; [exact K|].
  intros id' t H. apply lookup_delete_Some in H as [_ H].
  exact (K userID m id' t E H).
Qed.

Lemma processList_keysAreIDs today uuid dues k (m : gmap string Transaction) :
  (forall id t, m !! id = Some t -> ID t = id) ->
  forall id t, fst (processList today uuid k dues m) !! id = Some t -> ID t = id.
Proof.
  revert k m. induction dues as [|d dues IH]; intros k m Hm; cbn [processList fst].
  - exact Hm.
  - apply IH. unfold processOne. intros id t H.
    apply lookup_insert_Some in H as [[<- <-] | [_ H]]; [reflexivity|].
    apply lookup_insert_Some in H as [[<- <-] | [_ H]].
    + now rewrite newTransactionOf_fields.
    + now apply Hm.
Qed.

Lemma processUsers_keysAreIDs today uuid users k (ts : Store) :
  (forall u (m : gmap string Transaction), (u, m) ∈ users ->
     forall id t, m !! id = Some t -> ID t = id) ->
  keysAreIDs ts -> keysAreIDs (processUsers today uuid k users ts).
Proof.
  revert k ts. induction users as [|[u m] users IH]; intros k ts Hu K;
    cbn [processUsers]; [exact K|].
  pose proof (processList_keysAreIDs today uuid
                (filter (fun t => dueToday today t) (rangeValues m)) k m
                (Hu u m ltac:(left))) as Hm.
  unfold processUser.
  destruct (processList today uuid k
              (filter (fun t => dueToday today t) (rangeValues m)) m) as [m' k'].
  cbn [fst] in Hm. apply IH.
  - intros u' m0 Hin. apply (Hu u' m0). now right.
  - now apply keysAreIDs_insert.
Qed.

Lemma ProcessAllRecurringTransactions_keys now uuid ts :
  keysAreIDs ts -> keysAreIDs (ProcessAllRecurringTransactions now uuid ts).
Proof.
  intros K. unfold ProcessAllRecurringTransactions.
  apply processUsers_keysAreIDs; [|exact K].
  intros u m Hin id t Hid. apply elem_of_map_to_list in Hin.
  exact (K u m id t Hin Hid).
Qed.

(** X10: in every store the operations reach from the empty one, each
    transaction is stored under its own identifier, whatever identifiers
    were drawn. *)
Theorem Reachable_keysAreIDs ts F : Reachable ts F -> keysAreIDs ts.
Proof.
  induction 1.
  - intros u m id t H. rewrite lookup_empty in H. discriminate.
  - rewrite GetTransactions_store. now apply lookupOrSeed_keys.
  - rewrite GetAllTransactions_store. now apply lookupOrSeed_keys.
  - now apply CreateTransaction_keys.
  - now apply DeleteTransaction_keys.
  - now apply ProcessAllRecurringTransactions_keys.
Qed.

Lemma Reachable_keysAreIDs_created :
  Reachable createdStore (fun _ _ => False) /\ keysAreIDs createdStore.
Proof.
  split; [exact createdStore_reachable|].
  exact (Reachable_keysAreIDs createdStore _ createdStore_reachable).
Defined.

(** X11: every repeat specification stored in a store the operations
    reach from the empty one passes [validateRepeatString]. *)
Theorem Reachable_specs_valid ts F u i t :
  Reachable ts F -> transactionAt ts u i = Some t ->
  validateRepeatString (RepeatTime t) = None.
Proof.
  intros R Ht. unfold transactionAt in Ht.
  destruct (ts !! u) as [m|] eqn:E; [|discriminate].
  destruct (Reachable_good ts F R u m E i t Ht) as [G _].
  destruct (String.eqb_spec (RepeatTime t) "") as [-> | n]; [reflexivity|].
  exact (proj1 (G n)).
Qed.

Lemma Reachable_specs_valid_created :
  transactionAt createdStore "u" "t1" = Some gym /\
  validateRepeatString (RepeatTime gym) = None.
Proof.
  assert (transactionAt createdStore "u" "t1" = Some gym) as H by by_vm.
  split; [exact H|].
  exact (Reachable_specs_valid createdStore _ "u" "t1" gym createdStore_reachable H).
Defined.

Lemma filter_none {A} (P : A -> bool) (l : list A) :
  forallb (fun x => negb (P x)) l = true -> filter P l = [].
Proof.
  induction l as [|x l IH]; cbn [forallb]; [reflexivity|].
  intros H. apply andb_true_iff in H as [Hx Hl].
  rewrite filter_cons_bool. destruct (P x); [discriminate | now apply IH].
Qed.

Lemma processUsers_nothing_due today uuid users k (ts : Store) :
  (forall u (m : gmap string Transaction), (u, m) ∈ users ->
     ts !! u = Some m /\
     forallb (fun t => negb (dueToday today t)) (rangeValues m) = true) ->
  processUsers today uuid k users ts = ts.
Proof.
  revert k. induction users as [|[u m] users IH]; intros k H;
    cbn [processUsers]; [reflexivity|].
  destruct (H u m ltac:(left)) as [Hu Hm].
  unfold processUser. rewrite (filter_none _ _ Hm). cbn [processList].
  rewrite (insert_id ts u m Hu). apply IH.
  intros u' m' Hin. apply H. now right.
Qed.

(** X12: when no stored transaction is due on the day of the run,
    [ProcessAllRecurringTransactions] leaves the store as it is. *)
Theorem ProcessAllRecurringTransactions_nothing_due now uuid ts :
  allTransactions (fun t => negb (dueToday (GoTime.Truncate24h now) t)) ts = true ->
  ProcessAllRecurringTransactions now uuid ts = ts.
Proof.
  intros H. unfold ProcessAllRecurringTransactions.
  apply processUsers_nothing_due. intros u m Hin.
  apply elem_of_map_to_list in Hin. split; [exact Hin|].
  unfold allTransactions in H. rewrite forallb_forall in H. apply H.
  apply list_elem_of_In, elem_of_rangeValues. eauto.
Qed.

Lemma ProcessAllRecurringTransactions_nothing_due_April_10 :
  ProcessAllRecurringTransactions noon20230410 ticks gymStore = gymStore.
Proof.
  apply ProcessAllRecurringTransactions_nothing_due. by_vm.
Defined.

Lemma processList_keeps today uuid dues k (m : gmap string Transaction) id :
  is_Some (m !! id) -> is_Some (fst (processList today uuid k dues m) !! id).
Proof.
  revert k m. induction dues as [|d dues IH]; intros k m H; cbn [processList fst];
    [exact H|].
  apply IH. unfold processOne.
  apply lookup_insert_is_Some'. right. apply lookup_insert_is_Some'. now right.
Qed.

(** X13: [ProcessAllRecurringTransactions] removes nothing: an
    identifier a user had before the run is still one of that user's
    after it. *)
Theorem ProcessAllRecurringTransactions_keeps now uuid ts u i t :
  transactionAt ts u i = Some t ->
  exists t', transactionAt (ProcessAllRecurringTransactions now uuid ts) u i = Some t'.
Proof.
  unfold transactionAt at 1. destruct (ts !! u) as [m|] eqn:E; [|discriminate].
  intros Hi. unfold ProcessAllRecurringTransactions.
  destruct (processUsers_lookup (GoTime.Truncate24h now) uuid (map_to_list ts) 0%nat
              ts u m) as [k' Hk'].
  - apply NoDup_fst_map_to_list.
  - now apply elem_of_map_to_list.
  - unfold transactionAt. rewrite Hk'. unfold processUser.
    apply (processList_keeps (GoTime.Truncate24h now) uuid _ k' m i). eauto.
Qed.

Lemma ProcessAllRecurringTransactions_keeps_gym :
  exists t',
    transactionAt (ProcessAllRecurringTransactions noon20230415 ticks gymStore) "u" "t1"
    = Some t'.
Proof.
  refine (ProcessAllRecurringTransactions_keeps noon20230415 ticks gymStore "u" "t1"
            gym _).
  by_vm.
Defined.

(** X14: a backup of a store in which no transaction has a repeat
    specification is that store: restoring it loses nothing. *)
Theorem GetBackupData_exact_without_repeat_specs ts :
  allTransactions (fun t => (RepeatTime t =? "")%string) ts = true ->
  GetBackupData ts = ts.
Proof.
  intros H. rewrite allTransactions_spec in H.
  unfold GetBackupData. apply map_eq. intros u. rewrite lookup_fmap.
  destruct (ts !! u) as [m|] eqn:E; cbn [fmap option_fmap option_map]; [|reflexivity].
  f_equal. apply map_eq. intros i. rewrite lookup_fmap.
  destruct (m !! i) as [t|] eqn:Ei; cbn [fmap option_fmap option_map]; [|reflexivity].
  f_equal. specialize (H u i t). unfold transactionAt in H. rewrite E in H.
  specialize (H Ei). apply String.eqb_eq in H.
  destruct t as [? ? ? ? ? ? r]. cbn in *. now subst r.
Qed.

Lemma GetBackupData_exact_refund : GetBackupData refundStore = refundStore.
Proof.
  apply GetBackupData_exact_without_repeat_specs. by_vm.
Defined.

(** ** The next date is never before the reference day *)

Lemma partCandidate_not_before now part c :
  acceptedPart part -> partCandidate now part = Some c ->
  GoTime.off c = GoTime.off now /\
  GoTime.dayNumber now * GoTime.nsPerDay - GoTime.off now <= GoTime.abs c.
Proof.
  unfold acceptedPart, partCandidate. cbv zeta.
  set (p := TrimSpace part). intros A H.
  destruct (String.eqb_spec p "") as [E | NE]; [discriminate|].
  destruct A as [A | [(n & Hn & Hr) | W]]; [contradiction | |].
  - rewrite (candidate_number now p n Hn) in H. injection H as <-.
    pose proof (civil_of_time now) as (Hm & Hd & _).
    pose proof (inMonth_abs now n) as Habs.
    destruct (Z.leb_spec (GoTime.Day now) n) as [L | L].
    + split; [reflexivity|]. rewrite Habs.
      pose proof (mul_day_bounds 0 (n - GoTime.Day now) (n - GoTime.Day now)
                    ltac:(lia)). lia.
    + destruct (AddDate_month
                  (GoTime.Date (GoTime.Year now) (GoTime.Month now) n 0
                     (GoTime.off now))) as [Ha Ho].
      destruct (civil_Date (GoTime.Year now) (GoTime.Month now) n 0 (GoTime.off now))
        as (Ey & Em & _); [lia | lia | pose proof nsPerDay_pos; lia |].
      rewrite Ey, Em in Ha. split; [exact Ho|]. rewrite Ha, Habs.
      pose proof (mul_day_bounds 0
                    (n - GoTime.Day now
                     + GoTime.daysIn (GoTime.Year now) (GoTime.Month now))
                    (n - GoTime.Day now
                     + GoTime.daysIn (GoTime.Year now) (GoTime.Month now))
                    ltac:(lia)). lia.
  - apply convertToWeekDay_Some in W as [w Hw].
    destruct (candidate_weekday now p w Hw) as (c' & Hc & Ho & _ & _ & Ha).
    rewrite Hc in H. injection H as <-. split; [exact Ho|]. rewrite Ha.
    pose proof (daysUntil_range now w (convertToWeekDay_range p w Hw)).
    pose proof (mul_day_bounds 0 (daysUntil now w) (daysUntil now w) ltac:(lia)).
    lia.
Qed.

(** X15: for a specification [validateRepeatString] accepts, the date
    [calculateNextAppearDate] returns is in the location of the reference
    date, on the reference day or a later one, and not after the reference
    date shifted by a year. *)
Theorem calculateNextAppearDate_not_before now repeatTime :
  validateRepeatString repeatTime = None ->
  let result := fst (calculateNextAppearDate now repeatTime) in
  GoTime.off result = GoTime.off now /\
  GoTime.dayNumber now <= GoTime.dayNumber result /\
  GoTime.abs result <= GoTime.abs (GoTime.AddDate now 1 0 0).
Proof.
  intros Hv result. subst result.
  rewrite validateRepeatString_parts in Hv. apply validateParts_None in Hv.
  unfold calculateNextAppearDate. cbn [fst].
  pose proof (fold_nextAppearStep now (Split repeatTime) (GoTime.AddDate now 1 0 0))
    as H. cbv zeta in H. destruct H as (Hin & Hle & _).
  set (r := fold_left (nextAppearStep now) (Split repeatTime)
              (GoTime.AddDate now 1 0 0)) in *.
  assert (GoTime.off r = GoTime.off now /\
          GoTime.dayNumber now * GoTime.nsPerDay - GoTime.off now <= GoTime.abs r)
    as [Ho Ha].
  { destruct Hin as [-> | Hin].
    - destruct (AddDate_year now) as [Hy Hoff]. split; [exact Hoff|].
      destruct (wall_split now) as [Hw Ht]. unfold GoTime.wall in Hw.
      pose proof (mul_day_bounds 0 365 365 ltac:(lia)). lia.
    - apply list_elem_of_omap in Hin as (part & Hp & Hc).
      apply (partCandidate_not_before now part r); [|exact Hc].
      rewrite Forall_forall in Hv. now apply Hv. }
  split; [exact Ho|]. split; [|exact Hle].
  unfold GoTime.dayNumber at 2, GoTime.wall. rewrite Ho.
  apply Z.div_le_lower_bound; [exact nsPerDay_pos | lia].
Qed.

Lemma calculateNextAppearDate_not_before_April_15 :
  GoTime.dayNumber noon20230415
  <= GoTime.dayNumber (fst (calculateNextAppearDate noon20230415 "15, mon")).
Proof.
  refine (proj1 (proj2 (calculateNextAppearDate_not_before noon20230415 "15, mon" _))).
  by_vm.
Defined.

Lemma partCandidate_off now part c :
  partCandidate now part = Some c -> GoTime.off c = GoTime.off now.
Proof.
  unfold partCandidate. cbv zeta.
  destruct (TrimSpace part =? "")%string; [discriminate|].
  unfold candidate.
  destruct (Atoi (TrimSpace part)) as [date|].
  - intros [= <-]. destruct (GoTime.Day now <=? date); reflexivity.
  - destruct (convertToWeekDay (TrimSpace part)); [|discriminate].
    intros [= <-]. reflexivity.
Qed.

(** X26: the date [calculateNextAppearDate] returns does not depend on
    the order of the parts of the specification: two specifications with
    the same parts in another order give the same date. *)
Theorem calculateNextAppearDate_any_order now repeatTime repeatTime' :
  Split repeatTime ≡ₚ Split repeatTime' ->
  fst (calculateNextAppearDate now repeatTime)
  = fst (calculateNextAppearDate now repeatTime').
Proof.
  intros Hp. unfold calculateNextAppearDate. cbn [fst].
  pose proof (fold_nextAppearStep now (Split repeatTime) (GoTime.AddDate now 1 0 0))
    as H1.
  pose proof (fold_nextAppearStep now (Split repeatTime') (GoTime.AddDate now 1 0 0))
    as H2.
  cbv zeta in H1, H2.
  set (r1 := fold_left (nextAppearStep now) (Split repeatTime) _) in *.
  set (r2 := fold_left (nextAppearStep now) (Split repeatTime') _) in *.
  destruct H1 as (In1 & Le1 & All1). destruct H2 as (In2 & Le2 & All2).
  assert (omap (partCandidate now) (Split repeatTime)
          ≡ₚ omap (partCandidate now) (Split repeatTime')) as Hc
    by now rewrite Hp.
  rewrite Forall_forall in All1, All2.
  assert (GoTime.abs r1 <= GoTime.abs r2) as L12.
  { destruct In2 as [-> | In2]; [exact Le1|]. apply All1. now rewrite Hc. }
  assert (GoTime.abs r2 <= GoTime.abs r1) as L21.
  { destruct In1 as [-> | In1]; [exact Le2|]. apply All2. now rewrite <- Hc. }
  assert (forall r (parts : list string),
            r = GoTime.AddDate now 1 0 0 \/ r ∈ omap (partCandidate now) parts ->
            GoTime.off r = GoTime.off now) as Hoff.
  { intros r parts [-> | Hin]; [apply AddDate_year|].
    apply list_elem_of_omap in Hin as (part & _ & Hc').
    exact (partCandidate_off now part r Hc'). }
  pose proof (Hoff r1 _ In1) as O1. pose proof (Hoff r2 _ In2) as O2.
  destruct r1 as [a1 o1], r2 as [a2 o2]. cbn [GoTime.abs GoTime.off] in *.
  f_equal; lia.
Qed.

Lemma calculateNextAppearDate_any_order_15_mon :
  fst (calculateNextAppearDate noon20230415 "15,mon")
  = fst (calculateNextAppearDate noon20230415 "mon,15").
Proof.
  apply calculateNextAppearDate_any_order.
  change (Split "15,mon") with ["15"; "mon"].
  change (Split "mon,15") with ["mon"; "15"].
  apply perm_swap.
Defined.

(** ** A day-of-month recurrence that fires on its day *)

Lemma Truncate24h_multiple now :
  GoTime.abs (GoTime.Truncate24h now) mod GoTime.nsPerDay = 0.
Proof.
  unfold GoTime.Truncate24h. cbn [GoTime.abs].
  pose proof nsPerDay_pos as HD.
  pose proof (Z.div_mod (GoTime.abs now) GoTime.nsPerDay ltac:(lia)) as E.
  replace (GoTime.abs now - GoTime.abs now mod GoTime.nsPerDay)
    with (GoTime.abs now / GoTime.nsPerDay * GoTime.nsPerDay) by lia.
  apply Z.mod_mul. lia.
Qed.

Lemma Truncate24h_fixed today :
  GoTime.abs today mod GoTime.nsPerDay = 0 -> GoTime.Truncate24h today = today.
Proof.
  destruct today as [a o]. unfold GoTime.Truncate24h. cbn [GoTime.abs GoTime.off].
  intros ->. now rewrite Z.sub_0_r.
Qed.

Lemma midnight_Date today :
  GoTime.off today = 0 -> GoTime.abs today mod GoTime.nsPerDay = 0 ->
  GoTime.Date (GoTime.Year today) (GoTime.Month today) (GoTime.Day today) 0 0
  = today.
Proof.
  intros Ho Hm. destruct (civil_of_time today) as (_ & _ & E).
  destruct (wall_split today) as [Hw Ht].
  unfold GoTime.Date. rewrite E.
  unfold GoTime.timeOfDay in Hw. unfold GoTime.wall in Hw.
  rewrite Ho, Z.add_0_r in Hw. rewrite Hm in Hw.
  destruct today as [a o]. cbn [GoTime.abs GoTime.off] in *. subst o.
  f_equal. lia.
Qed.

(** X27: in UTC, when a transaction whose specification is one day of
    the month fires on that day of the month, the transaction created from
    it gets that same day as its next date: it is due again on the day of
    the run, and on no later day. *)
Theorem day_of_month_successor_is_due_the_same_day now newID t d :
  let today := GoTime.Truncate24h now in
  let successor := newTransactionOf today newID t in
  GoTime.off now = 0 -> GoTime.IsZero today = false ->
  Split (RepeatTime t) = [RepeatTime t] ->
  Atoi (TrimSpace (RepeatTime t)) = Some d -> d = GoTime.Day today ->
  NextAppearDate successor = today /\
  dueToday today successor = true /\
  (forall k, 1 <= k ->
     dueToday (GoTime.Add today (k * GoTime.nsPerDay)) successor = false).
Proof.
  intros today successor Hoff Hz Hs Ha Hd. subst successor.
  rewrite newTransactionOf_fields.
  pose proof nsPerDay_pos as HD.
  assert (GoTime.off today = 0) as Ho by exact Hoff.
  pose proof (Truncate24h_multiple now) as Hm. fold today in Hm.
  assert (fst (calculateNextAppearDate today (RepeatTime t)) = today) as E.
  { rewrite calculateNextAppearDate_single by exact Hs.
    apply nextAppearStep_takes.
    - exact (Atoi_nonempty _ _ Ha).
    - rewrite (candidate_number today _ d Ha), Hd, Z.leb_refl, Ho.
      now rewrite (midnight_Date today Ho Hm).
    - destruct (AddDate_year today) as [Hy _].
      pose proof (mul_day_bounds 1 365 365 ltac:(lia)). lia. }
  assert (RepeatTime t <> "") as Hr.
  { intros Er. rewrite Er in Ha.
    change (Atoi (TrimSpace "")) with (@None Z) in Ha. discriminate. }
  unfold dueToday. cbn [NextAppearDate RepeatTime]. rewrite E.
  rewrite (Truncate24h_fixed today Hm), Hz.
  destruct (String.eqb_spec (RepeatTime t) "") as [Er | _]; [contradiction|].
  cbn [negb andb]. split; [reflexivity|]. split.
  - unfold GoTime.Equal. now rewrite Z.eqb_refl.
  - intros k Hk. unfold GoTime.Equal, GoTime.Add. cbn [GoTime.abs].
    pose proof (mul_day_bounds 1 k k ltac:(lia)).
    destruct (Z.eqb_spec (GoTime.abs today)
                (GoTime.abs today + k * GoTime.nsPerDay)); [lia | reflexivity].
Qed.

Lemma gym_successor_is_due_the_same_day :
  let today := GoTime.Truncate24h noon20230415 in
  NextAppearDate (newTransactionOf today "t2" gym) = today /\
  dueToday today (newTransactionOf today "t2" gym) = true.
Proof.
  cbv zeta.
  destruct (day_of_month_successor_is_due_the_same_day noon20230415 "t2" gym 15)
    as (H1 & H2 & _); try by_vm.
  exact (conj H1 H2).
Defined.

(** X28: when [validateRepeatString] accepts a specification and one of
    its parts is not blank, the date [calculateNextAppearDate] returns is
    less than 62 days after the reference date: the reference date plus one
    year is returned only for a specification with nothing but blank
    parts. *)
Theorem calculateNextAppearDate_within_two_months now repeatTime part :
  validateRepeatString repeatTime = None ->
  part ∈ Split repeatTime -> TrimSpace part <> "" ->
  GoTime.abs (fst (calculateNextAppearDate now repeatTime))
  < GoTime.abs now + 62 * GoTime.nsPerDay.
Proof.
  intros Hv Hin Hne.
  rewrite validateRepeatString_parts in Hv. apply validateParts_None in Hv.
  rewrite Forall_forall in Hv. pose proof (Hv part Hin) as A.
  unfold calculateNextAppearDate. cbn [fst].
  pose proof (fold_nextAppearStep now (Split repeatTime) (GoTime.AddDate now 1 0 0))
    as H. cbv zeta in H. destruct H as (_ & _ & Hall).
  rewrite Forall_forall in Hall.
  assert (exists c, partCandidate now part = Some c /\
                    GoTime.abs c < GoTime.abs now + 62 * GoTime.nsPerDay)
    as (c & Hc & Hb).
  { unfold partCandidate. cbv zeta.
    destruct (String.eqb_spec (TrimSpace part) "") as [E | _]; [contradiction|].
    destruct A as [A | [(n & Hn & Hr) | W]]; [contradiction | |].
    - pose proof (candidate_number now (TrimSpace part) n Hn) as Hc.
      eexists. split; [exact Hc|].
      exact (proj2 (proj2 (candidate_number_bounds now _ n _ Hn Hr Hc))).
    - apply convertToWeekDay_Some in W as [w Hw].
      destruct (candidate_weekday now _ w Hw) as (c & Hc & _ & _ & _ & Ha).
      exists c. split; [exact Hc|]. rewrite Ha.
      pose proof (daysUntil_range now w (convertToWeekDay_range _ w Hw)).
      destruct (wall_split now) as [Hw' Ht]. unfold GoTime.wall in Hw'.
      pose proof (mul_day_bounds (daysUntil now w) 7 7 ltac:(lia)).
      pose proof (mul_day_bounds 8 62 62 ltac:(lia)).
      pose proof nsPerDay_pos. lia. }
  assert (c ∈ omap (partCandidate now) (Split repeatTime)) as Hc'.
  { apply list_elem_of_omap. eauto. }
  pose proof (Hall c Hc'). lia.
Qed.

Lemma calculateNextAppearDate_within_two_months_April_15 :
  GoTime.abs (fst (calculateNextAppearDate noon20230415 "15, mon"))
  < GoTime.abs noon20230415 + 62 * GoTime.nsPerDay.
Proof.
  apply (calculateNextAppearDate_within_two_months noon20230415 "15, mon" " mon").
  - by_vm.
  - change (Split "15, mon") with ["15"; " mon"]. apply list_elem_of_further, list_elem_of_here.
  - change (TrimSpace " mon") with "mon". discriminate.
Defined.

(** ** The general statistics, the balance changes and the period *)

Lemma generalStatistics_fold l (income expenses : float) :
  fold_left
    (fun (acc : float * float) transaction =>
       if isIncome transaction
       then ((fst acc + Amount transaction)%float, snd acc)
       else (fst acc, (snd acc + Amount transaction)%float))
    l (income, expenses)
  = (fold_left (fun (acc : float) t => (acc + Amount t)%float)
       (filter (fun t => isIncome t) l) income,
     fold_left (fun (acc : float) t => (acc + Amount t)%float)
       (filter (fun t => negb (isIncome t)) l) expenses).
Proof.
  revert income expenses. induction l as [|t l IH]; intros income expenses;
    [reflexivity|].
  cbn [fold_left]. rewrite !filter_cons_bool.
  destruct (isIncome t); cbn [negb fst snd fold_left]; apply IH.
Qed.

(** X16: the income of the general statistics is the sum of the amounts
    of the transactions in the income category, the expenses the sum of
    the amounts of all the others, each added in the order of the list, and
    the balance is the income less the expenses. *)
Theorem calculateGeneralStatistics_sums transactions :
  let s := calculateGeneralStatistics transactions in
  Income s = sumAmounts (filter (fun t => isIncome t) transactions) /\
  Expenses s = sumAmounts (filter (fun t => negb (isIncome t)) transactions) /\
  Balance s = (Income s - Expenses s)%float.
Proof.
  cbv zeta. unfold calculateGeneralStatistics.
  rewrite generalStatistics_fold. cbn [Income Expenses Balance].
  repeat split.
Qed.

Lemma zeroDates_lookup dates (m : gmap string float) k :
  fold_left (fun (m : gmap string float) currentDate =>
               <[FormatDate currentDate := 0%float]> m) dates m !! k
  = if bool_decide (k ∈ map FormatDate dates) then Some 0%float else m !! k.
Proof.
  revert m. induction dates as [|d dates IH]; intros m; cbn [fold_left map].
  - rewrite bool_decide_eq_false_2; [reflexivity | apply not_elem_of_nil].
  - rewrite IH. destruct (decide (k ∈ map FormatDate dates)) as [Hin | Hout].
    + rewrite !bool_decide_eq_true_2; [reflexivity | now right | exact Hin].
    + rewrite (bool_decide_eq_false_2 _ Hout).
      destruct (decide (k = FormatDate d)) as [-> | Hne].
      * rewrite lookup_insert_eq. rewrite bool_decide_eq_true_2; [reflexivity | left].
      * rewrite lookup_insert_ne by congruence.
        rewrite bool_decide_eq_false_2; [reflexivity|].
        intros H. apply elem_of_cons in H as [H | H]; contradiction.
Qed.

Lemma balanceChanges_fold l (m : gmap string float) k :
  let m' :=
    fold_left
      (fun (m : gmap string float) transaction =>
         let dateStr := FormatDate (Date transaction) in
         if isIncome transaction
         then <[dateStr := (floatAt m dateStr + Amount transaction)%float]> m
         else <[dateStr := (floatAt m dateStr - Amount transaction)%float]> m)
      l m in
  floatAt m' k
  = fold_left
      (fun (acc : float) t =>
         if isIncome t then (acc + Amount t)%float else (acc - Amount t)%float)
      (filter (fun t => onDate k t) l) (floatAt m k) /\
  (is_Some (m' !! k) <->
   is_Some (m !! k) \/ exists t, t ∈ l /\ FormatDate (Date t) = k).
Proof.
  cbv zeta. revert m. induction l as [|t l IH]; intros m; cbn [fold_left].
  - split; [reflexivity|]. split; [now left|].
    intros [H | (t & Ht & _)]; [exact H | inversion Ht].
  - rewrite filter_cons_bool. unfold onDate at 1.
    assert ((exists t0, t0 ∈ t :: l /\ FormatDate (Date t0) = k)
            <-> FormatDate (Date t) = k \/
                exists t0, t0 ∈ l /\ FormatDate (Date t0) = k) as Hex.
    { split.
      - intros (t0 & Hin & E). apply elem_of_cons in Hin as [-> | Hin];
          [now left | right; eauto].
      - intros [E | (t0 & Hin & E)];
          [exists t; split; [left | exact E]
          | exists t0; split; [now right | exact E]]. }
    assert (forall v : float,
              is_Some (<[FormatDate (Date t) := v]> m !! k)
              <-> is_Some (m !! k) \/ FormatDate (Date t) = k) as Hins.
    { intros v. rewrite lookup_insert_is_Some.
      destruct (decide (FormatDate (Date t) = k)); intuition. }
    rewrite Hex.
    destruct (isIncome t) eqn:Ei.
    + destruct (IH (<[FormatDate (Date t) :=
                        (floatAt m (FormatDate (Date t)) + Amount t)%float]> m))
        as [IH1 IH2].
      rewrite IH1, IH2, Hins, floatAt_insert. split; [|tauto].
      destruct (String.eqb_spec (FormatDate (Date t)) k) as [-> | n];
        [cbn [fold_left]; now rewrite Ei | reflexivity].
    + destruct (IH (<[FormatDate (Date t) :=
                        (floatAt m (FormatDate (Date t)) - Amount t)%float]> m))
        as [IH1 IH2].
      rewrite IH1, IH2, Hins, floatAt_insert. split; [|tauto].
      destruct (String.eqb_spec (FormatDate (Date t)) k) as [-> | n];
        [cbn [fold_left]; now rewrite Ei | reflexivity].
Qed.

(** X17: in the balance changes, the value at a date is the change the
    transactions of that date make, incomes added and the others
    subtracted in the order of the list, starting from 0; and the dates
    that have an entry are the days of the period and the dates of the
    transactions. *)
Theorem calculateBalanceChangesByDate_entries transactions fromDate toDate dateStr :
  let changes := calculateBalanceChangesByDate transactions fromDate toDate in
  floatAt changes dateStr = balanceOn dateStr transactions /\
  (is_Some (changes !! dateStr) <->
   dateStr ∈ map FormatDate (periodDates fromDate toDate) \/
   exists t, t ∈ transactions /\ FormatDate (Date t) = dateStr).
Proof.
  cbv zeta. unfold calculateBalanceChangesByDate.
  match goal with
  | |- context [fold_left ?f transactions ?m0] =>
      destruct (balanceChanges_fold transactions m0 dateStr) as [H1 H2];
      set (zeros := m0) in *
  end.
  assert (zeros !! dateStr
          = if bool_decide (dateStr ∈ map FormatDate (periodDates fromDate toDate))
            then Some 0%float else None) as Hz.
  { subst zeros. rewrite zeroDates_lookup. now rewrite lookup_empty. }
  split.
  - refine (eq_trans H1 _). unfold balanceOn. f_equal. unfold floatAt. rewrite Hz.
    now destruct (bool_decide _).
  - refine (iff_trans H2 _). rewrite Hz. case_bool_decide as Hd.
    + split; [now left | eauto].
    + split.
      * intros [[x Hx] | H]; [discriminate | now right].
      * intros [H | H]; [contradiction | now right].
Qed.

Lemma Add_zero t : GoTime.Add t 0 = t.
Proof. destruct t as [a o]. unfold GoTime.Add. cbn. now rewrite Z.add_0_r. Qed.

Lemma AddDate_one_day t : GoTime.AddDate t 0 0 1 = GoTime.Add t GoTime.nsPerDay.
Proof.
  destruct (AddDate_days t 1) as [Ha Ho].
  destruct (GoTime.AddDate t 0 0 1) as [a o]. cbn in Ha, Ho.
  unfold GoTime.Add. f_equal; lia.
Qed.

Lemma datesLoop_days fuel currentDate toDate :
  Z.of_nat fuel
  = Z.max 0 ((GoTime.abs toDate - GoTime.abs currentDate) / GoTime.nsPerDay + 1) ->
  datesLoop fuel currentDate toDate
  = map (fun k => GoTime.Add currentDate (Z.of_nat k * GoTime.nsPerDay)) (seq 0 fuel).
Proof.
  revert currentDate. induction fuel as [|fuel IH]; intros currentDate Hf;
    [reflexivity|].
  pose proof nsPerDay_pos as HD.
  assert (0 <= (GoTime.abs toDate - GoTime.abs currentDate) / GoTime.nsPerDay) as Hq
    by lia.
  assert (0 <= GoTime.abs toDate - GoTime.abs currentDate) as Hle.
  { destruct (Z.le_gt_cases 0 (GoTime.abs toDate - GoTime.abs currentDate)) as [L | L];
      [exact L|].
    pose proof (Z.div_lt_upper_bound
                  (GoTime.abs toDate - GoTime.abs currentDate) GoTime.nsPerDay 0 HD
                  ltac:(lia)). lia. }
  cbn [datesLoop]. unfold GoTime.After.
  destruct (Z.ltb_spec (GoTime.abs toDate) (GoTime.abs currentDate)) as [L | _];
    [lia|].
  rewrite AddDate_one_day, IH.
  - cbn [seq map]. f_equal.
    + change (Z.of_nat 0 * GoTime.nsPerDay) with 0. symmetry. apply Add_zero.
    + rewrite <- seq_shift, map_map. apply map_ext. intros k.
      unfold GoTime.Add. cbn [GoTime.abs GoTime.off]. f_equal. lia.
  - unfold GoTime.Add. cbn [GoTime.abs].
    replace (GoTime.abs toDate - (GoTime.abs currentDate + GoTime.nsPerDay))
      with (GoTime.abs toDate - GoTime.abs currentDate + (-1) * GoTime.nsPerDay)
      by lia.
    rewrite Z.div_add by lia. lia.
Qed.

Lemma periodDates_fuel_length fromDate toDate :
  length (periodDates fromDate toDate)
  = Z.to_nat ((GoTime.abs toDate - GoTime.abs fromDate) / GoTime.nsPerDay + 1).
Proof.
  unfold periodDates. rewrite datesLoop_days by lia.
  now rewrite length_map, length_seq.
Qed.

(** X18: the loop of [GetStatistics] over the days of the period ends
    after one turn for each whole day between the start and the end, both
    included (more fuel changes nothing), none when the end is before the
    start; it visits the start date, the start date plus one day, plus two
    days, and so on. *)
Theorem periodDates_days fromDate toDate :
  let turns :=
    Z.to_nat ((GoTime.abs toDate - GoTime.abs fromDate) / GoTime.nsPerDay + 1) in
  (forall extra,
     datesLoop (turns + extra) fromDate toDate = periodDates fromDate toDate) /\
  periodDates fromDate toDate
  = map (fun k => GoTime.Add fromDate (Z.of_nat k * GoTime.nsPerDay)) (seq 0 turns).
Proof.
  cbv zeta. split.
  - intros extra. apply periodDates_fuel.
  - unfold periodDates. apply datesLoop_days. lia.
Qed.

(** The period when no date is given. *)
Lemma statisticsPeriod_unset now :
  statisticsPeriod GoTime.zeroTime GoTime.zeroTime now
  = (GoTime.Date (GoTime.Year now) (GoTime.Month now) 1 0 (GoTime.off now),
     GoTime.Date (GoTime.Year now) (GoTime.Month now)
       (GoTime.daysIn (GoTime.Year now) (GoTime.Month now)) 0 (GoTime.off now)).
Proof.
  unfold statisticsPeriod.
  change (GoTime.IsZero GoTime.zeroTime && GoTime.IsZero GoTime.zeroTime) with true.
  cbv iota. f_equal.
  pose proof nsPerDay_pos as HD.
  pose proof (civil_of_time now) as (Hm & _ & _).
  pose proof (daysIn_bounds (GoTime.Year now) (GoTime.Month now)) as Hb.
  set (y := GoTime.Year now) in *. set (m := GoTime.Month now) in *.
  destruct (civil_Date y m 1 0 (GoTime.off now)) as (Fy & Fm & Fd); [lia.. |].
  destruct (dayNumber_Date y m 1 0 (GoTime.off now)) as [Fn Ft]; [lia|].
  unfold GoTime.AddDate. rewrite Fy, Fm, Fd, Ft.
  unfold GoTime.Date. cbn [GoTime.off]. f_equal.
  replace (y + 0) with y by lia. change (1 + -1) with 0.
  rewrite daysFromCivil_next_month by lia.
  pose proof (daysFromCivil_add_day y m 0 (GoTime.daysIn y m)) as E0.
  rewrite Z.add_0_l in E0. rewrite E0. reflexivity.
Qed.

(** X19: asked without dates, [GetStatistics] works on the month of the
    clock reading, in its location: from the first day at midnight to the
    last day at midnight, one day of the walk for each day of the
    month. *)
Theorem statisticsPeriod_current_month now :
  let period := statisticsPeriod GoTime.zeroTime GoTime.zeroTime now in
  let y := GoTime.Year now in
  let m := GoTime.Month now in
  (GoTime.Year (fst period) = y /\ GoTime.Month (fst period) = m /\
   GoTime.Day (fst period) = 1 /\ GoTime.timeOfDay (fst period) = 0 /\
   GoTime.off (fst period) = GoTime.off now) /\
  (GoTime.Year (snd period) = y /\ GoTime.Month (snd period) = m /\
   GoTime.Day (snd period) = GoTime.daysIn y m /\
   GoTime.timeOfDay (snd period) = 0 /\
   GoTime.off (snd period) = GoTime.off now) /\
  length (periodDates (fst period) (snd period)) = Z.to_nat (GoTime.daysIn y m).
Proof.
  intros period y m. subst period. rewrite statisticsPeriod_unset. cbn [fst snd].
  fold y m.
  pose proof nsPerDay_pos as HD.
  pose proof (civil_of_time now) as (Hm & _ & _).
  pose proof (daysIn_bounds (GoTime.Year now) (GoTime.Month now)) as Hb.
  fold y m in Hm, Hb.
  destruct (civil_Date y m 1 0 (GoTime.off now)) as (Fy & Fm & Fd); [lia.. |].
  destruct (dayNumber_Date y m 1 0 (GoTime.off now)) as [Fn Ft]; [lia|].
  destruct (civil_Date y m (GoTime.daysIn y m) 0 (GoTime.off now))
    as (Ly & Lm & Ld); [lia.. |].
  destruct (dayNumber_Date y m (GoTime.daysIn y m) 0 (GoTime.off now))
    as [Ln Lt]; [lia|].
  split; [repeat split; assumption|]. split; [repeat split; assumption|].
  rewrite periodDates_fuel_length.
  unfold GoTime.Date. cbn [GoTime.abs].
  set (k := GoTime.daysIn y m) in *.
  pose proof (daysFromCivil_add_day y m 1 (k - 1)) as E.
  replace (1 + (k - 1)) with k in E by lia. rewrite E.
  set (a := GoTime.daysFromCivil y m 1). set (D := GoTime.nsPerDay) in *.
  clearbody a D k.
  replace ((a + (k - 1)) * D + 0 - GoTime.off now - (a * D + 0 - GoTime.off now))
    with ((k - 1) * D) by lia.
  rewrite Z.div_mul by lia. replace (k - 1 + 1) with k by lia. reflexivity.
Qed.

(** ** Dates read and rendered *)

Lemma digitOf_digitChar c d :
  digitOf c = Some d -> 0 <= d <= 9 /\ c = digitChar d.
Proof.
  unfold digitOf, digitChar, byteOf. cbv zeta.
  destruct (Z.leb_spec 48 (Z.of_N (N_of_ascii c))) as [L1 | L1]; [|discriminate].
  destruct (Z.leb_spec (Z.of_N (N_of_ascii c)) 57) as [L2 | L2]; [|discriminate].
  cbn [andb]. intros [= <-]. split; [lia|].
  replace (48 + (Z.of_N (N_of_ascii c) - 48)) with (Z.of_N (N_of_ascii c)) by lia.
  now rewrite N2Z.id, ascii_N_embedding.
Qed.

Lemma in_decimalDigits d : 0 <= d <= 9 -> In d decimalDigits.
Proof. unfold decimalDigits. cbn [In]. lia. Qed.

Lemma appendInt_two_digits a b :
  0 <= a <= 9 -> 0 <= b <= 9 ->
  appendInt (10 * a + b) 2 = String (digitChar a) (String (digitChar b) "").
Proof.
  intros Ha Hb.
  assert (forallb (fun a => forallb (fun b =>
            (appendInt (10 * a + b) 2
             =? String (digitChar a) (String (digitChar b) ""))%string) decimalDigits) decimalDigits
          = true) as H by (vm_compute; reflexivity).
  rewrite forallb_forall in H. specialize (H a (in_decimalDigits a Ha)).
  rewrite forallb_forall in H. specialize (H b (in_decimalDigits b Hb)).
  now apply String.eqb_eq.
Qed.

Lemma appendInt_four_digits a b c d :
  0 <= a <= 9 -> 0 <= b <= 9 -> 0 <= c <= 9 -> 0 <= d <= 9 ->
  appendInt (100 * (10 * a + b) + (10 * c + d)) 4
  = String (digitChar a) (String (digitChar b)
      (String (digitChar c) (String (digitChar d) ""))).
Proof.
  intros Ha Hb Hc Hd.
  assert (forallb (fun a => forallb (fun b => forallb (fun c => forallb (fun d =>
            (appendInt (100 * (10 * a + b) + (10 * c + d)) 4
             =? String (digitChar a) (String (digitChar b)
                  (String (digitChar c) (String (digitChar d) ""))))%string)
            decimalDigits) decimalDigits) decimalDigits) decimalDigits = true) as H by (vm_compute; reflexivity).
  rewrite forallb_forall in H. specialize (H a (in_decimalDigits a Ha)).
  rewrite forallb_forall in H. specialize (H b (in_decimalDigits b Hb)).
  rewrite forallb_forall in H. specialize (H c (in_decimalDigits c Hc)).
  rewrite forallb_forall in H. specialize (H d (in_decimalDigits d Hd)).
  now apply String.eqb_eq.
Qed.

Lemma twoDigits_chars a b n :
  twoDigits a b = Some n ->
  exists x y, 0 <= x <= 9 /\ 0 <= y <= 9 /\ n = 10 * x + y /\
              a = digitChar x /\ b = digitChar y.
Proof.
  unfold twoDigits.
  destruct (digitOf a) as [x|] eqn:Ea; [|discriminate].
  destruct (digitOf b) as [y|] eqn:Eb; [|discriminate].
  intros [= <-].
  destruct (digitOf_digitChar a x Ea) as [Hx ->].
  destruct (digitOf_digitChar b y Eb) as [Hy ->].
  exists x, y. repeat split; lia.
Qed.

(** The strings [parseDate] reads. *)
Lemma parseDate_Some s t :
  parseDate s = Some t ->
  exists y1 y2 y3 y4 m1 m2 d1 d2 yh yl m d,
    s = String y1 (String y2 (String y3 (String y4 (String "-"
          (String m1 (String m2 (String "-" (String d1 (String d2 ""))))))))) /\
    twoDigits y1 y2 = Some yh /\ twoDigits y3 y4 = Some yl /\
    twoDigits m1 m2 = Some m /\ twoDigits d1 d2 = Some d /\
    1 <= m <= 12 /\ 1 <= d <= GoTime.daysIn (100 * yh + yl) m /\
    t = GoTime.Date (100 * yh + yl) m d 0 0.
Proof.
  unfold parseDate.
  destruct s as [|y1 s]; [discriminate|]. destruct s as [|y2 s]; [discriminate|].
  destruct s as [|y3 s]; [discriminate|]. destruct s as [|y4 s]; [discriminate|].
  destruct s as [|dash1 s]; [discriminate|]. destruct s as [|m1 s]; [discriminate|].
  destruct s as [|m2 s]; [discriminate|]. destruct s as [|dash2 s]; [discriminate|].
  destruct s as [|d1 s]; [discriminate|]. destruct s as [|d2 s]; [discriminate|].
  destruct s as [|extra s]; [|discriminate].
  destruct (Ascii.eqb_spec dash1 "-"%char) as [-> | n]; [|discriminate].
  destruct (Ascii.eqb_spec dash2 "-"%char) as [-> | n]; [|discriminate].
  cbn [andb].
  destruct (twoDigits y1 y2) as [yh|] eqn:Eyh; [|discriminate].
  destruct (twoDigits y3 y4) as [yl|] eqn:Eyl; [|discriminate].
  destruct (twoDigits m1 m2) as [m|] eqn:Em; [|discriminate].
  destruct (twoDigits d1 d2) as [d|] eqn:Ed; [|discriminate].
  cbv zeta.
  destruct (Z.leb_spec 1 m); [|discriminate].
  destruct (Z.leb_spec m 12); [|discriminate].
  destruct (Z.leb_spec 1 d); [|discriminate].
  destruct (Z.leb_spec d (GoTime.daysIn (100 * yh + yl) m)); [|discriminate].
  cbn [andb]. intros [= <-].
  exists y1, y2, y3, y4, m1, m2, d1, d2, yh, yl, m, d. repeat split; first [assumption | lia | reflexivity].
Qed.

(** X20: a date [time.Parse] reads with the layout [2006-01-02] is
    rendered by [Format] with that layout as the same string; it is the
    start of that day in UTC.  So a transaction is grouped in the
    statistics under the date string of its request. *)
Theorem parseDate_FormatDate s t :
  parseDate s = Some t ->
  FormatDate t = s /\ GoTime.timeOfDay t = 0 /\ GoTime.off t = 0.
Proof.
  intros H.
  destruct (parseDate_Some s t H)
    as (y1 & y2 & y3 & y4 & m1 & m2 & d1 & d2 & yh & yl & m & d
        & -> & Hyh & Hyl & Hm & Hd & Rm & Rd & ->).
  pose proof nsPerDay_pos as HD.
  destruct (civil_Date (100 * yh + yl) m d 0 0 Rm Rd ltac:(lia)) as (Ey & Em & Ed).
  destruct (dayNumber_Date (100 * yh + yl) m d 0 0 ltac:(lia)) as [_ Et].
  split; [|split; [exact Et | reflexivity]].
  unfold FormatDate. rewrite Ey, Em, Ed.
  destruct (twoDigits_chars _ _ _ Hyh) as (a1 & a2 & ? & ? & -> & -> & ->).
  destruct (twoDigits_chars _ _ _ Hyl) as (a3 & a4 & ? & ? & -> & -> & ->).
  destruct (twoDigits_chars _ _ _ Hm) as (b1 & b2 & ? & ? & -> & -> & ->).
  destruct (twoDigits_chars _ _ _ Hd) as (c1 & c2 & ? & ? & -> & -> & ->).
  rewrite appendInt_four_digits, !appendInt_two_digits by assumption.
  reflexivity.
Qed.

Lemma parseDate_FormatDate_April_10 :
  parseDate "2023-04-10" = Some (GoTime.Date 2023 4 10 0 0) /\
  FormatDate (GoTime.Date 2023 4 10 0 0) = "2023-04-10".
Proof.
  assert (parseDate "2023-04-10" = Some (GoTime.Date 2023 4 10 0 0)) as H by by_vm.
  split; [exact H|].
  exact (proj1 (parseDate_FormatDate "2023-04-10" _ H)).
Defined.

(** ** The categories service *)

Module CategoriesServiceFacts.

Import CategoriesService.

Section Strings.

Variable TrimSpace : string -> string.
Variable ToLower : string -> string.
Variable EqualFold : string -> string -> bool.

(** What [CreateCategory] does, case by case; [taken] is the test of its
    two loops. *)
Lemma CreateCategory_cases userID category cs :
  let userCategories := default [] (cs !! userID) in
  let seen :=
    match cs !! userID with
    | Some _ => cs
    | None => <[userID := []]> cs
    end in
  let taken :=
    existsb (fun c => EqualFold (Name c) (Name category))
      (baseCategories ++ userCategories) in
  CreateCategory TrimSpace EqualFold userID category cs
  = if (TrimSpace (Name category) =? "")%string then (Some EmptyName, cs)
    else if taken
    then (Some (if existsb (fun c => EqualFold (Name c) (Name category))
                     userCategories
                then AlreadyExists (Name category)
                else AlreadyInBase (Name category)), seen)
    else (None, <[userID := (userCategories ++ [category])%list]> seen).
Proof.
  cbv zeta. unfold CreateCategory.
  destruct (TrimSpace (Name category) =? "")%string; [reflexivity|].
  assert (default [] ((match cs !! userID with
                       | Some _ => cs
                       | None => <[userID := []]> cs
                       end) !! userID) = default [] (cs !! userID)) as ->.
  { destruct (cs !! userID) as [l|] eqn:E; [now rewrite E|].
    now rewrite lookup_insert_eq. }
  rewrite existsb_app.
  destruct (existsb _ (default [] (cs !! userID))); [now rewrite orb_true_r|].
  rewrite orb_false_r.
  now destruct (existsb _ baseCategories).
Qed.

Lemma GetCategories_default userID nameFilter (cs cs' : CategoryStore) :
  default [] (cs !! userID) = default [] (cs' !! userID) ->
  GetCategories ToLower userID nameFilter cs
  = GetCategories ToLower userID nameFilter cs'.
Proof. unfold GetCategories. now intros ->. Qed.

(** X21: [CreateCategory] accepts a category exactly when its name is
    not blank and equals, under case folding, no base category and no
    category the user has; then the user's list ends with it.  Whatever the
    outcome, [GetCategories] answers every user and every filter as it
    would on the store before, or on that store with the category added at
    the end of that user's list when it was accepted. *)
Theorem CreateCategory_outcome userID category cs u nameFilter :
  let result := CreateCategory TrimSpace EqualFold userID category cs in
  let userCategories := default [] (cs !! userID) in
  let accepted :=
    negb (TrimSpace (Name category) =? "")%string
    && negb (existsb (fun c => EqualFold (Name c) (Name category))
               (baseCategories ++ userCategories)) in
  (fst result = None <-> accepted = true) /\
  GetCategories ToLower u nameFilter (snd result)
  = GetCategories ToLower u nameFilter
      (if accepted then <[userID := (userCategories ++ [category])%list]> cs
       else cs).
Proof.
  cbv zeta. rewrite CreateCategory_cases. cbv zeta.
  destruct (TrimSpace (Name category) =? "")%string; cbn [negb andb fst snd].
  - split; [split; discriminate | reflexivity].
  - destruct (existsb _ (baseCategories ++ default [] (cs !! userID)));
      cbn [negb fst snd].
    + split; [split; discriminate|].
      apply GetCategories_default.
      destruct (cs !! userID) as [l|] eqn:E; [reflexivity|].
      destruct (decide (userID = u)) as [<- | n].
      * now rewrite lookup_insert_eq, E.
      * now rewrite lookup_insert_ne.
    + split; [split; reflexivity|].
      apply GetCategories_default.
      destruct (decide (userID = u)) as [<- | n].
      * now rewrite !lookup_insert_eq.
      * rewrite !lookup_insert_ne by exact n.
        destruct (cs !! userID) as [l|] eqn:E; [reflexivity|].
        now rewrite lookup_insert_ne.
Qed.

Lemma distinctNames_nil : distinctNames TrimSpace EqualFold [].
Proof.
  split; [|split].
  - intros i j a b _ H. rewrite lookup_nil in H. discriminate.
  - intros b c _ [].
  - intros c [].
Qed.

Lemma distinctNames_snoc l c :
  distinctNames TrimSpace EqualFold l ->
  existsb (fun e => EqualFold (Name e) (Name c)) (baseCategories ++ l) = false ->
  TrimSpace (Name c) <> "" ->
  distinctNames TrimSpace EqualFold (l ++ [c]).
Proof.
  intros (H1 & H2 & H3) Hc Hn.
  assert (forall e, In e (baseCategories ++ l) -> EqualFold (Name e) (Name c) = false)
    as Hc'.
  { intros e He. destruct (EqualFold (Name e) (Name c)) eqn:Ee; [|reflexivity].
    rewrite <- Hc. symmetry. apply existsb_exists. eauto. }
  split; [|split].
  - intros i j a b Hij Ha Hb.
    apply lookup_app_Some in Hb as [Hb | [Hlen Hb]].
    + assert (i < length l)%nat as Hi.
      { apply lookup_lt_Some in Hb. lia. }
      rewrite lookup_app_l in Ha by exact Hi.
      exact (H1 i j a b Hij Ha Hb).
    + destruct (j - length l)%nat as [|k] eqn:Ej; cbn in Hb; [|discriminate].
      injection Hb as <-.
      rewrite lookup_app_l in Ha by lia.
      apply Hc', in_or_app. right.
      apply list_elem_of_In. exact (list_elem_of_lookup_2 l i a Ha).
  - intros b c' Hb Hin. apply in_app_or in Hin as [Hin | [<- | []]].
    + exact (H2 b c' Hb Hin).
    + apply Hc', in_or_app. now left.
  - intros c' Hin. apply in_app_or in Hin as [Hin | [<- | []]].
    + exact (H3 c' Hin).
    + exact Hn.
Qed.

(** X22: in every store [CreateCategory] reaches from the empty one, no
    category of a user equals a base category or an earlier category of
    that user under case folding, and no name is blank. *)
Theorem Reachable_distinctNames cs u l :
  Reachable TrimSpace EqualFold cs -> cs !! u = Some l ->
  distinctNames TrimSpace EqualFold l.
Proof.
  intros R. revert u l. induction R as [|userID category cs R IH]; intros u l Hl.
  - rewrite lookup_empty in Hl. discriminate.
  - rewrite CreateCategory_cases in Hl. cbv zeta in Hl.
    assert (forall (cs' : CategoryStore),
              cs' = match cs !! userID with
                    | Some _ => cs
                    | None => <[userID := []]> cs
                    end ->
              forall u l, cs' !! u = Some l -> distinctNames TrimSpace EqualFold l)
      as Hseen.
    { intros cs' -> u' l' H'. destruct (cs !! userID) as [l0|] eqn:E.
      - exact (IH u' l' H').
      - apply lookup_insert_Some in H' as [[_ <-] | [_ H']].
        + apply distinctNames_nil.
        + exact (IH u' l' H'). }
    destruct (String.eqb_spec (TrimSpace (Name category)) "") as [Eb | Nb];
      cbn [snd] in Hl; [exact (IH u l Hl)|].
    destruct (existsb _ (baseCategories ++ default [] (cs !! userID))) eqn:Et;
      cbn [snd] in Hl.
    + exact (Hseen _ eq_refl u l Hl).
    + apply lookup_insert_Some in Hl as [[_ <-] | [_ Hl]].
      * apply distinctNames_snoc; [|exact Et | exact Nb].
        destruct (cs !! userID) as [l0|] eqn:E; cbn [default].
        -- exact (IH userID l0 E).
        -- apply distinctNames_nil.
      * exact (Hseen _ eq_refl u l Hl).
Qed.

End Strings.

Lemma Reachable_distinctNames_pets :
  distinctNames GoStrings.TrimSpace
    (fun a b => (GoStrings.ToLower a =? GoStrings.ToLower b)%string)
    [mkCategory "Pets"; mkCategory "Garden"].
Proof.
  refine (Reachable_distinctNames GoStrings.TrimSpace
            (fun a b => (GoStrings.ToLower a =? GoStrings.ToLower b)%string)
            (snd (CreateCategory GoStrings.TrimSpace
                    (fun a b => (GoStrings.ToLower a =? GoStrings.ToLower b)%string)
                    "u" (mkCategory "Garden")
                    (snd (CreateCategory GoStrings.TrimSpace
                            (fun a b =>
                               (GoStrings.ToLower a =? GoStrings.ToLower b)%string)
                            "u" (mkCategory "Pets") ∅))))
            "u" _ _ _).
  - apply reach_create, reach_create, reach_init.
  - by_vm.
Defined.

(** X23: the backup of the categories is the store itself: every user,
    every list and every name is copied. *)
Theorem GetBackupData_exact (cs : CategoryStore) : GetBackupData cs = cs.
Proof.
  unfold GetBackupData. apply map_eq. intros u. rewrite lookup_fmap.
  destruct (cs !! u) as [l|]; cbn [fmap option_fmap option_map]; [|reflexivity].
  f_equal. induction l as [|[name] l IH]; [reflexivity|].
  cbn [map Name]. now rewrite IH.
Qed.

End CategoriesServiceFacts.

(** ** The pagination parameters of the API *)

Lemma Atoi_range s v : Atoi s = Some v -> minInt <= v <= maxInt.
Proof.
  unfold Atoi. destruct s as [|c r]; [discriminate|]. cbv zeta.
  destruct (if _ : bool then r else String c r); [discriminate|].
  destruct (parseDigits 0 _) as [n|]; [|discriminate].
  destruct (Z.leb_spec minInt (if Ascii.eqb c "-" then - n else n)); [|discriminate].
  destruct (Z.leb_spec (if Ascii.eqb c "-" then - n else n) maxInt); [|discriminate].
  cbn [andb]. intros [= <-]. lia.
Qed.

(** X24: [getPaginationParameter] returns a value exactly in two cases:
    the parameter is absent or empty, and the value is the default; or
    [strconv.Atoi] reads the parameter as an integer of at least 1, and the
    value is that integer.  Zero, a negative number and text that is not a
    number give an error. *)
Theorem getPaginationParameter_accepts parameter defaultValue value :
  getPaginationParameter parameter defaultValue = inr value <->
  (parameter = "" /\ value = defaultValue) \/
  (Atoi parameter = Some value /\ 1 <= value <= maxInt).
Proof.
  unfold getPaginationParameter.
  destruct (String.eqb_spec parameter "") as [-> | Hne].
  - split.
    + intros [= <-]. now left.
    + intros [[_ ->] | [H _]]; [reflexivity | discriminate].
  - destruct (Atoi parameter) as [v|] eqn:Ea.
    + pose proof (Atoi_range parameter v Ea) as Hr.
      destruct (Z.leb_spec v 0) as [L | L].
      * split; [discriminate|].
        intros [[E _] | [[= <-] H]]; [contradiction | lia].
      * split.
        -- intros [= <-]. right. split; [reflexivity | lia].
        -- intros [[E _] | [[= <-] _]]; [contradiction | reflexivity].
    + split; [discriminate|].
      intros [[E _] | [H _]]; [contradiction | discriminate].
Qed.
